(** * Cloudflare Access scripts: [enable_public_api.py] and [fix_zero_trust.py]

    A shallow embedding of the two scripts of the repository.  Both are
    short, top-to-bottom sequences of HTTP calls against the vendor
    Access API, with prints in between.  The embedding keeps

    - the JSON documents the scripts manipulate as a Python value type
      ([pyval]) together with the dynamically typed operations the
      scripts apply to them (subscripting, iteration, truthiness,
      [==] against a string literal, f-string formatting);
    - the effects as a state-and-exception monad over a [world] that
      holds the state of the remote service, the lines printed so far
      and the requests issued so far (in order);
    - the remote service as a parameter: a transition function
      [urlopen] on an arbitrary state type, and likewise the text
      functions of Python's library ([json.dumps], [json.loads], UTF-8).

    Properties of the requests a script issues are proved for every
    service.  Properties of the state of the service after a run are
    proved against [AccessAPI], a reference model of the vendor API
    written from section 6 of the specification.

    The file has five parts: the model, the vocabulary of the
    statements, the properties the specification states, further
    properties of the scripts, and worked examples. *)

From Stdlib Require Import List String Ascii Bool ZArith Lia.
From Stdlib Require Import Strings.Byte.
From Stdlib Require Import DecimalString DecimalZ.
Import ListNotations.
Local Open Scope list_scope.
Local Open Scope string_scope.
Set Warnings "-register-all".

(** ** Python values *)

(** JSON documents as Python sees them after [json.loads]: [None],
    booleans, integers, strings, lists, and dicts with string keys in
    insertion order.  Floats never occur in the documents the scripts
    build or inspect and are left out.  A Python [str] is a [string]
    here, its characters 8-bit code points. *)
Inductive pyval : Type :=
| PNone
| PBool (b : bool)
| PInt (z : Z)
| PStr (s : string)
| PList (l : list pyval)
| PDict (d : list (string * pyval)).

(** The exceptions the scripts can meet. *)
Inductive exn : Type :=
| TypeError
| KeyError (key : string)
| AttributeError
| UnicodeDecodeError
| JSONDecodeError
| URLError (reason : string).

Inductive result (A : Type) : Type :=
| Ret (a : A)
| Raise (e : exn).
Arguments Ret {A} a.
Arguments Raise {A} e.

Definition dquote : ascii := "034"%char.

Module Py.

(** [bool(v)], as used by [if data:], [if not api_app:] and
    [if existing_policy:]. *)
Definition truthy (v : pyval) : bool :=
  match v with
  | PNone => false
  | PBool b => b
  | PInt z => negb (Z.eqb z 0)
  | PStr s => negb (String.eqb s "")
  | PList l => match l with [] => false | _ => true end
  | PDict d => match d with [] => false | _ => true end
  end.

Fixpoint assoc (k : string) (d : list (string * pyval)) : option pyval :=
  match d with
  | [] => None
  | (k', v) :: d' => if String.eqb k k' then Some v else assoc k d'
  end.

(** [v[k]] for a string literal [k]: only a dict can be subscripted by
    a string; [None], numbers, lists and strings raise [TypeError], a
    dict without the key raises [KeyError]. *)
Definition subscript (v : pyval) (k : string) : result pyval :=
  match v with
  | PDict d => match assoc k d with
               | Some x => Ret x
               | None => Raise (KeyError k)
               end
  | _ => Raise TypeError
  end.

Fixpoint chars (s : string) : list pyval :=
  match s with
  | EmptyString => []
  | String c s' => PStr (String c EmptyString) :: chars s'
  end.

(** [iter(v)]: the elements a [for] loop or a generator expression
    walks through. *)
Definition iter (v : pyval) : result (list pyval) :=
  match v with
  | PList l => Ret l
  | PDict d => Ret (map (fun kv => PStr (fst kv)) d)
  | PStr s => Ret (chars s)
  | _ => Raise TypeError
  end.

(** [v == "literal"]: true exactly for the equal string. *)
Definition eq_str (v : pyval) (lit : string) : bool :=
  match v with
  | PStr s => String.eqb s lit
  | _ => false
  end.

Definition lower_char (c : ascii) : ascii :=
  let n := nat_of_ascii c in
  if (65 <=? n)%nat && (n <=? 90)%nat then ascii_of_nat (n + 32) else c.

(** [str.lower] on the ASCII letters; other characters stay. *)
Fixpoint lower_string (s : string) : string :=
  match s with
  | EmptyString => EmptyString
  | String c s' => String (lower_char c) (lower_string s')
  end.

(** [v.lower()]: only strings have the method. *)
Definition lower (v : pyval) : result string :=
  match v with
  | PStr s => Ret (lower_string s)
  | _ => Raise AttributeError
  end.

(** [needle in haystack] on strings. *)
Fixpoint contains (needle haystack : string) : bool :=
  String.prefix needle haystack ||
  match haystack with
  | EmptyString => false
  | String _ rest => contains needle rest
  end.

Fixpoint join (sep : string) (l : list string) : string :=
  match l with
  | [] => ""
  | [x] => x
  | x :: l' => x ++ sep ++ join sep l'
  end.

Definition hex_digit (n : nat) : ascii :=
  match n with
  | 0 => "0" | 1 => "1" | 2 => "2" | 3 => "3" | 4 => "4" | 5 => "5"
  | 6 => "6" | 7 => "7" | 8 => "8" | 9 => "9" | 10 => "a" | 11 => "b"
  | 12 => "c" | 13 => "d" | 14 => "e" | _ => "f"
  end%char.

(** The code points below 256 that [str.isprintable] rejects: the
    control characters below 32, 127 to 160 (DEL, the C1 controls and
    the no-break space) and 173 (the soft hyphen). *)
Definition unprintable (n : nat) : bool :=
  (n <? 32)%nat || ((127 <=? n)%nat && (n <=? 160)%nat) || (n =? 173)%nat.

(** One character of [repr] of a string: backslash and the quote in
    use are escaped, tab, newline and return get their letter, every
    other unprintable character is written [\xhh]. *)
Definition repr_char (quote c : ascii) : string :=
  let n := nat_of_ascii c in
  if Ascii.eqb c "\" then "\\"
  else if Ascii.eqb c quote then String "\" (String quote "")
  else if (n =? 10)%nat then "\n"
  else if (n =? 13)%nat then "\r"
  else if (n =? 9)%nat then "\t"
  else if unprintable n
       then String "\" (String "x" (String (hex_digit (n / 16))
                                      (String (hex_digit (n mod 16)) "")))
  else String c "".

Fixpoint has_char (c : ascii) (s : string) : bool :=
  match s with
  | EmptyString => false
  | String c' s' => Ascii.eqb c c' || has_char c s'
  end.

Fixpoint repr_chars (quote : ascii) (s : string) : string :=
  match s with
  | EmptyString => ""
  | String c s' => repr_char quote c ++ repr_chars quote s'
  end.

(** [repr] of a string: single quotes, unless the text has a single
    quote and no double quote. *)
Definition repr_str (s : string) : string :=
  let quote : ascii :=
    if has_char "'" s && negb (has_char dquote s) then dquote else "'"%char in
  String quote (repr_chars quote s ++ String quote "").

Definition str_int (z : Z) : string := NilZero.string_of_int (Z.to_int z).

Fixpoint repr (v : pyval) : string :=
  match v with
  | PNone => "None"
  | PBool true => "True"
  | PBool false => "False"
  | PInt z => str_int z
  | PStr s => repr_str s
  | PList l => "[" ++ join ", " (map repr l) ++ "]"
  | PDict d =>
      "{" ++ join ", " (map (fun kv => match kv with
                                       | (k, x) => repr_str k ++ ": " ++ repr x
                                       end) d) ++ "}"
  end.

(** [str(v)], what an f-string placeholder [{v}] expands to. *)
Definition str (v : pyval) : string :=
  match v with
  | PStr s => s
  | _ => repr v
  end.

End Py.

(** ** Requests, the remote service and the standard library *)

(** [urllib.request.Request]: the fields the scripts set. *)
Record Request : Type := mkRequest {
  req_url : string;
  req_method : string;
  req_headers : list (string * string);
  req_data : option (list byte)
}.

Inductive verify_mode : Type := CERT_NONE | CERT_REQUIRED.

(** [ssl.SSLContext]: the two settings the scripts change. *)
Record SSLContext : Type := mkContext {
  check_hostname : bool;
  verify : verify_mode
}.

(** What [urllib.request.urlopen] does with a request: it returns a
    response whose [read()] gives [body]; or it raises [HTTPError]
    (the service answered with an error status, [e.read()] gives
    [body]); or it raises another [URLError] (no HTTP answer at all:
    name resolution, refused or broken connection). *)
Inductive outcome : Type :=
| Response (body : list byte)
| HTTPError (status : nat) (body : list byte)
| Failure (reason : string).

(** The remote service: some state and its reaction to a request. *)
Class Service : Type := {
  srv_state : Type;
  urlopen : Request -> SSLContext -> srv_state -> outcome * srv_state
}.

(** The functions of Python's standard library the scripts call on
    text: [json.dumps], [json.loads] ([None]: [JSONDecodeError]),
    [str.encode('utf-8')] and [bytes.decode('utf-8')] ([None]:
    [UnicodeDecodeError]). *)
Class PyLib : Type := {
  json_dumps : pyval -> string;
  json_loads : string -> option pyval;
  utf8_encode : string -> list byte;
  utf8_decode : list byte -> option string
}.

(** The bearer token is a credential; nothing below depends on its
    value, so it is kept out of the text of the model. *)
Class Credentials : Type := { TOKEN : string }.

(** ** The monad of the scripts *)

Section World.

Context {svc : Service}.

(** The state a run threads through: the service, what was printed
    (one entry per [print]) and the requests handed to [urlopen], both
    oldest first. *)
Record world : Type := mkWorld {
  remote : srv_state;
  stdout : list string;
  calls : list Request
}.

Definition M (A : Type) : Type := world -> result A * world.

Definition ret {A} (a : A) : M A := fun w => (Ret a, w).

Definition raise {A} (e : exn) : M A := fun w => (Raise e, w).

Definition bind {A B} (m : M A) (k : A -> M B) : M B :=
  fun w => match m w with
           | (Ret a, w') => k a w'
           | (Raise e, w') => (Raise e, w')
           end.

(** A pure computation that may raise. *)
Definition lift {A} (r : result A) : M A := fun w => (r, w).

Definition print (line : string) : M unit :=
  fun w => (Ret tt, mkWorld (remote w) (stdout w ++ [line])%list (calls w)).

Definition do_urlopen (req : Request) (context : SSLContext) : M outcome :=
  fun w => let (o, s) := urlopen req context (remote w) in
           (Ret o, mkWorld s (stdout w) (calls w ++ [req])%list).

Definition start (s : srv_state) : world := mkWorld s [] [].

End World.

Declare Scope py_scope.
Delimit Scope py_scope with py.
Notation "x <- m ;; k" := (bind m (fun x => k))
  (at level 61, m at next level, right associativity) : py_scope.
Notation "m ;; k" := (bind m (fun _ => k))
  (at level 61, right associativity) : py_scope.
Local Open Scope py_scope.

(** ** The API client *)

Section Client.

Context {svc : Service} {lib : PyLib} {cred : Credentials}.

Definition ACCOUNT_ID : string := "0f6a82c906336fc275932bf543fba961".

Definition BASE_URL : string :=
  "https://api.cloudflare.com/client/v4/accounts/" ++ ACCOUNT_ID ++ "/access/apps".

Definition HEADERS : list (string * string) :=
  [("Authorization", "Bearer " ++ TOKEN); ("Content-Type", "application/json")].

(** The request object [request] hands to [urlopen]: a body is
    attached only under [if data:]. *)
Definition build_request (method url : string) (data : pyval) : Request :=
  let req := mkRequest url method HEADERS None in
  if Py.truthy data
  then mkRequest (req_url req) (req_method req) (req_headers req)
                 (Some (utf8_encode (json_dumps data)))
  else req.

Definition unverified_context : SSLContext := mkContext false CERT_NONE.

(** [request(method, url, data=None)], the same function in both
    scripts.  Only [HTTPError] is caught. *)
Definition request (method url : string) (data : pyval) : M pyval :=
  let req := build_request method url data in
  let context := unverified_context in
  o <- do_urlopen req context ;;
  match o with
  | Response body =>
      match utf8_decode body with
      | None => raise UnicodeDecodeError
      | Some text =>
          match json_loads text with
          | Some v => ret v
          | None => raise JSONDecodeError
          end
      end
  | HTTPError _ body =>
      match utf8_decode body with
      | None => raise UnicodeDecodeError
      | Some text =>
          print ("Error " ++ method ++ " " ++ url ++ ": " ++ text) ;;
          ret PNone
      end
  | Failure reason => raise (URLError reason)
  end.

End Client.

(** ** Generator expressions and loops *)

(** [next((a for a in items if a[key] == lit), None)]: the generator is
    lazy, so [a[key]] is evaluated (and may raise) only up to and
    including the first match. *)
Fixpoint next_in (key lit : string) (l : list pyval) : result pyval :=
  match l with
  | [] => Ret PNone
  | a :: l' =>
      match Py.subscript a key with
      | Raise e => Raise e
      | Ret x => if Py.eq_str x lit then Ret a else next_in key lit l'
      end
  end.

Definition next_match (key lit : string) (items : pyval) : result pyval :=
  match Py.iter items with
  | Raise e => Raise e
  | Ret l => next_in key lit l
  end.

(** [any(p[key] == lit for p in items)], short-circuiting likewise. *)
Fixpoint any_in (key lit : string) (l : list pyval) : result bool :=
  match l with
  | [] => Ret false
  | p :: l' =>
      match Py.subscript p key with
      | Raise e => Raise e
      | Ret x => if Py.eq_str x lit then Ret true else any_in key lit l'
      end
  end.

Definition any_match (key lit : string) (items : pyval) : result bool :=
  match Py.iter items with
  | Raise e => Raise e
  | Ret l => any_in key lit l
  end.

(** [[p[key] for p in items]]: a list comprehension is eager, every
    element is subscripted. *)
Fixpoint collect_in (key : string) (l : list pyval) : result (list pyval) :=
  match l with
  | [] => Ret []
  | p :: l' =>
      match Py.subscript p key with
      | Raise e => Raise e
      | Ret x => match collect_in key l' with
                 | Raise e => Raise e
                 | Ret xs => Ret (x :: xs)
                 end
      end
  end.

Definition collect (key : string) (items : pyval) : result (list pyval) :=
  match Py.iter items with
  | Raise e => Raise e
  | Ret l => collect_in key l
  end.

Section Loops.

Context {svc : Service}.

(** [for x in l: body(x)] over an already materialised list. *)
Fixpoint for_each {A} (l : list A) (body : A -> M unit) : M unit :=
  match l with
  | [] => ret tt
  | x :: l' => body x ;; for_each l' body
  end.

End Loops.

Definition LF : string := String "010" EmptyString.

(** ** [enable_public_api.py] *)

Module EnablePublicApi.

Section Script.

Context {svc : Service} {lib : PyLib} {cred : Credentials}.

Definition policy_name : string := "Public Access".

(** The payload of both the PUT and the POST. *)
Definition bypass_everyone : pyval :=
  PDict [("name", PStr policy_name);
         ("decision", PStr "bypass");
         ("include", PList [PDict [("everyone", PDict [])]])].

Definition policies_url (app_id : pyval) : string :=
  BASE_URL ++ "/" ++ Py.str app_id ++ "/policies".

Definition policy_url (app_id policy_id : pyval) : string :=
  BASE_URL ++ "/" ++ Py.str app_id ++ "/policies/" ++ Py.str policy_id.

(** Step 3 of [main] (lines 48-65): update the policy found by name,
    or create it. *)
Definition upsert (api_app policies : pyval) : M unit :=
  existing_policy <- lift (next_match "name" policy_name policies) ;;
  if Py.truthy existing_policy then
    print ("Policy '" ++ policy_name
           ++ "' already exists. Updating to ensure it's correct...") ;;
    app_id <- lift (Py.subscript api_app "id") ;;
    policy_id <- lift (Py.subscript existing_policy "id") ;;
    request "PUT" (policy_url app_id policy_id) bypass_everyone ;;
    ret tt
  else
    print ("Creating '" ++ policy_name ++ "' policy...") ;;
    app_id <- lift (Py.subscript api_app "id") ;;
    request "POST" (policies_url app_id) bypass_everyone ;;
    ret tt.

Definition main : M unit :=
  print "--- Enabling Public Access for api.raydoug.com ---" ;;
  r <- request "GET" (BASE_URL ++ "?per_page=100") PNone ;;
  apps <- lift (Py.subscript r "result") ;;
  api_app <- lift (next_match "domain" "api.raydoug.com" apps) ;;
  if negb (Py.truthy api_app) then
    print "Error: App 'api.raydoug.com' not found!"
  else
    app_name <- lift (Py.subscript api_app "name") ;;
    app_id <- lift (Py.subscript api_app "id") ;;
    print ("Found App: " ++ Py.str app_name ++ " (" ++ Py.str app_id ++ ")") ;;
    app_id <- lift (Py.subscript api_app "id") ;;
    r <- request "GET" (policies_url app_id) PNone ;;
    policies <- lift (Py.subscript r "result") ;;
    names <- lift (collect "name" policies) ;;
    print ("Current Policies: " ++ Py.repr (PList names)) ;;
    upsert api_app policies ;;
    print "✅ Success! api.raydoug.com is now public (Bypass Everyone).".

End Script.

End EnablePublicApi.

(** ** [fix_zero_trust.py] *)

Module FixZeroTrust.

Section Script.

Context {svc : Service} {lib : PyLib} {cred : Credentials}.

Definition ADMIN_GROUP_ID : string := "9e16bff0-8e9d-4a7a-aaab-07541f88f8e4".
Definition SERVICE_TOKEN_ID : string := "15a661a2-bc33-409d-86d9-ffcc217ffdce".

Definition studio_spec : pyval :=
  PDict [("name", PStr "Supabase Studio");
         ("domain", PStr "studio.raydoug.com");
         ("type", PStr "self_hosted");
         ("session_duration", PStr "24h")].

Definition allow_admins : pyval :=
  PDict [("name", PStr "Allow Admins");
         ("decision", PStr "allow");
         ("include", PList [PDict [("group", PDict [("id", PStr ADMIN_GROUP_ID)])]])].

Definition allow_service : pyval :=
  PDict [("name", PStr "Allow Service");
         ("decision", PStr "allow");
         ("include",
          PList [PDict [("service_token",
                         PDict [("token_id", PStr SERVICE_TOKEN_ID)])]])].

Definition policies_url (app_id : pyval) : string :=
  BASE_URL ++ "/" ++ Py.str app_id ++ "/policies".

Definition policy_url (app_id policy_id : pyval) : string :=
  BASE_URL ++ "/" ++ Py.str app_id ++ "/policies/" ++ Py.str policy_id.

(** Lines 37-53: find the application by domain, create it if the
    lookup gives [None]. *)
Definition ensure_app : M pyval :=
  print "--- 1. Creating/Checking 'Supabase Studio' App ---" ;;
  r <- request "GET" BASE_URL PNone ;;
  apps <- lift (Py.subscript r "result") ;;
  studio_app <- lift (next_match "domain" "studio.raydoug.com" apps) ;;
  if negb (Py.truthy studio_app) then
    print "Creating Supabase Studio app..." ;;
    r <- request "POST" BASE_URL studio_spec ;;
    studio_app <- lift (Py.subscript r "result") ;;
    app_id <- lift (Py.subscript studio_app "id") ;;
    print ("Created app: " ++ Py.str app_id) ;;
    ret studio_app
  else
    app_id <- lift (Py.subscript studio_app "id") ;;
    print ("Supabase Studio app already exists: " ++ Py.str app_id) ;;
    ret studio_app.

(** One [if not any(...)] block of lines 59-75. *)
Definition ensure_policy (studio_app policies : pyval)
    (name : string) (payload : pyval) : M unit :=
  present <- lift (any_match "name" name policies) ;;
  if negb present then
    print ("Adding '" ++ name ++ "' policy...") ;;
    app_id <- lift (Py.subscript studio_app "id") ;;
    request "POST" (policies_url app_id) payload ;;
    ret tt
  else ret tt.

(** Lines 55-75. *)
Definition ensure_policies (studio_app : pyval) : M unit :=
  print "Configuring policies for Supabase Studio..." ;;
  app_id <- lift (Py.subscript studio_app "id") ;;
  r <- request "GET" (policies_url app_id) PNone ;;
  policies <- lift (Py.subscript r "result") ;;
  ensure_policy studio_app policies "Allow Admins" allow_admins ;;
  ensure_policy studio_app policies "Allow Service" allow_service.

(** The first phase of [main]. *)
Definition phase1 : M unit :=
  studio_app <- ensure_app ;;
  ensure_policies studio_app.

Definition stale_name : string := "Macbook dual-stack Bypass".

(** The secondary condition of line 90; [and] evaluates its right
    operand only when the left one holds. *)
Definition looks_like_ip_bypass (policy : pyval) : M bool :=
  name <- lift (Py.subscript policy "name") ;;
  low <- lift (Py.lower name) ;;
  if Py.contains "bypass" low then
    name <- lift (Py.subscript policy "name") ;;
    low <- lift (Py.lower name) ;;
    ret (Py.contains "ip" low)
  else ret false.

(** The body of the inner loop (lines 87-93). *)
Definition cleanup_policy (app policy : pyval) : M unit :=
  name <- lift (Py.subscript policy "name") ;;
  if Py.eq_str name stale_name then
    name <- lift (Py.subscript policy "name") ;;
    print ("  [DELETE] Found IP bypass policy '" ++ Py.str name
           ++ "' - Deleting...") ;;
    app_id <- lift (Py.subscript app "id") ;;
    policy_id <- lift (Py.subscript policy "id") ;;
    request "DELETE" (policy_url app_id policy_id) PNone ;;
    ret tt
  else
    other <- looks_like_ip_bypass policy ;;
    if other then ret tt else ret tt.

(** The body of the outer loop (lines 83-93). *)
Definition cleanup_app (app : pyval) : M unit :=
  app_name <- lift (Py.subscript app "name") ;;
  app_domain <- lift (Py.subscript app "domain") ;;
  print ("Checking app: " ++ Py.str app_name
         ++ " (" ++ Py.str app_domain ++ ")") ;;
  app_id <- lift (Py.subscript app "id") ;;
  r <- request "GET" (policies_url app_id) PNone ;;
  app_policies <- lift (Py.subscript r "result") ;;
  l <- lift (Py.iter app_policies) ;;
  for_each l (cleanup_policy app).

(** The second phase of [main] (lines 77-93). *)
Definition cleanup : M unit :=
  print (LF ++ "--- 2. Cleaning up 'Macbook dual-stack Bypass' from all apps ---") ;;
  r <- request "GET" (BASE_URL ++ "?per_page=100") PNone ;;
  apps <- lift (Py.subscript r "result") ;;
  l <- lift (Py.iter apps) ;;
  for_each l cleanup_app.

Definition main : M unit :=
  phase1 ;;
  cleanup ;;
  print (LF ++ "--- Done! ---").

End Script.

End FixZeroTrust.

(** ** An instance of the text functions *)

(** A printer and a parser for JSON text in the layout [json.dumps]
    produces by default (separators [", "] and [": "], every character
    outside the printable ASCII range escaped).  Characters are 8-bit
    code points.  The parser reads that layout back; it instantiates
    [PyLib] wherever a run has to be evaluated. *)
Module Json.

Definition escape_char (c : ascii) : string :=
  let n := nat_of_ascii c in
  if Ascii.eqb c dquote then String "\" (String dquote EmptyString)
  else if Ascii.eqb c "\" then "\\"
  else if (n =? 10)%nat then "\n"
  else if (n =? 13)%nat then "\r"
  else if (n =? 9)%nat then "\t"
  else if (n =? 8)%nat then "\b"
  else if (n =? 12)%nat then "\f"
  else if (n <? 32)%nat || (126 <? n)%nat
       then "\u00" ++ String (Py.hex_digit (n / 16))
                             (String (Py.hex_digit (n mod 16)) EmptyString)
  else String c EmptyString.

Fixpoint escape (s : string) : string :=
  match s with
  | EmptyString => EmptyString
  | String c s' => escape_char c ++ escape s'
  end.

Definition quoted (s : string) : string :=
  String dquote (escape s ++ String dquote EmptyString).

Fixpoint dumps (v : pyval) : string :=
  match v with
  | PNone => "null"
  | PBool true => "true"
  | PBool false => "false"
  | PInt z => Py.str_int z
  | PStr s => quoted s
  | PList l =>
      "[" ++ (fix items (l : list pyval) : string :=
                match l with
                | [] => "]"
                | x :: l' =>
                    dumps x ++ match l' with
                               | [] => "]"
                               | _ => ", " ++ items l'
                               end
                end) l
  | PDict d =>
      "{" ++ (fix members (d : list (string * pyval)) : string :=
                match d with
                | [] => "}"
                | (k, x) :: d' =>
                    quoted k ++ ": " ++ dumps x
                    ++ match d' with
                       | [] => "}"
                       | _ => ", " ++ members d'
                       end
                end) d
  end.

Definition unhex (c : ascii) : option nat :=
  let n := nat_of_ascii c in
  if (48 <=? n)%nat && (n <=? 57)%nat then Some (n - 48)
  else if (97 <=? n)%nat && (n <=? 102)%nat then Some (n - 87)
  else None.

Definition unescape (c : ascii) : option ascii :=
  if Ascii.eqb c dquote then Some dquote
  else if Ascii.eqb c "\" then Some "\"%char
  else if Ascii.eqb c "n" then Some "010"%char
  else if Ascii.eqb c "r" then Some "013"%char
  else if Ascii.eqb c "t" then Some "009"%char
  else if Ascii.eqb c "b" then Some "008"%char
  else if Ascii.eqb c "f" then Some "012"%char
  else None.

Definition cons_char (c : ascii) (r : option (string * string))
  : option (string * string) :=
  match r with
  | Some (t, rest) => Some (String c t, rest)
  | None => None
  end.

(** The text of a string literal after its opening quote, up to and
    including the closing quote. *)
Fixpoint parse_chars (s : string) : option (string * string) :=
  match s with
  | EmptyString => None
  | String c rest =>
      if Ascii.eqb c dquote then Some (EmptyString, rest)
      else if Ascii.eqb c "\" then
        match rest with
        | String e rest1 =>
            if Ascii.eqb e "u" then
              match rest1 with
              | String a (String b (String h (String l rest2))) =>
                  if Ascii.eqb a "0" && Ascii.eqb b "0" then
                    match unhex h, unhex l with
                    | Some x, Some y =>
                        cons_char (ascii_of_nat (16 * x + y)) (parse_chars rest2)
                    | _, _ => None
                    end
                  else None
              | _ => None
              end
            else
              match unescape e with
              | Some ch => cons_char ch (parse_chars rest1)
              | None => None
              end
        | EmptyString => None
        end
      else cons_char c (parse_chars rest)
  end.

Definition is_num_char (c : ascii) : bool :=
  let n := nat_of_ascii c in
  Ascii.eqb c "-" || ((48 <=? n)%nat && (n <=? 57)%nat).

Fixpoint span_num (s : string) : string * string :=
  match s with
  | EmptyString => (EmptyString, EmptyString)
  | String c rest =>
      if is_num_char c
      then let (d, r) := span_num rest in (String c d, r)
      else (EmptyString, s)
  end.

Definition parse_int (s : string) : option (pyval * string) :=
  let (d, rest) := span_num s in
  match NilZero.int_of_string d with
  | Some i => Some (PInt (Z.of_int i), rest)
  | None => None
  end.

Fixpoint strip (p s : string) : option string :=
  match p with
  | EmptyString => Some s
  | String c p' =>
      match s with
      | EmptyString => None
      | String c' s' => if Ascii.eqb c c' then strip p' s' else None
      end
  end.

Fixpoint parse (fuel : nat) (s : string) : option (pyval * string) :=
  match fuel with
  | O => None
  | S f =>
      match s with
      | EmptyString => None
      | String c rest =>
          if is_num_char c then parse_int s
          else if Ascii.eqb c dquote then
            match parse_chars rest with
            | Some (t, rest') => Some (PStr t, rest')
            | None => None
            end
          else if Ascii.eqb c "[" then
            match strip "]" rest with
            | Some rest' => Some (PList [], rest')
            | None =>
                match parse_items f rest with
                | Some (l, rest') => Some (PList l, rest')
                | None => None
                end
            end
          else if Ascii.eqb c "{" then
            match strip "}" rest with
            | Some rest' => Some (PDict [], rest')
            | None =>
                match parse_members f rest with
                | Some (d, rest') => Some (PDict d, rest')
                | None => None
                end
            end
          else
            match strip "null" s with
            | Some rest' => Some (PNone, rest')
            | None =>
                match strip "true" s with
                | Some rest' => Some (PBool true, rest')
                | None =>
                    match strip "false" s with
                    | Some rest' => Some (PBool false, rest')
                    | None => None
                    end
                end
            end
      end
  end
with parse_items (fuel : nat) (s : string) : option (list pyval * string) :=
  match fuel with
  | O => None
  | S f =>
      match parse f s with
      | None => None
      | Some (x, rest) =>
          match strip "]" rest with
          | Some rest' => Some ([x], rest')
          | None =>
              match strip ", " rest with
              | None => None
              | Some rest' =>
                  match parse_items f rest' with
                  | Some (l, rest2) => Some (x :: l, rest2)
                  | None => None
                  end
              end
          end
      end
  end
with parse_members (fuel : nat) (s : string)
  : option (list (string * pyval) * string) :=
  match fuel with
  | O => None
  | S f =>
      match strip (String dquote EmptyString) s with
      | None => None
      | Some s1 =>
          match parse_chars s1 with
          | None => None
          | Some (k, s2) =>
              match strip ": " s2 with
              | None => None
              | Some s3 =>
                  match parse f s3 with
                  | None => None
                  | Some (x, rest) =>
                      match strip "}" rest with
                      | Some rest' => Some ([(k, x)], rest')
                      | None =>
                          match strip ", " rest with
                          | None => None
                          | Some rest' =>
                              match parse_members f rest' with
                              | Some (d, rest2) => Some ((k, x) :: d, rest2)
                              | None => None
                              end
                          end
                      end
                  end
              end
          end
      end
  end.

Definition loads (s : string) : option pyval :=
  match parse (S (String.length s)) s with
  | Some (v, EmptyString) => Some v
  | _ => None
  end.

End Json.

Definition json_text : PyLib := {|
  json_dumps := Json.dumps;
  json_loads := Json.loads;
  utf8_encode := list_byte_of_string;
  utf8_decode := fun b => Some (string_of_list_byte b)
|}.

(** ** A reference model of the Access API *)

(** Modelled from the spec: the vendor Access API is an external
    service, none of its code is in the repository.  Section 6 of the
    specification lists its endpoints (list and create applications;
    list, create, replace and remove the policies of an application),
    section 3 the data (an application has an opaque identifier, a
    domain, a name, a type and a session duration; a policy belongs to
    one application and has an opaque identifier, a name, a decision
    and an inclusion rule).  Every answer is a JSON envelope with a
    [result] field.  Listings are complete (no paging); new objects are
    listed last; the model looks neither at the headers nor at the TLS
    settings of a request. *)
Module AccessAPI.

Record policy : Type := mkPolicy {
  pol_id : string;
  pol_name : string;
  pol_decision : string;
  pol_include : pyval
}.

Record app : Type := mkApp {
  app_id : string;
  app_name : string;
  app_domain : string;
  app_type : string;
  app_session_duration : string;
  app_policies : list policy
}.

Definition state : Type := list app.

Definition policy_json (p : policy) : pyval :=
  PDict [("id", PStr (pol_id p));
         ("name", PStr (pol_name p));
         ("decision", PStr (pol_decision p));
         ("include", pol_include p)].

Definition app_json (a : app) : pyval :=
  PDict [("id", PStr (app_id a));
         ("name", PStr (app_name a));
         ("domain", PStr (app_domain a));
         ("type", PStr (app_type a));
         ("session_duration", PStr (app_session_duration a))].

Definition envelope (v : pyval) : pyval := PDict [("result", v)].

Inductive endpoint : Type :=
| Apps
| Policies (aid : string)
| Policy (aid pid : string).

Fixpoint split_on (c : ascii) (s : string) : list string :=
  match s with
  | EmptyString => [EmptyString]
  | String c' s' =>
      if Ascii.eqb c' c then EmptyString :: split_on c s'
      else match split_on c s' with
           | [] => [String c' EmptyString]
           | x :: l => String c' x :: l
           end
  end.

(** The path after [{base}/]: [{id}/policies] or
    [{id}/policies/{id}]. *)
Definition route_path (path : string) : option endpoint :=
  match split_on "/" path with
  | [aid; word] =>
      if String.eqb word "policies" then Some (Policies aid) else None
  | [aid; word; pid] =>
      if String.eqb word "policies" then Some (Policy aid pid) else None
  | _ => None
  end.

(** [{base}], [{base}?...] and [{base}/...]. *)
Definition route (url : string) : option endpoint :=
  match Json.strip BASE_URL url with
  | None => None
  | Some EmptyString => Some Apps
  | Some (String c path) =>
      if Ascii.eqb c "?" then Some Apps
      else if Ascii.eqb c "/" then route_path path
      else None
  end.

Definition ids_of (s : state) : list string :=
  flat_map (fun a => app_id a :: map pol_id (app_policies a)) s.

Definition longest (l : list string) : nat :=
  fold_right (fun x m => Nat.max (String.length x) m) 0 l.

Fixpoint letters (n : nat) : string :=
  match n with
  | O => EmptyString
  | S n' => String "n" (letters n')
  end.

(** The identifier given to a new object: longer than every identifier
    in use. *)
Definition fresh_id (s : state) : string := letters (S (longest (ids_of s))).

Definition find_app (aid : string) (s : state) : option app :=
  find (fun a => String.eqb (app_id a) aid) s.

Definition find_policy (pid : string) (l : list policy) : option policy :=
  find (fun p => String.eqb (pol_id p) pid) l.

Definition update_app (aid : string) (f : app -> app) (s : state) : state :=
  map (fun a => if String.eqb (app_id a) aid then f a else a) s.

Definition with_policies (f : list policy -> list policy) (a : app) : app :=
  mkApp (app_id a) (app_name a) (app_domain a) (app_type a)
        (app_session_duration a) (f (app_policies a)).

Definition replace_policy (pid : string) (p : policy) (l : list policy)
  : list policy :=
  map (fun q => if String.eqb (pol_id q) pid then p else q) l.

Definition remove_policy (pid : string) (l : list policy) : list policy :=
  filter (fun q => negb (String.eqb (pol_id q) pid)) l.

Definition get_str (v : pyval) (k : string) : option string :=
  match Py.subscript v k with
  | Ret (PStr s) => Some s
  | _ => None
  end.

Definition read_policy (id : string) (v : pyval) : option policy :=
  match get_str v "name", get_str v "decision", Py.subscript v "include" with
  | Some n, Some d, Ret i => Some (mkPolicy id n d i)
  | _, _, _ => None
  end.

Definition read_app (id : string) (v : pyval) : option app :=
  match get_str v "name", get_str v "domain", get_str v "type",
        get_str v "session_duration" with
  | Some n, Some d, Some t, Some sd => Some (mkApp id n d t sd [])
  | _, _, _, _ => None
  end.

Section Step.

Context {lib : PyLib}.

Definition body_of (v : pyval) : list byte := utf8_encode (json_dumps v).

Definition ok (v : pyval) (s : state) : outcome * state :=
  (Response (body_of (envelope v)), s).

Definition error (status : nat) (s : state) : outcome * state :=
  (HTTPError status (body_of (PDict [("success", PBool false)])), s).

Definition payload (req : Request) : option pyval :=
  match req_data req with
  | None => None
  | Some b => match utf8_decode b with
              | None => None
              | Some text => json_loads text
              end
  end.

Definition step (req : Request) (context : SSLContext) (s : state)
  : outcome * state :=
  let m := req_method req in
  match route (req_url req) with
  | None => error 404 s
  | Some Apps =>
      if String.eqb m "GET" then ok (PList (map app_json s)) s
      else if String.eqb m "POST" then
        match payload req with
        | None => error 400 s
        | Some doc =>
            match read_app (fresh_id s) doc with
            | None => error 400 s
            | Some a => ok (app_json a) (s ++ [a])%list
            end
        end
      else error 405 s
  | Some (Policies aid) =>
      match find_app aid s with
      | None => error 404 s
      | Some a =>
          if String.eqb m "GET"
          then ok (PList (map policy_json (app_policies a))) s
          else if String.eqb m "POST" then
            match payload req with
            | None => error 400 s
            | Some doc =>
                match read_policy (fresh_id s) doc with
                | None => error 400 s
                | Some p =>
                    ok (policy_json p)
                       (update_app aid (with_policies (fun l => l ++ [p])%list) s)
                end
            end
          else error 405 s
      end
  | Some (Policy aid pid) =>
      match find_app aid s with
      | None => error 404 s
      | Some a =>
          match find_policy pid (app_policies a) with
          | None => error 404 s
          | Some _ =>
              if String.eqb m "PUT" then
                match payload req with
                | None => error 400 s
                | Some doc =>
                    match read_policy pid doc with
                    | None => error 400 s
                    | Some p =>
                        ok (policy_json p)
                           (update_app aid (with_policies (replace_policy pid p)) s)
                    end
                end
              else if String.eqb m "DELETE" then
                ok (PDict [("id", PStr pid)])
                   (update_app aid (with_policies (remove_policy pid)) s)
              else error 405 s
          end
      end
  end.

Definition service : Service := {|
  srv_state := state;
  urlopen := step
|}.

End Step.

End AccessAPI.

(** ** Sample runs *)

Module Samples.

Import AccessAPI.

Definition cred : Credentials := {| TOKEN := "sample-token" |}.

Definition everyone : pyval := PList [PDict [("everyone", PDict [])]].

Definition office : policy :=
  mkPolicy "p1" "Office" "allow" (PList [PDict [("ip", PDict [("ip", PStr "10.0.0.0/8")])]]).

Definition stale : policy :=
  mkPolicy "p2" "Macbook dual-stack Bypass" "bypass" everyone.

Definition other_bypass : policy :=
  mkPolicy "p3" "Office IP Bypass" "bypass" everyone.

Definition api_app : app :=
  mkApp "a1" "API" "api.raydoug.com" "self_hosted" "24h" [office; stale; other_bypass].

Definition www_app : app :=
  mkApp "a2" "WWW" "www.raydoug.com" "self_hosted" "24h" [stale].

Definition s0 : state := [www_app; api_app].

(** The same account once the policy exists, twice under that name. *)
Definition open_rule : policy := mkPolicy "p4" "Public Access" "allow" everyone.

Definition late_rule : policy := mkPolicy "p5" "Public Access" "allow" everyone.

Definition api_open : app :=
  mkApp "a1" "API" "api.raydoug.com" "self_hosted" "24h"
        [office; open_rule; late_rule].

Definition s_open : state := [www_app; api_open].

(** A second application under the same domain. *)
Definition api_twin : app :=
  mkApp "a7" "API copy" "api.raydoug.com" "self_hosted" "24h" [open_rule].

(** An account without the application. *)
Definition s_without : state := [www_app].

(** A service that answers every request with status 403. *)
Definition forbidden : Service := {|
  srv_state := unit;
  urlopen := fun _ _ s => (HTTPError 403 (list_byte_of_string "{}"), s)
|}.

(** A service that cannot be reached. *)
Definition offline : Service := {|
  srv_state := unit;
  urlopen := fun _ _ s => (Failure "Connection refused", s)
|}.

(** The reference service with the JSON text functions. *)
Definition api : Service := service (lib := json_text).

(** A service that plays back a script: the n-th request is answered
    with the n-th outcome of the list, whatever it asks for. *)
Definition scripted : Service := {|
  srv_state := list outcome;
  urlopen := fun _ _ s => match s with
                          | [] => (Failure "no more answers", [])
                          | o :: s' => (o, s')
                          end
|}.

(** A normal answer holding the document [v], an error status, and an
    answer without a body (status 204). *)
Definition reply (v : pyval) : outcome :=
  Response (list_byte_of_string (Json.dumps v)).

Definition denied : outcome := HTTPError 403 (list_byte_of_string "Forbidden").

Definition no_content : outcome := Response [].

(** The reaction of [forbidden], and the reaction of a host whose
    certificate does not verify: it is reached only by a client that
    does not check. *)
Definition always_403 (r : Request) (c : SSLContext) (s : unit) : outcome * unit :=
  (HTTPError 403 (list_byte_of_string "{}"), s).

Definition self_signed (r : Request) (c : SSLContext) (s : unit) : outcome * unit :=
  match verify c with
  | CERT_NONE => (HTTPError 403 (list_byte_of_string "{}"), s)
  | CERT_REQUIRED => (Failure "CERTIFICATE_VERIFY_FAILED", s)
  end.

(** The text functions on ASCII: a byte above 127 does not start a
    UTF-8 sequence on its own, decoding fails on it. *)
Definition ascii_text : PyLib := {|
  json_dumps := Json.dumps;
  json_loads := Json.loads;
  utf8_encode := list_byte_of_string;
  utf8_decode := fun b =>
    if forallb (fun x => (Byte.to_nat x <? 128)%nat) b
    then Some (string_of_list_byte b) else None
|}.

(** Listings with a hole: an application without a domain, and a
    policy without a name or with a name that is no string. *)
Definition nameless : pyval := PDict [("id", PStr "p9")].

Definition null_named : pyval := PDict [("id", PStr "p8"); ("name", PNone)].

Definition domainless : pyval := PDict [("id", PStr "a9"); ("name", PStr "Draft")].

(** The studio application as the service lists it once created. *)
Definition studio_new : app :=
  mkApp "a3" "Supabase Studio" "studio.raydoug.com" "self_hosted" "24h" [].

Definition admins_rule : policy := mkPolicy "p6" "Allow Admins" "allow" (PList []).

Definition service_rule : policy := mkPolicy "p7" "Allow Service" "allow" (PList []).

End Samples.

(** * The vocabulary of the statements *)

(** ** Listings *)

(** [named key lit v]: [v[key]] evaluates and equals the literal. *)
Definition named (key lit : string) (v : pyval) : Prop :=
  exists x, Py.subscript v key = Ret x /\ Py.eq_str x lit = true.

(** [other key lit v]: [v[key]] evaluates and differs from the literal. *)
Definition other (key lit : string) (v : pyval) : Prop :=
  exists x, Py.subscript v key = Ret x /\ Py.eq_str x lit = false.

Definition has_key (key : string) (v : pyval) : Prop :=
  exists x, Py.subscript v key = Ret x.

(** ** Answers and calls *)

Section Vocabulary.

Context {svc : Service} {lib : PyLib} {cred : Credentials}.

(** The service answers [req] in state [s] with a document [v] and
    moves to [s']. *)
Definition answers (s : srv_state) (req : Request) (v : pyval) (s' : srv_state)
  : Prop :=
  exists body text,
    urlopen req unverified_context s = (Response body, s')
    /\ utf8_decode body = Some text /\ json_loads text = Some v.

(** The service answers [req] with an error status and the text
    [text], and moves to [s']. *)
Definition refuses (s : srv_state) (req : Request) (text : string)
    (s' : srv_state) : Prop :=
  exists status body,
    urlopen req unverified_context s = (HTTPError status body, s')
    /\ utf8_decode body = Some text.

(** No HTTP answer at all. *)
Definition unreachable (s : srv_state) (req : Request) (reason : string)
    (s' : srv_state) : Prop :=
  urlopen req unverified_context s = (Failure reason, s').

(** The service gives an HTTP answer, normal or not. *)
Definition responds (s : srv_state) (req : Request) (s' : srv_state) : Prop :=
  (exists v, answers s req v s') \/ (exists text, refuses s req text s').

Definition is_write (req : Request) : bool :=
  String.eqb (req_method req) "POST" || String.eqb (req_method req) "PUT"
  || String.eqb (req_method req) "DELETE".

(** Every request [m] issues, from any world, satisfies [P]. *)
Definition only_calls {A} (P : Request -> Prop) (m : M A) : Prop :=
  forall w, exists new,
    calls (snd (m w)) = (calls w ++ new)%list /\ Forall P new.

(** The requests the scripts build. *)
Definition get_request (url : string) : Request := build_request "GET" url PNone.

Definition list_apps_request : Request :=
  build_request "GET" (BASE_URL ++ "?per_page=100") PNone.

Definition list_policies_request (app_id : pyval) : Request :=
  build_request "GET" (EnablePublicApi.policies_url app_id) PNone.

(** The call sent when the policy exists, and the one sent when it does
    not. *)
Definition put_request (app_id policy_id : pyval) : Request :=
  build_request "PUT" (EnablePublicApi.policy_url app_id policy_id)
                EnablePublicApi.bypass_everyone.

Definition post_request (app_id : pyval) : Request :=
  build_request "POST" (EnablePublicApi.policies_url app_id)
                EnablePublicApi.bypass_everyone.

Definition create_app_request : Request :=
  build_request "POST" BASE_URL FixZeroTrust.studio_spec.

Definition create_policy_request (app_id payload : pyval) : Request :=
  build_request "POST" (FixZeroTrust.policies_url app_id) payload.

Definition delete_request (app_id policy_id : pyval) : Request :=
  build_request "DELETE" (FixZeroTrust.policy_url app_id policy_id) PNone.

End Vocabulary.

(** ** Counting calls *)

Section Counting.

Context {svc : Service}.

(** From any world, [m] adds at most [n] requests that satisfy [f]. *)
Definition issues_at_most {A} (f : Request -> bool) (n : nat) (m : M A) : Prop :=
  forall w, exists new,
    calls (snd (m w)) = (calls w ++ new)%list /\ List.length (filter f new) <= n.

Definition is_post (req : Request) : bool := String.eqb (req_method req) "POST".

End Counting.

(** ** Two services over the same states *)

Section TwoServices.

Context {State : Type}.

Definition served_by (h : Request -> SSLContext -> State -> outcome * State)
  : Service :=
  {| srv_state := State; urlopen := h |}.

Variables f g : Request -> SSLContext -> State -> outcome * State.

Definition same_world (w1 : world (svc := served_by f))
    (w2 : world (svc := served_by g)) : Prop :=
  remote w1 = remote w2 /\ stdout w1 = stdout w2 /\ calls w1 = calls w2.

(** Run from worlds that agree, the two computations give the same
    result and worlds that agree. *)
Definition same_run {A} (m1 : M (svc := served_by f) A)
    (m2 : M (svc := served_by g) A) : Prop :=
  forall w1 w2, same_world w1 w2 ->
    fst (m1 w1) = fst (m2 w2) /\ same_world (snd (m1 w1)) (snd (m2 w2)).

End TwoServices.

(** ** Text functions that lose nothing *)

(** What [json.dumps] writes, [json.loads] reads back, and likewise
    for UTF-8. *)
Class Codec : Type := {
  codec_lib :: PyLib;
  loads_dumps : forall v, json_loads (json_dumps v) = Some v;
  decode_encode : forall s, utf8_decode (utf8_encode s) = Some s
}.

(** The layout of lists and objects in the text [Json.dumps] writes,
    and what it means for the parser to read a value back. *)
Module JsonLayout.

Import Json.

Fixpoint dumps_items (l : list pyval) : string :=
  match l with
  | [] => "]"
  | x :: l' => dumps x ++ match l' with
                          | [] => "]"
                          | _ => ", " ++ dumps_items l'
                          end
  end.

Fixpoint dumps_members (d : list (string * pyval)) : string :=
  match d with
  | [] => "}"
  | (k, x) :: d' =>
      quoted k ++ ": " ++ dumps x
      ++ match d' with
         | [] => "}"
         | _ => ", " ++ dumps_members d'
         end
  end.

Definition all_num (s : string) : Prop :=
  forall c, Py.has_char c s = true -> is_num_char c = true.

(** The text after a value: it must not go on with a digit or a sign. *)
Definition follow_ok (rest : string) : Prop :=
  match rest with
  | EmptyString => True
  | String c _ => is_num_char c = false
  end.

Definition reads_back (v : pyval) : Prop :=
  forall fuel rest,
    follow_ok rest -> String.length (dumps v) < fuel ->
    parse fuel (dumps v ++ rest) = Some (v, rest).

End JsonLayout.

(** ** States and effects of the reference model *)

Module Reference.

Import AccessAPI.

Definition no_slash (s : string) : Prop := Py.has_char "/" s = false.

Definition app_ok (a : app) : Prop :=
  no_slash (app_id a)
  /\ NoDup (map pol_id (app_policies a))
  /\ Forall no_slash (map pol_id (app_policies a)).

(** Identifiers are unique (applications among themselves, policies
    within their application) and can stand in a URL path. *)
Record wf (s : state) : Prop := mkWf {
  wf_apps : NoDup (map app_id s);
  wf_each : Forall app_ok s
}.

Definition find_domain (domain : string) (s : state) : option app :=
  find (fun a => String.eqb (app_domain a) domain) s.

Definition find_named (name : string) (l : list policy) : option policy :=
  find (fun p => String.eqb (pol_name p) name) l.

Definition has_named (name : string) (l : list policy) : bool :=
  existsb (fun p => String.eqb (pol_name p) name) l.

Definition touch (aid : string) (f : app -> app) (a : app) : app :=
  if String.eqb (app_id a) aid then f a else a.

Section Effects.

Context {codec : Codec} {cred : Credentials}.

#[local] Existing Instance service.

Definition everyone : pyval := PList [PDict [("everyone", PDict [])]].

Definition public (id : string) : policy :=
  mkPolicy id "Public Access" "bypass" everyone.

(** What a run of the enabler does to the service. *)
Definition enable_effect (s : state) : state :=
  match find_domain "api.raydoug.com" s with
  | None => s
  | Some a =>
      match find_named "Public Access" (app_policies a) with
      | Some p =>
          update_app (app_id a)
            (with_policies (replace_policy (pol_id p) (public (pol_id p)))) s
      | None =>
          update_app (app_id a)
            (with_policies (fun l => l ++ [public (fresh_id s)])%list) s
      end
  end.

(** A run returned normally and left the service in state [s]. *)
Definition ends_in (r : result unit * world) (s : state) : Prop :=
  fst r = Ret tt /\ remote (snd r) = s.

Definition is_stale (p : policy) : bool :=
  String.eqb (pol_name p) FixZeroTrust.stale_name.

Definition keep (l : list policy) : list policy :=
  filter (fun p => negb (is_stale p)) l.

Definition clean (a : app) : app := with_policies keep a.

(** What the cleanup phase does to the service. *)
Definition cleanup_effect (s : state) : state := map clean s.

Definition delete_of (a : app) (p : policy) : Request :=
  delete_request (PStr (app_id a)) (PStr (pol_id p)).

Definition policies_of (a : app) : Request :=
  get_request (FixZeroTrust.policies_url (PStr (app_id a))).

Definition visit (a : app) : list Request :=
  policies_of a :: map (delete_of a) (filter is_stale (app_policies a)).

(** The calls of the cleanup phase: the listing of applications, then
    for each application the listing of its policies and one DELETE
    per policy with the stale name. *)
Definition cleanup_calls (s : state) : list Request :=
  list_apps_request
  :: flat_map (fun a => policies_of a
                        :: map (delete_of a) (filter is_stale (app_policies a))) s.

(** A run returned normally, left the service in state [s] and the
    list of calls as [c]. *)
Definition completes (r : result unit * world) (s : state) (c : list Request)
  : Prop :=
  fst r = Ret tt /\ remote (snd r) = s /\ calls (snd r) = c.

Definition studio (id : string) : app :=
  mkApp id "Supabase Studio" "studio.raydoug.com" "self_hosted" "24h" [].

Definition admins (id : string) : policy :=
  mkPolicy id "Allow Admins" "allow"
    (PList [PDict [("group", PDict [("id", PStr FixZeroTrust.ADMIN_GROUP_ID)])]]).

Definition machine (id : string) : policy :=
  mkPolicy id "Allow Service" "allow"
    (PList [PDict [("service_token",
                    PDict [("token_id", PStr FixZeroTrust.SERVICE_TOKEN_ID)])]]).

(** The studio application as the first phase finds or creates it, with
    the state after that step. *)
Definition located (s : state) : state * app :=
  match find_domain "studio.raydoug.com" s with
  | Some a => (s, a)
  | None => ((s ++ [studio (fresh_id s)])%list, studio (fresh_id s))
  end.

(** One [if not any(...)] block: [a] is the application as it was
    listed. *)
Definition add_missing (a : app) (name : string) (mk : string -> policy)
    (s : state) : state :=
  if has_named name (app_policies a) then s
  else update_app (app_id a) (with_policies (fun l => l ++ [mk (fresh_id s)])%list) s.

Definition missing_call (a : app) (name : string) (doc : pyval) : list Request :=
  if has_named name (app_policies a) then []
  else [create_policy_request (PStr (app_id a)) doc].

Definition missing_line (a : app) (name : string) : list string :=
  if has_named name (app_policies a) then []
  else ["Adding '" ++ name ++ "' policy..."].

(** What the first phase does to the service, and its calls. *)
Definition phase1_effect (s : state) : state :=
  let (s1, a) := located s in
  add_missing a "Allow Service" machine (add_missing a "Allow Admins" admins s1).

Definition phase1_calls (s : state) : list Request :=
  let (_, a) := located s in
  (get_request BASE_URL
   :: match find_domain "studio.raydoug.com" s with
      | Some _ => []
      | None => [create_app_request]
      end
   ++ policies_of a
   :: missing_call a "Allow Admins" FixZeroTrust.allow_admins
   ++ missing_call a "Allow Service" FixZeroTrust.allow_service)%list.

(** The identifiers of the applications, each with the identifiers of
    its policies, in listing order. *)
Definition identifiers (s : state) : list (string * list string) :=
  map (fun a => (app_id a, map pol_id (app_policies a))) s.

(** The scripts run against the reference model from state [s]. *)
Definition enabler (s : state) : result unit * world :=
  EnablePublicApi.main (start s).

Definition fixer (s : state) : result unit * world :=
  FixZeroTrust.main (start s).


End Effects.

End Reference.

(** * Properties *)

(** ** The model computes *)

Example repr_names :
  Py.repr (PList [PStr "Public Access"; PStr "a\b"; PInt (-3); PNone])
  = "['Public Access', 'a\\b', -3, None]".
Proof. reflexivity. Qed.

Example repr_latin1 :
  Py.repr (PStr (String "133" (String "160" (String "173" (String "233" "")))))
  = String "'" ("\x85\xa0\xad" ++ String "233" "'").
Proof. reflexivity. Qed.

Example lower_contains :
  Py.contains "bypass" (Py.lower_string "Office IP Bypass") = true.
Proof. reflexivity. Qed.

Example dumps_sample :
  Json.dumps (PList [PInt 1; PNone; PList []; PBool false; PDict []])
  = "[1, null, [], false, {}]".
Proof. reflexivity. Qed.

Example loads_dumps_sample :
  Json.loads (Json.dumps (PDict [("a", PList [PInt (-12); PNone; PBool true]);
                                 ("b\", PStr (String "010" "x"))]))
  = Some (PDict [("a", PList [PInt (-12); PNone; PBool true]);
                 ("b\", PStr (String "010" "x"))]).
Proof. vm_compute. reflexivity. Qed.

(** ** Lookups *)

Lemma named_truthy key lit v : named key lit v -> Py.truthy v = true.
Proof.
  intros (x & H & _). destruct v; simpl in H; try discriminate.
  destruct d; [discriminate | reflexivity].
Qed.

Lemma next_in_first key lit before a after :
  Forall (other key lit) before -> named key lit a ->
  next_in key lit (before ++ a :: after)%list = Ret a.
Proof.
  intros Hb (x & Hx & Ex). induction Hb as [| b before (y & Hy & Ey) _ IH]; simpl.
  - rewrite Hx, Ex. reflexivity.
  - rewrite Hy, Ey. exact IH.
Qed.

Lemma next_in_none key lit l :
  Forall (other key lit) l -> next_in key lit l = Ret PNone.
Proof.
  induction 1 as [| b l (y & Hy & Ey) _ IH]; simpl; [reflexivity |].
  rewrite Hy, Ey. exact IH.
Qed.

(** What a lookup that returns tells about the listing. *)
Lemma next_in_inv key lit l r :
  next_in key lit l = Ret r ->
  (r = PNone /\ Forall (other key lit) l) \/
  (exists before after, l = (before ++ r :: after)%list
                        /\ Forall (other key lit) before /\ named key lit r).
Proof.
  revert r. induction l as [| a l IH]; simpl; intros r H.
  - injection H as <-. left. split; constructor.
  - destruct (Py.subscript a key) as [x | e] eqn:Hx; [| discriminate].
    destruct (Py.eq_str x lit) eqn:Ex.
    + injection H as <-. right. exists [], l. repeat split; [constructor |].
      exists x. split; assumption.
    + assert (Ha : other key lit a) by (exists x; split; assumption).
      destruct (IH r H) as [(-> & Hl) | (before & after & -> & Hb & Hr)].
      * left. split; [reflexivity | constructor; assumption].
      * right. exists (a :: before), after. repeat split; [constructor |]; assumption.
Qed.

Lemma any_in_false key lit l :
  Forall (other key lit) l -> any_in key lit l = Ret false.
Proof.
  induction 1 as [| b l (y & Hy & Ey) _ IH]; simpl; [reflexivity |].
  rewrite Hy, Ey. exact IH.
Qed.

Lemma any_in_true key lit before a after :
  Forall (other key lit) before -> named key lit a ->
  any_in key lit (before ++ a :: after)%list = Ret true.
Proof.
  intros Hb (x & Hx & Ex). induction Hb as [| b before (y & Hy & Ey) _ IH]; simpl.
  - rewrite Hx, Ex. reflexivity.
  - rewrite Hy, Ey. exact IH.
Qed.

Lemma any_in_inv key lit l b :
  any_in key lit l = Ret b ->
  if b then Exists (named key lit) l else Forall (other key lit) l.
Proof.
  revert b. induction l as [| a l IH]; simpl; intros b H.
  - injection H as <-. constructor.
  - destruct (Py.subscript a key) as [x | e] eqn:Hx; [| discriminate].
    destruct (Py.eq_str x lit) eqn:Ex.
    + injection H as <-. left. exists x. split; assumption.
    + specialize (IH b H). destruct b.
      * right. exact IH.
      * constructor; [exists x; split; assumption | exact IH].
Qed.

Lemma collect_in_total key l :
  Forall (has_key key) l -> exists xs, collect_in key l = Ret xs.
Proof.
  induction 1 as [| a l (x & Hx) _ (xs & IH)]; simpl.
  - exists []. reflexivity.
  - rewrite Hx, IH. exists (x :: xs). reflexivity.
Qed.

Lemma named_has_key key lit v : named key lit v -> has_key key v.
Proof. intros (x & H & _). exists x. exact H. Qed.

Lemma other_has_key key lit v : other key lit v -> has_key key v.
Proof. intros (x & H & _). exists x. exact H. Qed.

(** ** Running the monad *)

Section Runs.

Context {svc : Service} {lib : PyLib} {cred : Credentials}.

Lemma bind_ret_eq {A B} (m : M A) (k : A -> M B) w a w' :
  m w = (Ret a, w') -> bind m k w = k a w'.
Proof. unfold bind. intros ->. reflexivity. Qed.

Lemma bind_raise_eq {A B} (m : M A) (k : A -> M B) w e w' :
  m w = (Raise e, w') -> bind m k w = (Raise e, w').
Proof. unfold bind. intros ->. reflexivity. Qed.

Lemma bind_print {B} (line : string) (k : unit -> M B) w :
  bind (print line) k w
  = k tt (mkWorld (remote w) (stdout w ++ [line])%list (calls w)).
Proof. reflexivity. Qed.

Lemma bind_lift_ret {A B} (a : A) (k : A -> M B) w :
  bind (lift (Ret a)) k w = k a w.
Proof. reflexivity. Qed.

Lemma bind_lift_raise {A B} e (k : A -> M B) w :
  bind (lift (Raise e)) k w = (Raise e, w).
Proof. reflexivity. Qed.

Lemma bind_ret {A B} (a : A) (k : A -> M B) w : bind (ret a) k w = k a w.
Proof. reflexivity. Qed.

Lemma bind_assoc {A B C} (m : M A) (k : A -> M B) (h : B -> M C) w :
  bind (bind m k) h w = bind m (fun a => bind (k a) h) w.
Proof. unfold bind. destruct (m w) as [[a | e] w']; reflexivity. Qed.

Lemma req_method_build m u d : req_method (build_request m u d) = m.
Proof. unfold build_request. destruct (Py.truthy d); reflexivity. Qed.

Lemma req_url_build m u d : req_url (build_request m u d) = u.
Proof. unfold build_request. destruct (Py.truthy d); reflexivity. Qed.

(** [request] hands exactly one request to [urlopen], whatever comes
    back, and leaves the service in the state [urlopen] left it in. *)
Lemma request_calls m u d w :
  calls (snd (request m u d w)) = (calls w ++ [build_request m u d])%list
  /\ remote (snd (request m u d w))
     = snd (urlopen (build_request m u d) unverified_context (remote w)).
Proof.
  unfold request, bind, do_urlopen.
  destruct (urlopen _ _ _) as [[body | st body | reason] s]; simpl.
  - destruct (utf8_decode body); [destruct (json_loads _) |]; split; reflexivity.
  - destruct (utf8_decode body); split; reflexivity.
  - split; reflexivity.
Qed.

Lemma request_answer m u d w v s' :
  answers (remote w) (build_request m u d) v s' ->
  request m u d w
  = (Ret v, mkWorld s' (stdout w) (calls w ++ [build_request m u d])%list).
Proof.
  intros (body & text & H & Hd & Hj). unfold request, bind, do_urlopen.
  rewrite H. simpl. rewrite Hd, Hj. reflexivity.
Qed.

Lemma request_refused m u d w text s' :
  refuses (remote w) (build_request m u d) text s' ->
  request m u d w
  = (Ret PNone,
     mkWorld s' (stdout w ++ [("Error " ++ m ++ " " ++ u ++ ": " ++ text)%string])%list
             (calls w ++ [build_request m u d])%list).
Proof.
  intros (st & body & H & Hd). unfold request, bind, do_urlopen.
  rewrite H. simpl. rewrite Hd. reflexivity.
Qed.

Lemma request_unreachable m u d w reason s' :
  unreachable (remote w) (build_request m u d) reason s' ->
  request m u d w
  = (Raise (URLError reason),
     mkWorld s' (stdout w) (calls w ++ [build_request m u d])%list).
Proof.
  unfold unreachable. intros H. unfold request, bind, do_urlopen.
  rewrite H. reflexivity.
Qed.

End Runs.

(** One step of a run whose first action is known. *)
Ltac run_step :=
  first [ rewrite bind_assoc
        | rewrite bind_print
        | rewrite bind_lift_ret
        | rewrite bind_lift_raise
        | rewrite bind_ret ];
  cbn [remote stdout calls negb].

Ltac run := repeat run_step.

(** A request whose answer is a hypothesis. *)
Ltac run_request H :=
  first [ erewrite bind_ret_eq by (apply request_answer; cbn [remote]; exact H)
        | erewrite bind_ret_eq by (apply request_refused; cbn [remote]; exact H)
        | erewrite bind_raise_eq by (apply request_unreachable; cbn [remote]; exact H) ];
  cbn [remote stdout calls].

(** ** C6: the application is not listed *)

Section NotFound.

Context {svc : Service} {lib : PyLib} {cred : Credentials}.

Import EnablePublicApi.

(** C6. Whenever the listing of applications answers and none of the
    listed applications has the domain [api.raydoug.com], [main] prints
    the not-found line, returns (no exception), and its only call is
    the listing GET: no POST, PUT or DELETE is issued and the service
    is left as that GET left it. *)
Theorem missing_app_no_writes (s0 s1 : srv_state) (v : pyval) (apps : list pyval) :
  answers s0 list_apps_request v s1 ->
  Py.subscript v "result" = Ret (PList apps) ->
  Forall (other "domain" "api.raydoug.com") apps ->
  main (start s0)
  = (Ret tt,
     mkWorld s1
       ["--- Enabling Public Access for api.raydoug.com ---";
        "Error: App 'api.raydoug.com' not found!"]
       [list_apps_request])
  /\ filter is_write (calls (snd (main (start s0)))) = [].
Proof.
  intros Hget Hres Hnone.
  assert (E : main (start s0)
              = (Ret tt,
                 mkWorld s1
                   ["--- Enabling Public Access for api.raydoug.com ---";
                    "Error: App 'api.raydoug.com' not found!"]
                   [list_apps_request])).
  { unfold main, start. run. run_request Hget.
    rewrite Hres. run. unfold next_match. cbn [Py.iter].
    rewrite (next_in_none _ _ _ Hnone). run. reflexivity. }
  split; [exact E |]. rewrite E. reflexivity.
Qed.

End NotFound.

(** ** C1 and C10: the client *)

Lemma app_assoc_str (a b c : string) : (a ++ b) ++ c = a ++ (b ++ c).
Proof. induction a as [| x a IH]; simpl; [reflexivity | rewrite IH; reflexivity]. Qed.

Lemma app_nil_r_str (a : string) : a ++ "" = a.
Proof. induction a as [| x a IH]; simpl; [reflexivity | rewrite IH; reflexivity]. Qed.

Lemma prefix_app (n post : string) : String.prefix n (n ++ post) = true.
Proof.
  induction n as [| c n IH]; simpl; [destruct post; reflexivity |].
  destruct (ascii_dec c c); [exact IH | congruence].
Qed.

Lemma contains_prefix (n h : string) :
  String.prefix n h = true -> Py.contains n h = true.
Proof. destruct h; simpl; intros ->; reflexivity. Qed.

Lemma contains_app (needle pre post : string) :
  Py.contains needle (pre ++ needle ++ post) = true.
Proof.
  induction pre as [| c pre IH].
  - cbn [String.append]. apply contains_prefix, prefix_app.
  - cbn [String.append Py.contains]. rewrite IH. apply orb_true_r.
Qed.

Section ClientProperties.

Context {svc : Service} {lib : PyLib} {cred : Credentials}.

(** C1, as the code has it.  For every call of [request], by what
    [urlopen] does with the one request handed to it.
    The service answers with an error status and the body is UTF-8
    text: one line holding the method, the URL and that text is
    printed and [None] is returned.
    It answers normally and the body is UTF-8 text that is a JSON
    document: the decoded document is returned and nothing is printed.
    There is no HTTP answer at all (a transport error, [URLError]): the
    exception is not caught, [request] raises it.
    The body of the answer, normal or not, is not UTF-8, or a normal
    answer is not a JSON document: the decoding error is not caught
    either, [request] raises it and prints nothing.
    In each case exactly one request went out. *)
Theorem request_results (m u : string) (d : pyval) (w : world)
    (body : list byte) (s' : srv_state) :
  let req := build_request m u d in
  let sent := (calls w ++ [req])%list in
  (forall status text,
     urlopen req unverified_context (remote w) = (HTTPError status body, s') ->
     utf8_decode body = Some text ->
     let line := "Error " ++ m ++ " " ++ u ++ ": " ++ text in
     request m u d w = (Ret PNone, mkWorld s' (stdout w ++ [line])%list sent)
     /\ Py.contains m line = true /\ Py.contains u line = true
     /\ Py.contains text line = true)
  /\ (forall text v,
        urlopen req unverified_context (remote w) = (Response body, s') ->
        utf8_decode body = Some text -> json_loads text = Some v ->
        request m u d w = (Ret v, mkWorld s' (stdout w) sent))
  /\ (forall reason,
        urlopen req unverified_context (remote w) = (Failure reason, s') ->
        request m u d w = (Raise (URLError reason), mkWorld s' (stdout w) sent))
  /\ (forall status,
        urlopen req unverified_context (remote w) = (HTTPError status body, s') ->
        utf8_decode body = None ->
        request m u d w = (Raise UnicodeDecodeError, mkWorld s' (stdout w) sent))
  /\ (urlopen req unverified_context (remote w) = (Response body, s') ->
      utf8_decode body = None ->
      request m u d w = (Raise UnicodeDecodeError, mkWorld s' (stdout w) sent))
  /\ (forall text,
        urlopen req unverified_context (remote w) = (Response body, s') ->
        utf8_decode body = Some text -> json_loads text = None ->
        request m u d w = (Raise JSONDecodeError, mkWorld s' (stdout w) sent)).
Proof.
  intros req sent. split; [| split; [| split; [| split; [| split]]]].
  - intros status text H Hd line.
    split.
    { apply request_refused. exists status, body. split; assumption. }
    unfold line. repeat split.
    + apply (contains_app m "Error " (" " ++ u ++ ": " ++ text)).
    + replace ("Error " ++ m ++ " " ++ u ++ ": " ++ text)
        with (("Error " ++ m ++ " ") ++ u ++ ": " ++ text).
      * apply contains_app.
      * rewrite !app_assoc_str. reflexivity.
    + replace ("Error " ++ m ++ " " ++ u ++ ": " ++ text)
        with (("Error " ++ m ++ " " ++ u ++ ": ") ++ text ++ "").
      * apply contains_app.
      * rewrite app_nil_r_str, !app_assoc_str. reflexivity.
  - intros text v H Hd Hj. apply request_answer.
    exists body, text. repeat split; assumption.
  - intros reason H. apply request_unreachable. exact H.
  - intros status H Hd. unfold request, bind, do_urlopen. fold req.
    rewrite H. simpl. rewrite Hd. reflexivity.
  - intros H Hd. unfold request, bind, do_urlopen. fold req.
    rewrite H. simpl. rewrite Hd. reflexivity.
  - intros text H Hd Hj. unfold request, bind, do_urlopen. fold req.
    rewrite H. simpl. rewrite Hd, Hj. reflexivity.
Qed.

(** C10. A body is attached exactly when the payload is truthy; with no
    payload ([data=None], the default), and with an empty dict, the
    request object has no body, the two request objects are equal, and
    so are the two runs of [request]; for every falsy payload the
    request handed to [urlopen] is the one of a call without payload. *)
Theorem falsy_payload_sends_no_body (m u : string) :
  req_data (build_request m u PNone) = None
  /\ req_data (build_request m u (PDict [])) = None
  /\ build_request m u (PDict []) = build_request m u PNone
  /\ (forall w, request m u (PDict []) w = request m u PNone w)
  /\ (forall d, Py.truthy d = false -> req_data (build_request m u d) = None)
  /\ (forall d, Py.truthy d = true ->
        req_data (build_request m u d) = Some (utf8_encode (json_dumps d)))
  /\ (forall d w, Py.truthy d = false ->
        calls (snd (request m u d w)) = (calls w ++ [build_request m u PNone])%list).
Proof.
  repeat split; try reflexivity.
  - intros d H. unfold build_request. rewrite H. reflexivity.
  - intros d H. unfold build_request. rewrite H. reflexivity.
  - intros d w H. destruct (request_calls m u d w) as [-> _].
    unfold build_request. rewrite H. reflexivity.
Qed.

End ClientProperties.

(** ** [enable_public_api.py]: the application is listed *)

Section Upsert.

Context {svc : Service} {lib : PyLib} {cred : Credentials}.

Import EnablePublicApi.

(** A run of [main] up to step 3: the application is the first listed
    one with the domain, its policies are listed and each has a name. *)
Lemma main_reaches_upsert s0 s1 s2 v1 v2 before a after an ai policies :
  answers s0 list_apps_request v1 s1 ->
  Py.subscript v1 "result" = Ret (PList (before ++ a :: after)%list) ->
  Forall (other "domain" "api.raydoug.com") before ->
  named "domain" "api.raydoug.com" a ->
  Py.subscript a "name" = Ret an ->
  Py.subscript a "id" = Ret ai ->
  answers s1 (list_policies_request ai) v2 s2 ->
  Py.subscript v2 "result" = Ret (PList policies) ->
  Forall (has_key "name") policies ->
  exists names,
    collect_in "name" policies = Ret names /\
    main (start s0)
    = bind (upsert a (PList policies))
        (fun _ => print "✅ Success! api.raydoug.com is now public (Bypass Everyone).")
        (mkWorld s2
           ["--- Enabling Public Access for api.raydoug.com ---";
            "Found App: " ++ Py.str an ++ " (" ++ Py.str ai ++ ")";
            "Current Policies: " ++ Py.repr (PList names)]
           [list_apps_request; list_policies_request ai]).
Proof.
  intros Hget Hres Hb Ha Han Hai Hget2 Hres2 Hnames.
  destruct (collect_in_total _ _ Hnames) as (names & Hc).
  exists names. split; [exact Hc |].
  unfold main, start. run. run_request Hget. rewrite Hres. run.
  unfold next_match at 1. cbn [Py.iter]. rewrite (next_in_first _ _ _ _ _ Hb Ha). run.
  rewrite (named_truthy _ _ _ Ha). cbn [negb].
  rewrite Han. run. rewrite Hai. run. run_request Hget2.
  rewrite Hres2. run. unfold collect. cbn [Py.iter]. rewrite Hc. run.
  reflexivity.
Qed.

(** Step 3 when a policy of that name is listed: one PUT, addressed to
    the first such policy. *)
Lemma upsert_existing a ai before p after pid w :
  Py.subscript a "id" = Ret ai ->
  Forall (other "name" policy_name) before ->
  named "name" policy_name p ->
  Py.subscript p "id" = Ret pid ->
  upsert a (PList (before ++ p :: after)%list) w
  = bind (request "PUT" (policy_url ai pid) bypass_everyone) (fun _ => ret tt)
      (mkWorld (remote w)
         (stdout w ++ ["Policy 'Public Access' already exists. Updating to ensure it's correct..."])%list
         (calls w)).
Proof.
  intros Hai Hb Hp Hpid. unfold upsert, next_match. cbn [Py.iter].
  rewrite (next_in_first _ _ _ _ _ Hb Hp). run.
  rewrite (named_truthy _ _ _ Hp). run. rewrite Hai. run. rewrite Hpid. run.
  reflexivity.
Qed.

(** Step 3 when no policy of that name is listed: one POST. *)
Lemma upsert_missing a ai policies w :
  Py.subscript a "id" = Ret ai ->
  Forall (other "name" policy_name) policies ->
  upsert a (PList policies) w
  = bind (request "POST" (policies_url ai) bypass_everyone) (fun _ => ret tt)
      (mkWorld (remote w)
         (stdout w ++ ["Creating 'Public Access' policy..."])%list
         (calls w)).
Proof.
  intros Hai Hb. unfold upsert, next_match. cbn [Py.iter].
  rewrite (next_in_none _ _ _ Hb). run. rewrite Hai. run. reflexivity.
Qed.

(** The calls of a run that ends with one request; what runs after the
    request issues none. *)
Lemma calls_after_request {A} m u d (k : pyval -> M A) w :
  (forall x w', calls (snd (k x w')) = calls w') ->
  calls (snd (bind (request m u d) k w))
  = (calls w ++ [build_request m u d])%list.
Proof.
  intros Hk. destruct (request_calls m u d w) as [Hc _].
  unfold bind. destruct (request m u d w) as [[x | e] w']; simpl in Hc |- *.
  - rewrite Hk. exact Hc.
  - exact Hc.
Qed.

Lemma upsert_existing_calls a ai before p after pid w :
  Py.subscript a "id" = Ret ai ->
  Forall (other "name" policy_name) before ->
  named "name" policy_name p ->
  Py.subscript p "id" = Ret pid ->
  calls (snd (upsert a (PList (before ++ p :: after)%list) w))
  = (calls w ++ [put_request ai pid])%list.
Proof.
  intros Hai Hb Hp Hpid. rewrite (upsert_existing _ _ _ _ _ _ _ Hai Hb Hp Hpid).
  rewrite calls_after_request; [reflexivity | reflexivity].
Qed.

Lemma upsert_missing_calls a ai policies w :
  Py.subscript a "id" = Ret ai ->
  Forall (other "name" policy_name) policies ->
  calls (snd (upsert a (PList policies) w)) = (calls w ++ [post_request ai])%list.
Proof.
  intros Hai Hb. rewrite (upsert_missing _ _ _ _ Hai Hb).
  rewrite calls_after_request; reflexivity.
Qed.

Lemma calls_bind_print {A} (m : M A) line w :
  calls (snd (bind m (fun _ => print line) w)) = calls (snd (m w)).
Proof. unfold bind. destruct (m w) as [[x | e] w']; reflexivity. Qed.

(** The calls of a run of [main] in which the policy is listed. *)
Lemma update_in_place_calls
    s0 s1 s2 v1 v2 before a after an ai pbefore p pafter pid :
  answers s0 list_apps_request v1 s1 ->
  Py.subscript v1 "result" = Ret (PList (before ++ a :: after)%list) ->
  Forall (other "domain" "api.raydoug.com") before ->
  named "domain" "api.raydoug.com" a ->
  Py.subscript a "name" = Ret an ->
  Py.subscript a "id" = Ret ai ->
  answers s1 (list_policies_request ai) v2 s2 ->
  Py.subscript v2 "result" = Ret (PList (pbefore ++ p :: pafter)%list) ->
  Forall (other "name" "Public Access") pbefore ->
  named "name" "Public Access" p ->
  Forall (has_key "name") pafter ->
  Py.subscript p "id" = Ret pid ->
  calls (snd (main (start s0)))
  = [list_apps_request; list_policies_request ai; put_request ai pid]
  /\ req_method (put_request ai pid) = "PUT"
  /\ req_url (put_request ai pid)
     = BASE_URL ++ "/" ++ Py.str ai ++ "/policies/" ++ Py.str pid
  /\ Forall (fun r => req_method r <> "POST") (calls (snd (main (start s0)))).
Proof.
  intros Hget Hres Hb Ha Han Hai Hget2 Hres2 Hpb Hp Hpa Hpid.
  assert (Hnames : Forall (has_key "name") (pbefore ++ p :: pafter)%list).
  { apply Forall_app. split.
    - eapply Forall_impl; [| exact Hpb]. intros x. apply other_has_key.
    - constructor; [eapply named_has_key; exact Hp | exact Hpa]. }
  destruct (main_reaches_upsert _ _ _ _ _ _ _ _ _ _ _
              Hget Hres Hb Ha Han Hai Hget2 Hres2 Hnames) as (names & _ & E).
  assert (C : calls (snd (main (start s0)))
              = [list_apps_request; list_policies_request ai; put_request ai pid]).
  { rewrite E, calls_bind_print.
    rewrite (upsert_existing_calls _ _ _ _ _ _ _ Hai Hpb Hp Hpid). reflexivity. }
  split; [exact C |]. split; [apply req_method_build |].
  split; [apply req_url_build |]. rewrite C.
  repeat constructor; unfold list_apps_request, list_policies_request, put_request;
    rewrite req_method_build; discriminate.
Qed.

End Upsert.

(** ** Which calls a computation can issue *)

Section OnlyCalls.

Context {svc : Service} {lib : PyLib} {cred : Credentials}.

Lemma only_ret {A} P (a : A) : only_calls P (ret a).
Proof. intros w. exists []. rewrite app_nil_r. split; [reflexivity | constructor]. Qed.

Lemma only_lift {A} P (r : result A) : only_calls P (lift r).
Proof. intros w. exists []. rewrite app_nil_r. split; [reflexivity | constructor]. Qed.

Lemma only_print P line : only_calls P (print line).
Proof. intros w. exists []. rewrite app_nil_r. split; [reflexivity | constructor]. Qed.

Lemma only_request (P : Request -> Prop) m u d :
  P (build_request m u d) -> only_calls P (request m u d).
Proof.
  intros H w. exists [build_request m u d].
  split; [apply request_calls | repeat constructor; exact H].
Qed.

Lemma only_bind {A B} P (m : M A) (k : A -> M B) :
  only_calls P m -> (forall a, only_calls P (k a)) -> only_calls P (bind m k).
Proof.
  intros Hm Hk w. destruct (Hm w) as (n1 & E1 & F1). unfold bind.
  destruct (m w) as [[a | e] w1]; simpl in E1.
  - destruct (Hk a w1) as (n2 & E2 & F2). exists (n1 ++ n2)%list.
    rewrite E2, E1, app_assoc. split; [reflexivity | apply Forall_app; split; assumption].
  - exists n1. split; assumption.
Qed.

Lemma only_for_each {A} P (l : list A) (body : A -> M unit) :
  (forall x, only_calls P (body x)) -> only_calls P (for_each l body).
Proof.
  intros Hb. induction l as [| x l IH]; simpl.
  - apply only_ret.
  - apply only_bind; [apply Hb | intros _; exact IH].
Qed.

End OnlyCalls.

Ltac only_calls_step :=
  lazymatch goal with
  | |- only_calls _ (bind _ _) => apply only_bind; [| intro]
  | |- only_calls _ (ret _) => apply only_ret
  | |- only_calls _ (lift _) => apply only_lift
  | |- only_calls _ (print _) => apply only_print
  | |- only_calls _ (request _ _ _) => apply only_request
  | |- only_calls _ (for_each _ _) => apply only_for_each; intro
  | |- only_calls _ (if ?b then _ else _) => destruct b
  end.

(** ** [fix_zero_trust.py] on any service *)

Section Fixer.

Context {svc : Service} {lib : PyLib} {cred : Credentials}.

Import FixZeroTrust.

Lemma ensure_app_calls s0 s1 v apps :
  answers s0 (get_request BASE_URL) v s1 ->
  Py.subscript v "result" = Ret (PList apps) ->
  (Forall (other "domain" "studio.raydoug.com") apps ->
   calls (snd (ensure_app (start s0))) = [get_request BASE_URL; create_app_request])
  /\ (~ Forall (other "domain" "studio.raydoug.com") apps ->
      calls (snd (ensure_app (start s0))) = [get_request BASE_URL]).
Proof.
  intros Hget Hres. split.
  - intros Hnone. unfold ensure_app, start. run. run_request Hget. rewrite Hres. run.
    unfold next_match. cbn [Py.iter]. rewrite (next_in_none _ _ _ Hnone). run.
    cbn [Py.truthy negb]. run.
    rewrite calls_after_request; [reflexivity |].
    intros x w'. destruct (Py.subscript x "result") as [y | e]; [| reflexivity].
    run. destruct (Py.subscript y "id"); reflexivity.
  - intros Hsome. unfold ensure_app, start. run. run_request Hget. rewrite Hres. run.
    unfold next_match. cbn [Py.iter].
    destruct (next_in "domain" "studio.raydoug.com" apps) as [r | e] eqn:E;
      [| reflexivity].
    destruct (next_in_inv _ _ _ _ E) as [(_ & Hall) | (b & a & _ & _ & Hr)];
      [contradiction |].
    run. rewrite (named_truthy _ _ _ Hr). cbn [negb].
    destruct (Py.subscript r "id"); reflexivity.
Qed.

Lemma ensure_policy_calls studio_app l name payload w :
  (Forall (other "name" name) l ->
   forall ai, Py.subscript studio_app "id" = Ret ai ->
   calls (snd (ensure_policy studio_app (PList l) name payload w))
   = (calls w ++ [create_policy_request ai payload])%list)
  /\ (~ Forall (other "name" name) l ->
      calls (snd (ensure_policy studio_app (PList l) name payload w)) = calls w).
Proof.
  unfold ensure_policy, any_match. cbn [Py.iter]. split.
  - intros Hnone ai Hai. rewrite (any_in_false _ _ _ Hnone). run. rewrite Hai. run.
    rewrite calls_after_request; reflexivity.
  - intros Hsome. destruct (any_in "name" name l) as [[|] | e] eqn:E; try reflexivity.
    apply any_in_inv in E. contradiction.
Qed.

Lemma phase1_only_reads_and_creates :
  only_calls (fun r => req_method r = "GET" \/ req_method r = "POST") phase1.
Proof.
  unfold phase1, ensure_app, ensure_policies, ensure_policy.
  repeat only_calls_step; rewrite req_method_build; auto.
Qed.


(** The first step of the fixer when an application with the domain
    is listed, and when none is and the POST is answered. *)
Lemma ensure_app_found s0 s1 v before a after ai :
  answers s0 (get_request BASE_URL) v s1 ->
  Py.subscript v "result" = Ret (PList (before ++ a :: after)%list) ->
  Forall (other "domain" "studio.raydoug.com") before ->
  named "domain" "studio.raydoug.com" a ->
  Py.subscript a "id" = Ret ai ->
  ensure_app (start s0)
  = (Ret a,
     mkWorld s1
       ["--- 1. Creating/Checking 'Supabase Studio' App ---";
        "Supabase Studio app already exists: " ++ Py.str ai]
       [get_request BASE_URL]).
Proof.
  intros Hget Hres Hb Ha Hai.
  unfold ensure_app, start. run. run_request Hget. rewrite Hres. run.
  unfold next_match. cbn [Py.iter]. rewrite (next_in_first _ _ _ _ _ Hb Ha). run.
  rewrite (named_truthy _ _ _ Ha). cbn [negb]. rewrite Hai. run. reflexivity.
Qed.

Lemma ensure_app_created s0 s1 s2 v apps v2 created ai :
  answers s0 (get_request BASE_URL) v s1 ->
  Py.subscript v "result" = Ret (PList apps) ->
  Forall (other "domain" "studio.raydoug.com") apps ->
  answers s1 create_app_request v2 s2 ->
  Py.subscript v2 "result" = Ret created ->
  Py.subscript created "id" = Ret ai ->
  ensure_app (start s0)
  = (Ret created,
     mkWorld s2
       ["--- 1. Creating/Checking 'Supabase Studio' App ---";
        "Creating Supabase Studio app...";
        "Created app: " ++ Py.str ai]
       [get_request BASE_URL; create_app_request]).
Proof.
  intros Hget Hres Hnone Hpost Hres2 Hid.
  unfold ensure_app, start. run. run_request Hget. rewrite Hres. run.
  unfold next_match. cbn [Py.iter]. rewrite (next_in_none _ _ _ Hnone). run.
  cbn [Py.truthy negb]. run. run_request Hpost. rewrite Hres2. run.
  rewrite Hid. run. reflexivity.
Qed.

(** One policy block, by what its [any(...)] gives on the listing:
    its calls, whatever becomes of the POST, and its return when the
    POST, if sent, gets an HTTP answer. *)
Lemma ensure_policy_calls_by studio_app ai policies name payload b w :
  Py.subscript studio_app "id" = Ret ai ->
  any_match "name" name policies = Ret b ->
  calls (snd (ensure_policy studio_app policies name payload w))
  = (calls w ++ (if b then [] else [create_policy_request ai payload]))%list.
Proof.
  intros Hai Hb. unfold ensure_policy. rewrite Hb. run. destruct b; cbn [negb].
  - rewrite app_nil_r. reflexivity.
  - run. rewrite Hai. run. rewrite calls_after_request; reflexivity.
Qed.

Lemma ensure_policy_returns studio_app ai policies name payload b w s' :
  Py.subscript studio_app "id" = Ret ai ->
  any_match "name" name policies = Ret b ->
  (b = false -> responds (remote w) (create_policy_request ai payload) s') ->
  exists w',
    ensure_policy studio_app policies name payload w = (Ret tt, w')
    /\ calls w' = (calls w ++ (if b then [] else [create_policy_request ai payload]))%list
    /\ remote w' = (if b then remote w else s').
Proof.
  intros Hai Hb H. unfold ensure_policy. rewrite Hb. run. destruct b; cbn [negb].
  - exists w. rewrite app_nil_r. repeat split.
  - run. rewrite Hai. run.
    destruct (H eq_refl) as [(x & Hx) | (text & Hx)]; run_request Hx; run;
      eexists; (split; [reflexivity | split; reflexivity]).
Qed.

(** The calls of the policy step.  The second POST is recorded
    whatever becomes of it; it is reached when the first one, if sent,
    got an HTTP answer. *)
Lemma ensure_policies_calls studio_app ai v policies b1 b2 w s2 s3 :
  Py.subscript studio_app "id" = Ret ai ->
  answers (remote w) (get_request (policies_url ai)) v s2 ->
  Py.subscript v "result" = Ret policies ->
  any_match "name" "Allow Admins" policies = Ret b1 ->
  any_match "name" "Allow Service" policies = Ret b2 ->
  (b1 = false -> responds s2 (create_policy_request ai allow_admins) s3) ->
  calls (snd (ensure_policies studio_app w))
  = (calls w
     ++ get_request (policies_url ai)
        :: (if b1 then [] else [create_policy_request ai allow_admins])
        ++ (if b2 then [] else [create_policy_request ai allow_service]))%list.
Proof.
  intros Hai Hget Hres Hadm Hsvc H1.
  unfold ensure_policies. run. rewrite Hai. run. run_request Hget.
  rewrite Hres. run.
  lazymatch goal with
  | |- calls (snd (bind _ _ ?w1)) = _ =>
      destruct (ensure_policy_returns studio_app ai policies "Allow Admins"
                  allow_admins b1 w1 s3 Hai Hadm H1) as (w' & E & C & _)
  end.
  rewrite (bind_ret_eq _ _ _ _ _ E).
  rewrite (ensure_policy_calls_by _ _ _ _ _ _ _ Hai Hsvc), C. cbn [calls].
  rewrite <- !app_assoc. reflexivity.
Qed.

Lemma phase1_calls_from s0 w1 studio_app ai v policies b1 b2 s2 s3 :
  ensure_app (start s0) = (Ret studio_app, w1) ->
  Py.subscript studio_app "id" = Ret ai ->
  answers (remote w1) (get_request (policies_url ai)) v s2 ->
  Py.subscript v "result" = Ret policies ->
  any_match "name" "Allow Admins" policies = Ret b1 ->
  any_match "name" "Allow Service" policies = Ret b2 ->
  (b1 = false -> responds s2 (create_policy_request ai allow_admins) s3) ->
  calls (snd (phase1 (start s0)))
  = (calls w1
     ++ get_request (policies_url ai)
        :: (if b1 then [] else [create_policy_request ai allow_admins])
        ++ (if b2 then [] else [create_policy_request ai allow_service]))%list.
Proof.
  intros E Hai Hget Hres Hadm Hsvc H1. unfold phase1.
  rewrite (bind_ret_eq _ _ _ _ _ E).
  exact (ensure_policies_calls _ _ _ _ _ _ _ _ _ Hai Hget Hres Hadm Hsvc H1).
Qed.

Lemma phase1_found_calls s0 s1 s2 s3 v1 v2 before a after ai policies b1 b2 :
  answers s0 (get_request BASE_URL) v1 s1 ->
  Py.subscript v1 "result" = Ret (PList (before ++ a :: after)%list) ->
  Forall (other "domain" "studio.raydoug.com") before ->
  named "domain" "studio.raydoug.com" a ->
  Py.subscript a "id" = Ret ai ->
  answers s1 (get_request (policies_url ai)) v2 s2 ->
  Py.subscript v2 "result" = Ret policies ->
  any_match "name" "Allow Admins" policies = Ret b1 ->
  any_match "name" "Allow Service" policies = Ret b2 ->
  (b1 = false -> responds s2 (create_policy_request ai allow_admins) s3) ->
  calls (snd (phase1 (start s0)))
  = ([get_request BASE_URL; get_request (policies_url ai)]
     ++ (if b1 then [] else [create_policy_request ai allow_admins])
     ++ (if b2 then [] else [create_policy_request ai allow_service]))%list.
Proof.
  intros Hget Hres Hb Ha Hai Hget2 Hres2 Hadm Hsvc H1.
  rewrite (phase1_calls_from _ _ _ _ _ _ _ _ _ _
             (ensure_app_found _ _ _ _ _ _ _ Hget Hres Hb Ha Hai)
             Hai Hget2 Hres2 Hadm Hsvc H1).
  reflexivity.
Qed.

Lemma phase1_created_calls
    s0 s1 s2 s3 s4 v1 v2 v3 apps created ai policies b1 b2 :
  answers s0 (get_request BASE_URL) v1 s1 ->
  Py.subscript v1 "result" = Ret (PList apps) ->
  Forall (other "domain" "studio.raydoug.com") apps ->
  answers s1 create_app_request v2 s2 ->
  Py.subscript v2 "result" = Ret created ->
  Py.subscript created "id" = Ret ai ->
  answers s2 (get_request (policies_url ai)) v3 s3 ->
  Py.subscript v3 "result" = Ret policies ->
  any_match "name" "Allow Admins" policies = Ret b1 ->
  any_match "name" "Allow Service" policies = Ret b2 ->
  (b1 = false -> responds s3 (create_policy_request ai allow_admins) s4) ->
  calls (snd (phase1 (start s0)))
  = ([get_request BASE_URL; create_app_request; get_request (policies_url ai)]
     ++ (if b1 then [] else [create_policy_request ai allow_admins])
     ++ (if b2 then [] else [create_policy_request ai allow_service]))%list.
Proof.
  intros Hget Hres Hnone Hpost Hres2 Hid Hget2 Hres3 Hadm Hsvc H1.
  rewrite (phase1_calls_from _ _ _ _ _ _ _ _ _ _
             (ensure_app_created _ _ _ _ _ _ _ _ Hget Hres Hnone Hpost Hres2 Hid)
             Hid Hget2 Hres3 Hadm Hsvc H1).
  reflexivity.
Qed.

(** What [any] over a listing says about the listing. *)
Lemma any_match_listing name l :
  (any_match "name" name (PList l) = Ret false <-> Forall (other "name" name) l)
  /\ (any_match "name" name (PList l) = Ret true -> Exists (named "name" name) l).
Proof.
  unfold any_match. cbn [Py.iter]. split; [split |].
  - intros H. exact (any_in_inv _ _ _ _ H).
  - apply any_in_false.
  - intros H. exact (any_in_inv _ _ _ _ H).
Qed.

(** C8. For a policy whose name is a string that contains [bypass] and
    [ip] once lowered, and is not the stale name, the secondary
    condition is evaluated to true and nothing else happens: the loop
    body returns in the world it started in (no request, no print, the
    service untouched). *)
Theorem secondary_branch_is_noop (app policy : pyval) (name : string) (w : world) :
  Py.subscript policy "name" = Ret (PStr name) ->
  Py.contains "bypass" (Py.lower_string name) = true ->
  Py.contains "ip" (Py.lower_string name) = true ->
  name <> stale_name ->
  looks_like_ip_bypass policy w = (Ret true, w)
  /\ cleanup_policy app policy w = (Ret tt, w).
Proof.
  intros Hn Hb Hi Hne.
  assert (L : looks_like_ip_bypass policy w = (Ret true, w)).
  { unfold looks_like_ip_bypass. rewrite Hn. run. cbn [Py.lower]. run.
    rewrite Hb. run. cbn [Py.lower]. run. rewrite Hi. reflexivity. }
  split; [exact L |]. unfold cleanup_policy. rewrite Hn. run.
  assert (E : Py.eq_str (PStr name) stale_name = false).
  { simpl. apply String.eqb_neq. exact Hne. }
  rewrite E. rewrite (bind_ret_eq _ _ _ _ _ L). reflexivity.
Qed.

End Fixer.

(** ** C7 and C9 *)

Section Unguarded.

Context {svc : Service} {lib : PyLib} {cred : Credentials}.

Lemma for_each_app {A} (l1 l2 : list A) (body : A -> M unit) w :
  for_each (l1 ++ l2)%list body w
  = bind (for_each l1 body) (fun _ => for_each l2 body) w.
Proof.
  revert w. induction l1 as [| x l1 IH]; intros w; [reflexivity |].
  cbn [List.app for_each]. unfold bind.
  destruct (body x w) as [[[] | e] w']; [| reflexivity].
  rewrite IH. reflexivity.
Qed.

(** C7. Wherever the scripts write [request(...)['result']] and the
    service answers with an error status, [request] returns [None] and
    the subscript raises [TypeError]; nothing of the continuation runs.
    This is so at each of the six places where a listing is asked for.
    In the enabler: the listing of applications (line 35) and the
    listing of the policies of the application found (line 45).  In the
    fixer: the first listing of applications (line 40), the listing of
    the policies of the studio application, found or just created
    (line 57), the second listing of applications (line 80), and the
    listing of the policies of an application in the cleanup loop
    (line 84).  In each case [main] ends with an uncaught [TypeError]
    right after the error line of [request], having issued no further
    request.
    In the cleanup loop, once the applications [before] have been
    visited, when the listing of the policies of the next application
    is answered with an error status, the loop and [main] end with the
    [TypeError] right after that call: the result does not depend on
    the applications [rest] that were still to be visited, and no
    request is made for them.
    Whatever made [request] return [None] (an error status, or a
    normal answer whose document is [null]), the subscript that
    follows raises [TypeError] and the continuation does not run. *)
Theorem null_listing_is_not_guarded :
  (forall (A : Type) m u d (k : pyval -> M A) w text s',
     refuses (remote w) (build_request m u d) text s' ->
     (r <- request m u d ;; x <- lift (Py.subscript r "result") ;; k x) w
     = (Raise TypeError,
        mkWorld s' (stdout w ++ [("Error " ++ m ++ " " ++ u ++ ": " ++ text)%string])%list
                (calls w ++ [build_request m u d])%list))
  /\ (forall s0 s1 text,
     refuses s0 list_apps_request text s1 ->
     EnablePublicApi.main (start s0)
     = (Raise TypeError,
        mkWorld s1
          ["--- Enabling Public Access for api.raydoug.com ---";
           "Error GET " ++ (BASE_URL ++ "?per_page=100") ++ ": " ++ text]
          [list_apps_request]))
  /\ (forall before app rest an ad ai w0 w text s',
        for_each before FixZeroTrust.cleanup_app w0 = (Ret tt, w) ->
        Py.subscript app "name" = Ret an ->
        Py.subscript app "domain" = Ret ad ->
        Py.subscript app "id" = Ret ai ->
        refuses (remote w) (get_request (FixZeroTrust.policies_url ai)) text s' ->
        for_each (before ++ app :: rest)%list FixZeroTrust.cleanup_app w0
        = (Raise TypeError,
           mkWorld s'
             (stdout w
              ++ [("Checking app: " ++ Py.str an ++ " (" ++ Py.str ad ++ ")")%string;
                  ("Error GET " ++ FixZeroTrust.policies_url ai ++ ": " ++ text)%string])%list
             (calls w ++ [get_request (FixZeroTrust.policies_url ai)])%list))
  /\ (forall s0 s1 s2 v before a after an ai text,
        answers s0 list_apps_request v s1 ->
        Py.subscript v "result" = Ret (PList (before ++ a :: after)%list) ->
        Forall (other "domain" "api.raydoug.com") before ->
        named "domain" "api.raydoug.com" a ->
        Py.subscript a "name" = Ret an ->
        Py.subscript a "id" = Ret ai ->
        refuses s1 (list_policies_request ai) text s2 ->
        EnablePublicApi.main (start s0)
        = (Raise TypeError,
           mkWorld s2
             ["--- Enabling Public Access for api.raydoug.com ---";
              "Found App: " ++ Py.str an ++ " (" ++ Py.str ai ++ ")";
              "Error GET " ++ EnablePublicApi.policies_url ai ++ ": " ++ text]
             [list_apps_request; list_policies_request ai]))
  /\ (forall s0 s1 text,
        refuses s0 (get_request BASE_URL) text s1 ->
        FixZeroTrust.main (start s0)
        = (Raise TypeError,
           mkWorld s1
             ["--- 1. Creating/Checking 'Supabase Studio' App ---";
              "Error GET " ++ BASE_URL ++ ": " ++ text]
             [get_request BASE_URL]))
  /\ (forall s0 w1 studio_app ai text s',
        FixZeroTrust.ensure_app (start s0) = (Ret studio_app, w1) ->
        Py.subscript studio_app "id" = Ret ai ->
        refuses (remote w1) (get_request (FixZeroTrust.policies_url ai)) text s' ->
        FixZeroTrust.main (start s0)
        = (Raise TypeError,
           mkWorld s'
             (stdout w1
              ++ ["Configuring policies for Supabase Studio...";
                  ("Error GET " ++ FixZeroTrust.policies_url ai ++ ": " ++ text)%string])%list
             (calls w1 ++ [get_request (FixZeroTrust.policies_url ai)])%list))
  /\ (forall s0 w1 text s',
        FixZeroTrust.phase1 (start s0) = (Ret tt, w1) ->
        refuses (remote w1) list_apps_request text s' ->
        FixZeroTrust.main (start s0)
        = (Raise TypeError,
           mkWorld s'
             (stdout w1
              ++ [(LF ++ "--- 2. Cleaning up 'Macbook dual-stack Bypass' from all apps ---")%string;
                  ("Error GET " ++ (BASE_URL ++ "?per_page=100") ++ ": " ++ text)%string])%list
             (calls w1 ++ [list_apps_request])%list))
  /\ (forall s0 w1 s2 v before app rest an ad ai w text s',
        FixZeroTrust.phase1 (start s0) = (Ret tt, w1) ->
        answers (remote w1) list_apps_request v s2 ->
        Py.subscript v "result" = Ret (PList (before ++ app :: rest)%list) ->
        for_each before FixZeroTrust.cleanup_app
          (mkWorld s2
             (stdout w1
              ++ [(LF ++ "--- 2. Cleaning up 'Macbook dual-stack Bypass' from all apps ---")%string])%list
             (calls w1 ++ [list_apps_request])%list)
        = (Ret tt, w) ->
        Py.subscript app "name" = Ret an ->
        Py.subscript app "domain" = Ret ad ->
        Py.subscript app "id" = Ret ai ->
        refuses (remote w) (get_request (FixZeroTrust.policies_url ai)) text s' ->
        FixZeroTrust.main (start s0)
        = (Raise TypeError,
           mkWorld s'
             (stdout w
              ++ [("Checking app: " ++ Py.str an ++ " (" ++ Py.str ad ++ ")")%string;
                  ("Error GET " ++ FixZeroTrust.policies_url ai ++ ": " ++ text)%string])%list
             (calls w ++ [get_request (FixZeroTrust.policies_url ai)])%list))
  /\ (forall (A : Type) m u d (k : pyval -> M A) w w',
        request m u d w = (Ret PNone, w') ->
        (r <- request m u d ;; x <- lift (Py.subscript r "result") ;; k x) w
        = (Raise TypeError, w')).
Proof.
  assert (Loop : forall before app rest an ad ai w0 w text s',
             for_each before FixZeroTrust.cleanup_app w0 = (Ret tt, w) ->
             Py.subscript app "name" = Ret an ->
             Py.subscript app "domain" = Ret ad ->
             Py.subscript app "id" = Ret ai ->
             refuses (remote w) (get_request (FixZeroTrust.policies_url ai)) text s' ->
             for_each (before ++ app :: rest)%list FixZeroTrust.cleanup_app w0
             = (Raise TypeError,
                mkWorld s'
                  (stdout w
                   ++ [("Checking app: " ++ Py.str an ++ " (" ++ Py.str ad ++ ")")%string;
                       ("Error GET " ++ FixZeroTrust.policies_url ai ++ ": " ++ text)%string])%list
                  (calls w ++ [get_request (FixZeroTrust.policies_url ai)])%list)).
  { intros before app rest an ad ai w0 w text s' Hb Hn Hd Hi H.
    rewrite for_each_app, (bind_ret_eq _ _ _ _ _ Hb).
    cbn [for_each]. unfold FixZeroTrust.cleanup_app. run.
    rewrite Hn. run. rewrite Hd. run. rewrite Hi. run.
    run_request H. cbn [Py.subscript]. run.
    rewrite <- app_assoc. reflexivity. }
  split; [| split; [| split; [| split; [| split; [| split; [| split; [| split]]]]]]].
  - intros A m u d k w text s' H. run_request H. reflexivity.
  - intros s0 s1 text H. unfold EnablePublicApi.main, start. run.
    run_request H. reflexivity.
  - exact Loop.
  - intros s0 s1 s2 v before a after an ai text Hget Hres Hb Ha Han Hai H.
    unfold EnablePublicApi.main, start. run. run_request Hget. rewrite Hres. run.
    unfold next_match at 1. cbn [Py.iter]. rewrite (next_in_first _ _ _ _ _ Hb Ha).
    run. rewrite (named_truthy _ _ _ Ha). cbn [negb]. rewrite Han. run.
    rewrite Hai. run. run_request H. reflexivity.
  - intros s0 s1 text H.
    unfold FixZeroTrust.main, FixZeroTrust.phase1, FixZeroTrust.ensure_app, start.
    run. run_request H. reflexivity.
  - intros s0 w1 studio_app ai text s' E Hid H.
    unfold FixZeroTrust.main, FixZeroTrust.phase1. rewrite !bind_assoc.
    rewrite (bind_ret_eq _ _ _ _ _ E). unfold FixZeroTrust.ensure_policies. run.
    rewrite Hid. run. run_request H. cbn [Py.subscript]. run.
    rewrite <- app_assoc. reflexivity.
  - intros s0 w1 text s' E H. unfold FixZeroTrust.main.
    rewrite (bind_ret_eq _ _ _ _ _ E). unfold FixZeroTrust.cleanup. run.
    run_request H. cbn [Py.subscript]. run. rewrite <- app_assoc. reflexivity.
  - intros s0 w1 s2 v before app rest an ad ai w text s' E Hget Hres Hb Hn Hd Hi H.
    unfold FixZeroTrust.main. rewrite (bind_ret_eq _ _ _ _ _ E).
    unfold FixZeroTrust.cleanup. run. run_request Hget. rewrite Hres. run.
    cbn [Py.iter]. run.
    rewrite (bind_raise_eq _ _ _ _ _ (Loop _ _ _ _ _ _ _ _ _ _ Hb Hn Hd Hi H)).
    reflexivity.
  - intros A m u d k w w' H. rewrite (bind_ret_eq _ _ _ _ _ H). reflexivity.
Qed.


(** C9. A lookup ([next] over a generator, and likewise [any])
    stops at the first element of the listing whose key equals the
    literal and returns it, whatever follows it in the listing
    (duplicates included).  The scripts act on that element and on no
    later one.  In the enabler, whatever applications follow the first
    one with the domain and whatever policies follow the first one
    named [Public Access]: the calls of [main] are the listing of the
    applications, the listing of the policies of that first
    application, and one PUT addressed to that first policy; when no
    policy has the name, the third call is one POST to the policies of
    that first application.  In the fixer: the first application with
    the studio domain is taken as the studio application, none is
    created, and the calls of the first phase are the listing, the
    listing of the policies of that first application, and the POSTs
    of the missing policies to it. *)
Theorem lookups_take_first_match :
  (forall key lit before a after,
     Forall (other key lit) before -> named key lit a ->
     next_match key lit (PList (before ++ a :: after)%list) = Ret a
     /\ any_match key lit (PList (before ++ a :: after)%list) = Ret true)
  /\ (forall s0 s1 s2 v1 v2 before a after an ai pbefore p pafter pid,
        answers s0 list_apps_request v1 s1 ->
        Py.subscript v1 "result" = Ret (PList (before ++ a :: after)%list) ->
        Forall (other "domain" "api.raydoug.com") before ->
        named "domain" "api.raydoug.com" a ->
        Py.subscript a "name" = Ret an ->
        Py.subscript a "id" = Ret ai ->
        answers s1 (list_policies_request ai) v2 s2 ->
        Py.subscript v2 "result" = Ret (PList (pbefore ++ p :: pafter)%list) ->
        Forall (other "name" "Public Access") pbefore ->
        named "name" "Public Access" p ->
        Forall (has_key "name") pafter ->
        Py.subscript p "id" = Ret pid ->
        calls (snd (EnablePublicApi.main (start s0)))
        = [list_apps_request; list_policies_request ai; put_request ai pid])
  /\ (forall s0 s1 s2 v1 v2 before a after an ai policies,
        answers s0 list_apps_request v1 s1 ->
        Py.subscript v1 "result" = Ret (PList (before ++ a :: after)%list) ->
        Forall (other "domain" "api.raydoug.com") before ->
        named "domain" "api.raydoug.com" a ->
        Py.subscript a "name" = Ret an ->
        Py.subscript a "id" = Ret ai ->
        answers s1 (list_policies_request ai) v2 s2 ->
        Py.subscript v2 "result" = Ret (PList policies) ->
        Forall (other "name" "Public Access") policies ->
        calls (snd (EnablePublicApi.main (start s0)))
        = [list_apps_request; list_policies_request ai; post_request ai])
  /\ (forall s0 s1 v before a after ai,
        answers s0 (get_request BASE_URL) v s1 ->
        Py.subscript v "result" = Ret (PList (before ++ a :: after)%list) ->
        Forall (other "domain" "studio.raydoug.com") before ->
        named "domain" "studio.raydoug.com" a ->
        Py.subscript a "id" = Ret ai ->
        FixZeroTrust.ensure_app (start s0)
        = (Ret a,
           mkWorld s1
             ["--- 1. Creating/Checking 'Supabase Studio' App ---";
              "Supabase Studio app already exists: " ++ Py.str ai]
             [get_request BASE_URL]))
  /\ (forall s0 s1 s2 s3 v1 v2 before a after ai policies b1 b2,
        answers s0 (get_request BASE_URL) v1 s1 ->
        Py.subscript v1 "result" = Ret (PList (before ++ a :: after)%list) ->
        Forall (other "domain" "studio.raydoug.com") before ->
        named "domain" "studio.raydoug.com" a ->
        Py.subscript a "id" = Ret ai ->
        answers s1 (get_request (FixZeroTrust.policies_url ai)) v2 s2 ->
        Py.subscript v2 "result" = Ret policies ->
        any_match "name" "Allow Admins" policies = Ret b1 ->
        any_match "name" "Allow Service" policies = Ret b2 ->
        (b1 = false ->
         responds s2 (create_policy_request ai FixZeroTrust.allow_admins) s3) ->
        calls (snd (FixZeroTrust.phase1 (start s0)))
        = ([get_request BASE_URL; get_request (FixZeroTrust.policies_url ai)]
           ++ (if b1 then []
               else [create_policy_request ai FixZeroTrust.allow_admins])
           ++ (if b2 then []
               else [create_policy_request ai FixZeroTrust.allow_service]))%list).
Proof.
  split; [| split; [| split; [| split]]].
  - intros key lit before a after Hb Ha. unfold next_match, any_match. cbn [Py.iter].
    split; [apply next_in_first | apply any_in_true]; assumption.
  - intros s0 s1 s2 v1 v2 before a after an ai pbefore p pafter pid
           Hget Hres Hb Ha Han Hai Hget2 Hres2 Hpb Hp Hpa Hpid.
    exact (proj1 (update_in_place_calls _ _ _ _ _ _ _ _ _ _ _ _ _ _
                    Hget Hres Hb Ha Han Hai Hget2 Hres2 Hpb Hp Hpa Hpid)).
  - intros s0 s1 s2 v1 v2 before a after an ai policies
           Hget Hres Hb Ha Han Hai Hget2 Hres2 Hnone.
    assert (Hnames : Forall (has_key "name") policies).
    { eapply Forall_impl; [| exact Hnone]. intros x. apply other_has_key. }
    destruct (main_reaches_upsert _ _ _ _ _ _ _ _ _ _ _
                Hget Hres Hb Ha Han Hai Hget2 Hres2 Hnames) as (names & _ & E).
    rewrite E, calls_bind_print.
    rewrite (upsert_missing_calls _ _ _ _ Hai Hnone). reflexivity.
  - intros s0 s1 v before a after ai. apply ensure_app_found.
  - intros s0 s1 s2 s3 v1 v2 before a after ai policies b1 b2.
    apply phase1_found_calls.
Qed.

End Unguarded.

(** ** The parser reads back what the printer writes *)

Section PyvalInduction.

Variable P : pyval -> Prop.
Hypothesis HNone : P PNone.
Hypothesis HBool : forall b, P (PBool b).
Hypothesis HInt : forall z, P (PInt z).
Hypothesis HStr : forall s, P (PStr s).
Hypothesis HList : forall l, Forall P l -> P (PList l).
Hypothesis HDict : forall d, Forall (fun kv => P (snd kv)) d -> P (PDict d).

Fixpoint pyval_nested_ind (v : pyval) : P v :=
  match v with
  | PNone => HNone
  | PBool b => HBool b
  | PInt z => HInt z
  | PStr s => HStr s
  | PList l =>
      HList l ((fix all (l : list pyval) : Forall P l :=
                  match l with
                  | [] => Forall_nil _
                  | x :: l' => Forall_cons x (pyval_nested_ind x) (all l')
                  end) l)
  | PDict d =>
      HDict d ((fix all (d : list (string * pyval))
                  : Forall (fun kv => P (snd kv)) d :=
                  match d with
                  | [] => Forall_nil _
                  | (k, x) :: d' =>
                      Forall_cons (k, x) (pyval_nested_ind x) (all d')
                  end) d)
  end.

End PyvalInduction.

Module JsonFacts.

Import Json JsonLayout.

Lemma dumps_list l : dumps (PList l) = "[" ++ dumps_items l.
Proof.
  destruct l; reflexivity.
Qed.

Lemma dumps_dict d : dumps (PDict d) = "{" ++ dumps_members d.
Proof.
  destruct d; reflexivity.
Qed.

Lemma length_app_str (a b : string) :
  String.length (a ++ b) = String.length a + String.length b.
Proof. induction a as [| c a IH]; simpl; [reflexivity | rewrite IH; reflexivity]. Qed.

Lemma strip_app (p s : string) : strip p (p ++ s) = Some s.
Proof.
  induction p as [| c p IH]; simpl; [reflexivity |].
  rewrite Ascii.eqb_refl. exact IH.
Qed.

(** *** Strings *)

Lemma parse_escape_char (c : ascii) (tail : string) :
  parse_chars (escape_char c ++ tail) = cons_char c (parse_chars tail).
Proof.
  destruct c as [[|] [|] [|] [|] [|] [|] [|] [|]]; reflexivity.
Qed.

Lemma parse_escape (s rest : string) :
  parse_chars (escape s ++ String dquote rest) = Some (s, rest).
Proof.
  induction s as [| c s IH]; [reflexivity |].
  cbn [escape]. rewrite app_assoc_str, parse_escape_char, IH. reflexivity.
Qed.

Lemma parse_quoted (s rest : string) :
  quoted s ++ rest = String dquote (escape s ++ String dquote rest).
Proof. unfold quoted. cbn [String.append]. rewrite app_assoc_str. reflexivity. Qed.

(** *** Integers *)

Lemma all_num_cons c s : is_num_char c = true -> all_num s -> all_num (String c s).
Proof.
  intros Hc Hs x. simpl. destruct (Ascii.eqb x c) eqn:E.
  - apply Ascii.eqb_eq in E. subst. intros _. exact Hc.
  - simpl. apply Hs.
Qed.

Lemma all_num_nil : all_num EmptyString.
Proof. intros c H. discriminate H. Qed.

Lemma all_num_uint (u : Decimal.uint) : all_num (NilEmpty.string_of_uint u).
Proof.
  induction u; simpl; try apply all_num_nil; apply all_num_cons;
    (reflexivity || assumption).
Qed.

Lemma all_num_int (i : Decimal.signed_int) : all_num (NilZero.string_of_int i).
Proof.
  destruct i as [u | u]; simpl.
  - destruct u; try apply all_num_uint.
    apply all_num_cons; [reflexivity | apply all_num_nil].
  - apply all_num_cons; [reflexivity |].
    destruct u; try apply all_num_uint.
    apply all_num_cons; [reflexivity | apply all_num_nil].
Qed.

Lemma nonempty_int (i : Decimal.signed_int) :
  exists c s, NilZero.string_of_int i = String c s.
Proof.
  destruct i as [u | u]; simpl.
  - destruct u; simpl; eexists; eexists; reflexivity.
  - eexists; eexists; reflexivity.
Qed.

Lemma span_num_app (d rest : string) :
  all_num d -> follow_ok rest -> span_num (d ++ rest) = (d, rest).
Proof.
  intros Hd Hr. induction d as [| c d IH]; cbn [String.append].
  - destruct rest as [| c r]; [reflexivity |]. simpl in Hr |- *. rewrite Hr. reflexivity.
  - cbn [span_num]. rewrite (Hd c) by (simpl; rewrite Ascii.eqb_refl; reflexivity).
    rewrite IH; [reflexivity |].
    intros x Hx. apply Hd. simpl. rewrite Hx. apply orb_true_r.
Qed.

Lemma int_of_string_of_int (i : Decimal.signed_int) :
  exists j, NilZero.int_of_string (NilZero.string_of_int i) = Some j
            /\ Z.of_int j = Z.of_int i.
Proof.
  destruct i as [[| | | | | | | | | |] | [| | | | | | | | | |]];
    try (eexists; split; [apply NilZero.isi; discriminate | reflexivity]).
  - exists (Decimal.Pos (Decimal.D0 Decimal.Nil)). split; reflexivity.
  - exists (Decimal.Neg (Decimal.D0 Decimal.Nil)). split; reflexivity.
Qed.

Lemma parse_int_str (z : Z) (rest : string) :
  follow_ok rest -> parse_int (Py.str_int z ++ rest) = Some (PInt z, rest).
Proof.
  intros Hr. unfold parse_int, Py.str_int.
  rewrite span_num_app by (try apply all_num_int; assumption).
  destruct (int_of_string_of_int (Z.to_int z)) as (j & -> & Hj).
  rewrite Hj, DecimalZ.of_to. reflexivity.
Qed.

Lemma str_int_head (z : Z) :
  exists c s, Py.str_int z = String c s /\ is_num_char c = true.
Proof.
  unfold Py.str_int. destruct (nonempty_int (Z.to_int z)) as (c & s & E).
  exists c, s. split; [exact E |].
  apply (all_num_int (Z.to_int z)). rewrite E. simpl. rewrite Ascii.eqb_refl. reflexivity.
Qed.

End JsonFacts.

Module JsonRoundTrip.

Import Json JsonLayout JsonFacts.

Lemma strip_bracket_dumps v tail : strip "]" (dumps v ++ tail) = None.
Proof.
  destruct v as [| [|] | z | s | l | d]; try reflexivity.
  - destruct (str_int_head z) as (c & s & E & Hc). cbn [dumps]. rewrite E.
    cbn [String.append strip].
    destruct (Ascii.eqb "]" c) eqn:Ec; [| reflexivity].
    apply Ascii.eqb_eq in Ec. subst c. discriminate Hc.
Qed.

Lemma follow_close_bracket rest : follow_ok (String "]" rest).
Proof. reflexivity. Qed.

Lemma follow_close_brace rest : follow_ok (String "}" rest).
Proof. reflexivity. Qed.

Lemma follow_comma rest : follow_ok (String "," rest).
Proof. reflexivity. Qed.

Lemma parse_items_dumps l :
  Forall reads_back l -> l <> [] ->
  forall fuel rest,
    String.length (dumps_items l) < fuel ->
    parse_items fuel (dumps_items l ++ rest) = Some (l, rest).
Proof.
  induction 1 as [| x l Hx Hl IH]; [congruence |]. intros _ fuel rest Hf.
  destruct fuel as [| f]; [inversion Hf |]. cbn [dumps_items] in Hf |- *.
  rewrite length_app_str in Hf. rewrite app_assoc_str. cbn [parse_items].
  destruct l as [| y l].
  - assert (Hlt : String.length (dumps x) < f) by (cbn [String.length] in Hf; lia).
    rewrite (Hx f); [| reflexivity | exact Hlt]. cbv beta iota.
    rewrite strip_app. reflexivity.
  - rewrite length_app_str in Hf. rewrite app_assoc_str.
    assert (Hlt : String.length (dumps x) < f) by (cbn [String.length] in Hf; lia).
    rewrite (Hx f); [| reflexivity | exact Hlt]. cbv beta iota.
    change (strip "]" (", " ++ ?t)) with (@None string).
    rewrite strip_app. cbv beta iota.
    rewrite IH; [reflexivity | discriminate | cbn [String.length] in Hf; lia].
Qed.

Lemma strip_quote s : strip (String dquote EmptyString) (String dquote s) = Some s.
Proof. reflexivity. Qed.

Lemma parse_members_dumps d :
  Forall (fun kv => reads_back (snd kv)) d -> d <> [] ->
  forall fuel rest,
    String.length (dumps_members d) < fuel ->
    parse_members fuel (dumps_members d ++ rest) = Some (d, rest).
Proof.
  induction 1 as [| [k x] d Hx Hd IH]; [congruence |]. intros _ fuel rest Hf.
  destruct fuel as [| f]; [inversion Hf |]. cbn [dumps_members] in Hf |- *.
  cbn [snd] in Hx.
  rewrite !length_app_str in Hf. rewrite !app_assoc_str, parse_quoted.
  cbn [parse_members]. rewrite strip_quote. rewrite parse_escape.
  rewrite strip_app.
  assert (Hlt : String.length (dumps x) < f)
    by (change (String.length ": ") with 2 in Hf; lia).
  destruct d as [| kv d].
  - rewrite (Hx f); [| reflexivity | exact Hlt]. cbv beta iota.
    rewrite strip_app. reflexivity.
  - rewrite app_assoc_str.
    rewrite (Hx f); [| reflexivity | exact Hlt]. cbv beta iota.
    change (strip "}" (", " ++ ?t)) with (@None string).
    rewrite strip_app. cbv beta iota.
    rewrite IH; [reflexivity | discriminate |].
    rewrite length_app_str in Hf. cbn [String.length] in Hf. lia.
Qed.

Lemma parse_list_step f s :
  parse (S f) (String "[" s)
  = match strip "]" s with
    | Some rest' => Some (PList [], rest')
    | None => match parse_items f s with
              | Some (l, rest') => Some (PList l, rest')
              | None => None
              end
    end.
Proof. reflexivity. Qed.

Lemma parse_dict_step f s :
  parse (S f) (String "{" s)
  = match strip "}" s with
    | Some rest' => Some (PDict [], rest')
    | None => match parse_members f s with
              | Some (d, rest') => Some (PDict d, rest')
              | None => None
              end
    end.
Proof. reflexivity. Qed.

Lemma parse_string_step f s :
  parse (S f) (String dquote s)
  = match parse_chars s with
    | Some (t, rest') => Some (PStr t, rest')
    | None => None
    end.
Proof. reflexivity. Qed.

Lemma parse_dumps v : reads_back v.
Proof.
  induction v using pyval_nested_ind; intros fuel rest Hr Hf;
    (destruct fuel as [| f]; [inversion Hf |]).
  - reflexivity.
  - destruct b; reflexivity.
  - destruct (str_int_head z) as (c & s & E & Hc). cbn [dumps].
    pose proof (parse_int_str z rest Hr) as Hp. rewrite E in Hp |- *.
    cbn [String.append parse] in Hp |- *. rewrite Hc. exact Hp.
  - cbn [dumps]. rewrite parse_quoted, parse_string_step, parse_escape. reflexivity.
  - rewrite dumps_list in Hf |- *. destruct l as [| x l]; [reflexivity |].
    rewrite app_assoc_str. change ("[" ++ ?t) with (String "[" t).
    rewrite parse_list_step.
    assert (Hs : strip "]" (dumps_items (x :: l) ++ rest) = None).
    { cbn [dumps_items]. rewrite app_assoc_str. apply strip_bracket_dumps. }
    rewrite Hs.
    rewrite (parse_items_dumps (x :: l) H); [reflexivity | discriminate |].
    rewrite length_app_str in Hf. cbn [String.length] in Hf. lia.
  - rewrite dumps_dict in Hf |- *. destruct d as [| [k x] d]; [reflexivity |].
    rewrite app_assoc_str. change ("{" ++ ?t) with (String "{" t).
    rewrite parse_dict_step.
    assert (Hs : strip "}" (dumps_members ((k, x) :: d) ++ rest) = None).
    { cbn [dumps_members]. rewrite app_assoc_str. reflexivity. }
    rewrite Hs.
    rewrite (parse_members_dumps ((k, x) :: d) H); [reflexivity | discriminate |].
    rewrite length_app_str in Hf. cbn [String.length] in Hf. lia.
Qed.

Theorem loads_dumps_text v : loads (dumps v) = Some v.
Proof.
  unfold loads. pose proof (parse_dumps v (S (String.length (dumps v))) "" I) as H.
  rewrite app_nil_r_str in H. rewrite H by lia. reflexivity.
Qed.

End JsonRoundTrip.

Definition json_codec : Codec := {|
  codec_lib := json_text;
  loads_dumps := JsonRoundTrip.loads_dumps_text;
  decode_encode := fun s => f_equal Some (string_of_list_byte_of_string s)
|}.

(** ** The scripts against the reference model *)

Module OnReference.

Import AccessAPI Reference.

(** *** Routing *)

Lemma no_slash_cons c s :
  no_slash (String c s) -> Ascii.eqb c "/" = false /\ no_slash s.
Proof.
  unfold no_slash. cbn [Py.has_char]. intros H.
  apply orb_false_iff in H as [H1 H2]. rewrite Ascii.eqb_sym in H1. split; assumption.
Qed.

Lemma split_no_slash s : no_slash s -> split_on "/" s = [s].
Proof.
  induction s as [| c s IH]; [reflexivity |]. intros H.
  apply no_slash_cons in H as [H1 H2]. cbn [split_on]. rewrite H1, (IH H2). reflexivity.
Qed.

Lemma split_app s rest :
  no_slash s -> split_on "/" (s ++ String "/" rest) = s :: split_on "/" rest.
Proof.
  induction s as [| c s IH]; [reflexivity |]. intros H.
  apply no_slash_cons in H as [H1 H2]. cbn [String.append split_on].
  rewrite H1, (IH H2). reflexivity.
Qed.

Lemma route_apps : route BASE_URL = Some Apps.
Proof. reflexivity. Qed.

Lemma route_apps_page : route (BASE_URL ++ "?per_page=100") = Some Apps.
Proof. reflexivity. Qed.

Lemma route_sub path : route (BASE_URL ++ "/" ++ path) = route_path path.
Proof. unfold route. rewrite JsonFacts.strip_app. reflexivity. Qed.

Lemma route_policies aid :
  no_slash aid -> route (BASE_URL ++ "/" ++ aid ++ "/policies") = Some (Policies aid).
Proof.
  intros H. rewrite route_sub. unfold route_path.
  change ("/policies") with (String "/" "policies").
  rewrite (split_app aid "policies" H). reflexivity.
Qed.

Lemma route_policy aid pid :
  no_slash aid -> no_slash pid ->
  route (BASE_URL ++ "/" ++ aid ++ "/policies/" ++ pid) = Some (Policy aid pid).
Proof.
  intros Ha Hp. rewrite route_sub. unfold route_path.
  change ("/policies/" ++ pid) with (String "/" ("policies" ++ String "/" pid)).
  rewrite (split_app aid _ Ha), (split_app "policies" pid eq_refl),
    (split_no_slash pid Hp).
  reflexivity.
Qed.

(** *** Listings as the scripts see them *)

Lemma next_in_apps domain (s : state) :
  next_in "domain" domain (map app_json s)
  = Ret (match find_domain domain s with
         | Some a => app_json a
         | None => PNone
         end).
Proof.
  induction s as [| a s IH]; [reflexivity |].
  cbn [map next_in find_domain find]. unfold find_domain in IH.
  change (Py.subscript (app_json a) "domain") with (Ret (PStr (app_domain a))).
  cbn [Py.eq_str]. destruct (String.eqb (app_domain a) domain); [reflexivity | exact IH].
Qed.

Lemma next_in_policies name (l : list policy) :
  next_in "name" name (map policy_json l)
  = Ret (match find_named name l with
         | Some p => policy_json p
         | None => PNone
         end).
Proof.
  induction l as [| p l IH]; [reflexivity |].
  cbn [map next_in find_named find]. unfold find_named in IH.
  change (Py.subscript (policy_json p) "name") with (Ret (PStr (pol_name p))).
  cbn [Py.eq_str]. destruct (String.eqb (pol_name p) name); [reflexivity | exact IH].
Qed.

Lemma any_in_policies name (l : list policy) :
  any_in "name" name (map policy_json l) = Ret (has_named name l).
Proof.
  induction l as [| p l IH]; [reflexivity |].
  cbn [map any_in has_named existsb]. unfold has_named in IH.
  change (Py.subscript (policy_json p) "name") with (Ret (PStr (pol_name p))).
  cbn [Py.eq_str]. destruct (String.eqb (pol_name p) name); [reflexivity | exact IH].
Qed.

Lemma collect_in_policies (l : list policy) :
  collect_in "name" (map policy_json l)
  = Ret (map (fun p => PStr (pol_name p)) l).
Proof.
  induction l as [| p l IH]; [reflexivity |].
  cbn [map collect_in].
  change (Py.subscript (policy_json p) "name") with (Ret (PStr (pol_name p))).
  rewrite IH. reflexivity.
Qed.

(** *** The endpoints *)

Section Endpoints.

Context {codec : Codec} {cred : Credentials}.

#[local] Existing Instance service.

Lemma answers_ok (req : Request) (s s' : state) (v : pyval) :
  step req unverified_context s = ok v s' -> answers s req (envelope v) s'.
Proof.
  intros H. exists (body_of (envelope v)), (json_dumps (envelope v)).
  split; [exact H |]. split; [unfold body_of; apply decode_encode | apply loads_dumps].
Qed.

Lemma payload_build m u d :
  Py.truthy d = true -> payload (build_request m u d) = Some d.
Proof.
  intros H. unfold payload, build_request. rewrite H. cbn [req_data].
  rewrite decode_encode. apply loads_dumps.
Qed.

Lemma answers_get_apps (s : state) :
  answers s (get_request BASE_URL) (envelope (PList (map app_json s))) s.
Proof.
  apply answers_ok. unfold step, get_request.
  rewrite req_url_build, req_method_build, route_apps. reflexivity.
Qed.

Lemma answers_get_apps_page (s : state) :
  answers s list_apps_request (envelope (PList (map app_json s))) s.
Proof.
  apply answers_ok. unfold step, list_apps_request.
  rewrite req_url_build, req_method_build, route_apps_page. reflexivity.
Qed.

Lemma answers_get_policies (s : state) (a : app) :
  find_app (app_id a) s = Some a -> no_slash (app_id a) ->
  answers s (get_request (BASE_URL ++ "/" ++ app_id a ++ "/policies"))
          (envelope (PList (map policy_json (app_policies a)))) s.
Proof.
  intros Hf Hs. apply answers_ok. unfold step, get_request.
  rewrite req_url_build, req_method_build, (route_policies _ Hs), Hf. reflexivity.
Qed.

Lemma answers_post_app (s : state) (doc : pyval) (a : app) :
  Py.truthy doc = true -> read_app (fresh_id s) doc = Some a ->
  answers s (build_request "POST" BASE_URL doc) (envelope (app_json a))
          (s ++ [a])%list.
Proof.
  intros Ht Hr. apply answers_ok. unfold step.
  rewrite req_url_build, req_method_build, route_apps, (payload_build _ _ _ Ht), Hr.
  reflexivity.
Qed.

Lemma answers_post_policy (s : state) (a : app) (doc : pyval) (p : policy) :
  find_app (app_id a) s = Some a -> no_slash (app_id a) ->
  Py.truthy doc = true -> read_policy (fresh_id s) doc = Some p ->
  answers s (build_request "POST" (BASE_URL ++ "/" ++ app_id a ++ "/policies") doc)
          (envelope (policy_json p))
          (update_app (app_id a) (with_policies (fun l => l ++ [p])%list) s).
Proof.
  intros Hf Hs Ht Hr. apply answers_ok. unfold step.
  rewrite req_url_build, req_method_build, (route_policies _ Hs), Hf,
    (payload_build _ _ _ Ht), Hr.
  reflexivity.
Qed.

Lemma answers_put_policy (s : state) (a : app) (q : policy) (pid : string)
    (doc : pyval) (p : policy) :
  find_app (app_id a) s = Some a -> no_slash (app_id a) -> no_slash pid ->
  find_policy pid (app_policies a) = Some q ->
  Py.truthy doc = true -> read_policy pid doc = Some p ->
  answers s
    (build_request "PUT" (BASE_URL ++ "/" ++ app_id a ++ "/policies/" ++ pid) doc)
    (envelope (policy_json p))
    (update_app (app_id a) (with_policies (replace_policy pid p)) s).
Proof.
  intros Hf Hs Hp Hq Ht Hr. apply answers_ok. unfold step.
  rewrite req_url_build, req_method_build, (route_policy _ _ Hs Hp), Hf, Hq,
    (payload_build _ _ _ Ht), Hr.
  reflexivity.
Qed.

Lemma answers_delete_policy (s : state) (a : app) (q : policy) (pid : string) :
  find_app (app_id a) s = Some a -> no_slash (app_id a) -> no_slash pid ->
  find_policy pid (app_policies a) = Some q ->
  answers s
    (build_request "DELETE" (BASE_URL ++ "/" ++ app_id a ++ "/policies/" ++ pid) PNone)
    (envelope (PDict [("id", PStr pid)]))
    (update_app (app_id a) (with_policies (remove_policy pid)) s).
Proof.
  intros Hf Hs Hp Hq. apply answers_ok. unfold step.
  rewrite req_url_build, req_method_build, (route_policy _ _ Hs Hp), Hf, Hq.
  reflexivity.
Qed.

End Endpoints.

(** *** Well-formed states *)

Lemma find_app_in (s : state) (a : app) :
  NoDup (map app_id s) -> In a s -> find_app (app_id a) s = Some a.
Proof.
  unfold find_app. induction s as [| b s IH]; intros Hn Hin; [contradiction |].
  cbn [map] in Hn. inversion Hn as [| x l Hb Hn']; subst. cbn [find].
  destruct Hin as [-> | Hin].
  - rewrite String.eqb_refl. reflexivity.
  - destruct (String.eqb (app_id b) (app_id a)) eqn:E.
    + apply String.eqb_eq in E. exfalso. apply Hb. rewrite E.
      apply in_map. exact Hin.
    + apply IH; assumption.
Qed.

Lemma find_policy_in (l : list policy) (p : policy) :
  NoDup (map pol_id l) -> In p l -> find_policy (pol_id p) l = Some p.
Proof.
  unfold find_policy. induction l as [| q l IH]; intros Hn Hin; [contradiction |].
  cbn [map] in Hn. inversion Hn as [| x l' Hq Hn']; subst. cbn [find].
  destruct Hin as [-> | Hin].
  - rewrite String.eqb_refl. reflexivity.
  - destruct (String.eqb (pol_id q) (pol_id p)) eqn:E.
    + apply String.eqb_eq in E. exfalso. apply Hq. rewrite E.
      apply in_map. exact Hin.
    + apply IH; assumption.
Qed.

Lemma wf_app_ok (s : state) (a : app) : wf s -> In a s -> app_ok a.
Proof.
  intros [_ H] Hin. rewrite Forall_forall in H. apply H. exact Hin.
Qed.

Lemma policy_no_slash (a : app) (p : policy) :
  app_ok a -> In p (app_policies a) -> no_slash (pol_id p).
Proof.
  intros (_ & _ & H) Hin. rewrite Forall_forall in H. apply H.
  apply in_map. exact Hin.
Qed.

Lemma find_domain_some domain (s : state) (a : app) :
  find_domain domain s = Some a -> In a s /\ app_domain a = domain.
Proof.
  intros H. apply find_some in H as [Hin E]. apply String.eqb_eq in E.
  split; assumption.
Qed.

Lemma find_named_some name (l : list policy) (p : policy) :
  find_named name l = Some p -> In p l /\ pol_name p = name.
Proof.
  intros H. apply find_some in H as [Hin E]. apply String.eqb_eq in E.
  split; assumption.
Qed.

(** *** Fresh identifiers *)

Lemma length_letters n : String.length (letters n) = n.
Proof. induction n as [| n IH]; simpl; [reflexivity | rewrite IH; reflexivity]. Qed.

Lemma letters_no_slash n : no_slash (letters n).
Proof. unfold no_slash. induction n as [| n IH]; [reflexivity | exact IH]. Qed.

Lemma longest_bound (l : list string) (x : string) :
  In x l -> String.length x <= longest l.
Proof.
  induction l as [| y l IH]; [contradiction |]. cbn [longest fold_right].
  fold (longest l). intros [-> | H]; [lia |]. specialize (IH H). lia.
Qed.

Lemma fresh_not_used (s : state) : ~ In (fresh_id s) (ids_of s).
Proof.
  intros H. apply longest_bound in H. unfold fresh_id in H.
  rewrite length_letters in H. lia.
Qed.

Lemma fresh_no_slash (s : state) : no_slash (fresh_id s).
Proof. apply letters_no_slash. Qed.

Lemma app_id_used (s : state) (a : app) : In a s -> In (app_id a) (ids_of s).
Proof.
  intros H. unfold ids_of. apply in_flat_map. exists a. split; [exact H | left; reflexivity].
Qed.

Lemma pol_id_used (s : state) (a : app) (x : string) :
  In a s -> In x (map pol_id (app_policies a)) -> In x (ids_of s).
Proof.
  intros H Hx. unfold ids_of. apply in_flat_map. exists a.
  split; [exact H | right; exact Hx].
Qed.

(** *** Updating one application *)

Lemma update_app_map aid f s : update_app aid f s = map (touch aid f) s.
Proof. reflexivity. Qed.

Lemma with_policies_id g a : app_id (with_policies g a) = app_id a.
Proof. reflexivity. Qed.

Lemma with_policies_domain g a : app_domain (with_policies g a) = app_domain a.
Proof. reflexivity. Qed.

Lemma touch_id aid g a : app_id (touch aid (with_policies g) a) = app_id a.
Proof. unfold touch. destruct (String.eqb (app_id a) aid); reflexivity. Qed.

Lemma touch_domain aid g a :
  app_domain (touch aid (with_policies g) a) = app_domain a.
Proof. unfold touch. destruct (String.eqb (app_id a) aid); reflexivity. Qed.

Lemma map_app_id_update aid g s :
  map app_id (update_app aid (with_policies g) s) = map app_id s.
Proof.
  rewrite update_app_map, map_map. apply map_ext. intros a. apply touch_id.
Qed.

Lemma find_app_update x aid g s :
  find_app x (update_app aid (with_policies g) s)
  = option_map (touch aid (with_policies g)) (find_app x s).
Proof.
  unfold find_app. rewrite update_app_map.
  induction s as [| a s IH]; [reflexivity |]. cbn [map find].
  rewrite touch_id. destruct (String.eqb (app_id a) x); [reflexivity | exact IH].
Qed.

Lemma find_domain_update d aid g s :
  find_domain d (update_app aid (with_policies g) s)
  = option_map (touch aid (with_policies g)) (find_domain d s).
Proof.
  unfold find_domain. rewrite update_app_map.
  induction s as [| a s IH]; [reflexivity |]. cbn [map find].
  rewrite touch_domain. destruct (String.eqb (app_domain a) d); [reflexivity | exact IH].
Qed.

Lemma update_app_same aid f s :
  (forall a, In a s -> app_id a = aid -> f a = a) -> update_app aid f s = s.
Proof.
  intros H. rewrite update_app_map. rewrite <- (map_id s) at 2.
  apply map_ext_in. intros a Hin. unfold touch.
  destruct (String.eqb (app_id a) aid) eqn:E; [| reflexivity].
  apply String.eqb_eq in E. apply H; assumption.
Qed.

Lemma update_app_twice aid f g s :
  update_app aid (with_policies f) (update_app aid (with_policies g) s)
  = update_app aid (with_policies (fun l => f (g l))) s.
Proof.
  rewrite !update_app_map, map_map. apply map_ext. intros a. unfold touch.
  destruct (String.eqb (app_id a) aid) eqn:E.
  - rewrite with_policies_id, E. reflexivity.
  - rewrite E. reflexivity.
Qed.

Lemma update_app_ext aid f g s :
  (forall a, In a s -> app_id a = aid -> f a = g a) ->
  update_app aid f s = update_app aid g s.
Proof.
  intros H. rewrite !update_app_map. apply map_ext_in. intros a Hin. unfold touch.
  destruct (String.eqb (app_id a) aid) eqn:E; [| reflexivity].
  apply String.eqb_eq in E. apply H; assumption.
Qed.

Lemma wf_update aid g s :
  wf s ->
  (forall a, In a s -> app_id a = aid -> app_ok (with_policies g a)) ->
  wf (update_app aid (with_policies g) s).
Proof.
  intros [Hn He] H. split.
  - rewrite map_app_id_update. exact Hn.
  - rewrite update_app_map. apply Forall_map. rewrite Forall_forall in He |- *.
    intros a Hin. unfold touch. destruct (String.eqb (app_id a) aid) eqn:E.
    + apply String.eqb_eq in E. apply H; assumption.
    + apply He. exact Hin.
Qed.

(** *** Lists of policies *)

Lemma replace_policy_ids pid p l :
  pol_id p = pid -> map pol_id (replace_policy pid p l) = map pol_id l.
Proof.
  intros Hp. unfold replace_policy. rewrite map_map. apply map_ext_in. intros q _.
  destruct (String.eqb (pol_id q) pid) eqn:E; [| reflexivity].
  apply String.eqb_eq in E. congruence.
Qed.

Lemma replace_policy_twice pid p l :
  pol_id p = pid ->
  replace_policy pid p (replace_policy pid p l) = replace_policy pid p l.
Proof.
  intros Hp. unfold replace_policy. rewrite map_map. apply map_ext. intros q.
  destruct (String.eqb (pol_id q) pid) eqn:E.
  - rewrite Hp, String.eqb_refl. reflexivity.
  - rewrite E. reflexivity.
Qed.

Lemma replace_policy_absent pid p l :
  ~ In pid (map pol_id l) -> replace_policy pid p l = l.
Proof.
  intros H. unfold replace_policy. rewrite <- (map_id l) at 2.
  apply map_ext_in. intros q Hq.
  destruct (String.eqb (pol_id q) pid) eqn:E; [| reflexivity].
  apply String.eqb_eq in E. exfalso. apply H. rewrite <- E. apply in_map. exact Hq.
Qed.

Lemma find_named_replace name l q p :
  NoDup (map pol_id l) -> find_named name l = Some q ->
  pol_name p = name -> pol_id p = pol_id q ->
  find_named name (replace_policy (pol_id q) p l) = Some p.
Proof.
  unfold find_named, replace_policy. intros Hn Hq Hname Hid.
  induction l as [| h l IH]; [discriminate |].
  cbn [map] in Hn. inversion Hn as [| x l' Hh Hn']; subst x l'.
  cbn [find map] in Hq |- *. destruct (String.eqb (pol_name h) name) eqn:E.
  - injection Hq as ->. rewrite String.eqb_refl. cbn [find].
    rewrite Hname, String.eqb_refl. reflexivity.
  - destruct (String.eqb (pol_id h) (pol_id q)) eqn:Eid.
    + apply String.eqb_eq in Eid. exfalso. apply Hh. rewrite Eid.
      apply in_map. apply find_some in Hq. apply Hq.
    + cbn [find]. rewrite E. apply IH; assumption.
Qed.

Lemma find_named_last name l p :
  find_named name l = None -> pol_name p = name ->
  find_named name (l ++ [p])%list = Some p.
Proof.
  unfold find_named. intros Hnone Hp. induction l as [| h l IH]; cbn [List.app find].
  - rewrite Hp, String.eqb_refl. reflexivity.
  - cbn [find] in Hnone. destruct (String.eqb (pol_name h) name); [discriminate |].
    apply IH. exact Hnone.
Qed.

Lemma replace_policy_last pid p l :
  pol_id p = pid -> ~ In pid (map pol_id l) ->
  replace_policy pid p (l ++ [p])%list = (l ++ [p])%list.
Proof.
  intros Hp Hl. unfold replace_policy. rewrite map_app. cbn [map].
  rewrite Hp, String.eqb_refl. f_equal. apply replace_policy_absent. exact Hl.
Qed.

(** *** [enable_public_api.py] *)

Section Scripts.

Context {codec : Codec} {cred : Credentials}.

#[local] Existing Instance service.

Import EnablePublicApi.

Lemma run_enable (s : state) :
  wf s -> ends_in (main (start s)) (enable_effect s).
Proof.
  intros Hwf. unfold main, start, enable_effect. run.
  run_request (answers_get_apps_page s). cbn [Py.subscript envelope Py.assoc].
  rewrite String.eqb_refl. run.
  unfold next_match at 1. cbn [Py.iter]. rewrite next_in_apps.
  destruct (find_domain "api.raydoug.com" s) as [a |] eqn:Ea;
    [| run; split; reflexivity].
  run. change (Py.truthy (app_json a)) with true. cbn [negb].
  change (Py.subscript (app_json a) "name") with (Ret (PStr (app_name a))).
  change (Py.subscript (app_json a) "id") with (Ret (PStr (app_id a))).
  run.
  destruct (find_domain_some _ _ _ Ea) as [Hin _].
  pose proof (wf_app_ok _ _ Hwf Hin) as Hok.
  pose proof (find_app_in _ _ (wf_apps _ Hwf) Hin) as Hfa.
  assert (Hsl : no_slash (app_id a)) by apply Hok.
  run_request (answers_get_policies s a Hfa Hsl).
  cbn [Py.subscript envelope Py.assoc]. rewrite String.eqb_refl. run.
  unfold collect. cbn [Py.iter]. rewrite collect_in_policies. run.
  unfold upsert, next_match. cbn [Py.iter]. rewrite next_in_policies. run.
  unfold policy_name.
  destruct (find_named "Public Access" (app_policies a)) as [p |] eqn:Ep.
  - run. change (Py.truthy (policy_json p)) with true. cbv iota. run.
    change (Py.subscript (app_json a) "id") with (Ret (PStr (app_id a))).
    change (Py.subscript (policy_json p) "id") with (Ret (PStr (pol_id p))).
    run.
    destruct (find_named_some _ _ _ Ep) as [Hp _].
    assert (Hps : no_slash (pol_id p)) by (eapply policy_no_slash; eassumption).
    assert (Hfp : find_policy (pol_id p) (app_policies a) = Some p)
      by (apply find_policy_in; [apply Hok | exact Hp]).
    run_request (answers_put_policy s a p (pol_id p) bypass_everyone
                   (public (pol_id p)) Hfa Hsl Hps Hfp eq_refl eq_refl).
    run. split; reflexivity.
  - run. cbn [Py.truthy]. run.
    change (Py.subscript (app_json a) "id") with (Ret (PStr (app_id a))). run.
    run_request (answers_post_policy s a bypass_everyone (public (fresh_id s))
                   Hfa Hsl eq_refl eq_refl).
    run. split; reflexivity.
Qed.

Lemma touch_self aid f a : app_id a = aid -> touch aid f a = f a.
Proof. intros <-. unfold touch. rewrite String.eqb_refl. reflexivity. Qed.

Lemma app_ok_replace b pid p :
  app_ok b -> pol_id p = pid -> no_slash pid ->
  app_ok (with_policies (replace_policy pid p) b).
Proof.
  intros (H1 & H2 & H3) Hp Hs. unfold app_ok. cbn [with_policies app_id app_policies].
  rewrite (replace_policy_ids _ _ _ Hp). repeat split; assumption.
Qed.

Lemma app_ok_append s b p :
  In b s -> app_ok b -> pol_id p = fresh_id s ->
  app_ok (with_policies (fun l => l ++ [p])%list b).
Proof.
  intros Hin (H1 & H2 & H3) Hp. unfold app_ok. cbn [with_policies app_id app_policies].
  rewrite map_app. cbn [map]. rewrite Hp. repeat split.
  - exact H1.
  - apply NoDup_app; [exact H2 | repeat constructor; intros [] |].
    intros x Hx [<- | []]. apply (fresh_not_used s).
    eapply pol_id_used; eassumption.
  - apply Forall_app. split; [exact H3 |]. repeat constructor. apply fresh_no_slash.
Qed.

(** After a run, the first application with the domain carries a
    bypass-everyone policy of the name, first among those of the
    name; the state is well formed and a further run leaves it as it
    is. *)
Lemma enable_effect_spec (s : state) (a : app) :
  wf s -> find_domain "api.raydoug.com" s = Some a ->
  exists a1 pid,
    find_domain "api.raydoug.com" (enable_effect s) = Some a1
    /\ app_id a1 = app_id a
    /\ find_named "Public Access" (app_policies a1) = Some (public pid)
    /\ wf (enable_effect s)
    /\ enable_effect (enable_effect s) = enable_effect s.
Proof.
  intros Hwf Ea. destruct (find_domain_some _ _ _ Ea) as [Hin _].
  pose proof (wf_app_ok _ _ Hwf Hin) as Hok.
  destruct (find_named "Public Access" (app_policies a)) as [p |] eqn:Ep.
  - set (g := replace_policy (pol_id p) (public (pol_id p))).
    assert (E : enable_effect s = update_app (app_id a) (with_policies g) s)
      by (unfold enable_effect; rewrite Ea, Ep; reflexivity).
    rewrite E.
    destruct (find_named_some _ _ _ Ep) as [Hp _].
    assert (Hps : no_slash (pol_id p)) by (eapply policy_no_slash; eassumption).
    assert (Ea1 : find_domain "api.raydoug.com"
                    (update_app (app_id a) (with_policies g) s)
                  = Some (with_policies g a)).
    { rewrite find_domain_update, Ea. cbn [option_map].
      rewrite touch_self by reflexivity. reflexivity. }
    assert (Ep1 : find_named "Public Access" (app_policies (with_policies g a))
                  = Some (public (pol_id p))).
    { cbn [with_policies app_policies]. apply find_named_replace;
        [apply Hok | exact Ep | reflexivity | reflexivity]. }
    exists (with_policies g a), (pol_id p).
    split; [exact Ea1 |]. split; [reflexivity |]. split; [exact Ep1 |]. split.
    + apply wf_update; [exact Hwf |]. intros b Hb _.
      apply app_ok_replace; [eapply wf_app_ok; eassumption | reflexivity | exact Hps].
    + unfold enable_effect. rewrite Ea1, Ep1. cbn [with_policies app_id public pol_id].
      rewrite update_app_twice. apply update_app_ext. intros b _ _.
      unfold with_policies. f_equal. apply replace_policy_twice. reflexivity.
  - set (pf := public (fresh_id s)). set (g := fun l => (l ++ [pf])%list).
    assert (E : enable_effect s = update_app (app_id a) (with_policies g) s)
      by (unfold enable_effect; rewrite Ea, Ep; reflexivity).
    rewrite E.
    assert (Ea1 : find_domain "api.raydoug.com"
                    (update_app (app_id a) (with_policies g) s)
                  = Some (with_policies g a)).
    { rewrite find_domain_update, Ea. cbn [option_map].
      rewrite touch_self by reflexivity. reflexivity. }
    assert (Ep1 : find_named "Public Access" (app_policies (with_policies g a))
                  = Some pf).
    { cbn [with_policies app_policies]. apply find_named_last; [exact Ep | reflexivity]. }
    exists (with_policies g a), (fresh_id s).
    split; [exact Ea1 |]. split; [reflexivity |]. split; [exact Ep1 |]. split.
    + apply wf_update; [exact Hwf |]. intros b Hb _.
      eapply app_ok_append; [exact Hb | eapply wf_app_ok; eassumption | reflexivity].
    + unfold enable_effect. rewrite Ea1, Ep1. cbn [with_policies app_id pf public pol_id].
      rewrite update_app_twice. apply update_app_ext. intros b Hb _.
      unfold with_policies. f_equal. apply replace_policy_last; [reflexivity |].
      intros Hx. apply (fresh_not_used s). eapply pol_id_used; eassumption.
Qed.

(** C2. Against the reference model of the API: from every well-formed
    state in which an application with the domain exists, a run of the
    enabler returns and leaves, on the first application with the
    domain, a policy named [Public Access] with decision [bypass] and
    inclusion [everyone]; a second run returns too and leaves the
    service exactly as the first run left it. *)
Theorem enabler_is_idempotent (s : state) (a : app) :
  wf s ->
  find_domain "api.raydoug.com" s = Some a ->
  let r1 := main (start s) in
  let s1 := remote (snd r1) in
  let r2 := main (start s1) in
  fst r1 = Ret tt
  /\ (exists a1 p,
        find_domain "api.raydoug.com" s1 = Some a1
        /\ app_id a1 = app_id a
        /\ In p (app_policies a1)
        /\ pol_name p = "Public Access"
        /\ pol_decision p = "bypass"
        /\ pol_include p = PList [PDict [("everyone", PDict [])]])
  /\ fst r2 = Ret tt
  /\ remote (snd r2) = s1.
Proof.
  intros Hwf Ea r1 s1 r2. subst r1 s1 r2.
  destruct (run_enable s Hwf) as [R1 S1]. rewrite S1.
  destruct (enable_effect_spec s a Hwf Ea) as (a1 & pid & Ea1 & Hid & Ep1 & Hwf1 & Hidem).
  destruct (run_enable (enable_effect s) Hwf1) as [R2 S2].
  split; [exact R1 |]. split.
  - exists a1, (public pid). split; [exact Ea1 |]. split; [exact Hid |].
    split; [apply (find_named_some _ _ _ Ep1) |]. repeat split.
  - split; [exact R2 |]. rewrite S2. exact Hidem.
Qed.

(** *** [fix_zero_trust.py]: the cleanup phase *)

Lemma NoDup_map_filter {A B} (f : A -> B) (g : A -> bool) (l : list A) :
  NoDup (map f l) -> NoDup (map f (filter g l)).
Proof.
  induction l as [| x l IH]; cbn [map filter]; intros H; [constructor |].
  inversion H as [| y l' Hx Hl]; subst. destruct (g x); [| apply IH; exact Hl].
  cbn [map]. constructor; [| apply IH; exact Hl].
  intros Hin. apply Hx. apply in_map_iff in Hin as (z & Ez & Hz).
  apply filter_In in Hz as [Hz _]. rewrite <- Ez. apply in_map. exact Hz.
Qed.

Lemma in_map_filter {A B} (f : A -> B) (g : A -> bool) (l : list A) (y : B) :
  In y (map f (filter g l)) -> In y (map f l).
Proof.
  intros H. apply in_map_iff in H as (z & Ez & Hz).
  apply filter_In in Hz as [Hz _]. rewrite <- Ez. apply in_map. exact Hz.
Qed.

Lemma app_ok_clean (a : app) : app_ok a -> app_ok (clean a).
Proof.
  intros (H1 & H2 & H3). unfold app_ok, clean. cbn [with_policies app_id app_policies].
  repeat split; [exact H1 | apply NoDup_map_filter; exact H2 |].
  rewrite Forall_forall in H3 |- *. intros x Hx. apply H3.
  eapply in_map_filter. exact Hx.
Qed.

Lemma wf_clean_prefix (done todo : list app) :
  wf (done ++ todo)%list -> wf (map clean done ++ todo)%list.
Proof.
  intros [Hn He]. split.
  - rewrite map_app, map_map in *. exact Hn.
  - apply Forall_app in He as [Hd Ht]. apply Forall_app. split; [| exact Ht].
    apply Forall_map. eapply Forall_impl; [| exact Hd]. intros a. apply app_ok_clean.
Qed.

Lemma in_keep_prefix done rest x :
  In x (map pol_id (keep done ++ rest)%list) -> In x (map pol_id (done ++ rest)%list).
Proof.
  rewrite !map_app. intros H. apply in_app_or in H as [H | H]; apply in_or_app.
  - left. eapply in_map_filter. exact H.
  - right. exact H.
Qed.

Lemma NoDup_keep_prefix done rest :
  NoDup (map pol_id (done ++ rest)%list) ->
  NoDup (map pol_id (keep done ++ rest)%list).
Proof.
  induction done as [| x done IH]; [auto |]. cbn [List.app map]. intros H.
  inversion H as [| y l Hx Hl]; subst. unfold keep. cbn [filter]. fold (keep done).
  destruct (negb (is_stale x)); [| apply IH; exact Hl].
  cbn [List.app map]. constructor; [| apply IH; exact Hl].
  intros Hin. apply Hx. apply in_keep_prefix. exact Hin.
Qed.

Lemma remove_policy_absent pid l :
  ~ In pid (map pol_id l) -> remove_policy pid l = l.
Proof.
  intros H. unfold remove_policy. apply forallb_filter_id. apply forallb_forall.
  intros q Hq. destruct (String.eqb (pol_id q) pid) eqn:E; [| reflexivity].
  apply String.eqb_eq in E. exfalso. apply H. rewrite <- E. apply in_map. exact Hq.
Qed.

Lemma remove_policy_here done p todo :
  NoDup (map pol_id (done ++ p :: todo)%list) ->
  remove_policy (pol_id p) (keep done ++ p :: todo)%list = (keep done ++ todo)%list.
Proof.
  intros Hn. rewrite map_app in Hn. cbn [map] in Hn.
  pose proof (NoDup_remove_2 _ _ _ Hn) as Hnot.
  unfold remove_policy. rewrite filter_app. cbn [filter].
  rewrite String.eqb_refl. cbn [negb]. f_equal.
  - apply remove_policy_absent. intros Hin. apply Hnot. apply in_or_app. left.
    eapply in_map_filter. exact Hin.
  - apply remove_policy_absent. intros Hin. apply Hnot. apply in_or_app. right.
    exact Hin.
Qed.

Lemma keep_snoc done p :
  keep (done ++ [p])%list
  = if is_stale p then keep done else (keep done ++ [p])%list.
Proof.
  unfold keep. rewrite filter_app. cbn [filter].
  destruct (is_stale p); cbn [negb]; [apply app_nil_r | reflexivity].
Qed.

Lemma update_app_at (pre post : list app) (a : app) (f : app -> app) :
  NoDup (map app_id (pre ++ a :: post)%list) ->
  update_app (app_id a) f (pre ++ a :: post)%list = (pre ++ f a :: post)%list.
Proof.
  intros Hn. rewrite map_app in Hn. cbn [map] in Hn.
  pose proof (NoDup_remove_2 _ _ _ Hn) as Hnot.
  rewrite update_app_map, map_app. cbn [map]. rewrite touch_self by reflexivity.
  assert (Hid : forall l, ~ In (app_id a) (map app_id l) -> map (touch (app_id a) f) l = l).
  { intros l Hl. rewrite <- (map_id l) at 2. apply map_ext_in. intros b Hb.
    unfold touch. destruct (String.eqb (app_id b) (app_id a)) eqn:E; [| reflexivity].
    apply String.eqb_eq in E. exfalso. apply Hl. rewrite <- E. apply in_map. exact Hb. }
  rewrite !Hid; [reflexivity | |]; intros Hin; apply Hnot; apply in_or_app; auto.
Qed.

Lemma no_request_for_other (a : app) (p : policy) w :
  is_stale p = false ->
  FixZeroTrust.cleanup_policy (app_json a) (policy_json p) w = (Ret tt, w).
Proof.
  intros Hp. unfold FixZeroTrust.cleanup_policy, FixZeroTrust.looks_like_ip_bypass.
  change (Py.subscript (policy_json p) "name") with (Ret (PStr (pol_name p))).
  run. cbn [Py.eq_str]. unfold is_stale in Hp. rewrite Hp. run. cbn [Py.lower]. run.
  destruct (Py.contains "bypass" (Py.lower_string (pol_name p))).
  - run. cbn [Py.lower]. run.
    destruct (Py.contains "ip" (Py.lower_string (pol_name p))); reflexivity.
  - reflexivity.
Qed.

(** The inner loop over the policies listed for [a]: [done] have been
    visited, [todo] are still to come. *)
Lemma run_cleanup_policies (s : state) (a : app) :
  wf s -> In a s ->
  forall todo done cur out log,
    app_policies a = (done ++ todo)%list ->
    cur = update_app (app_id a) (with_policies (fun _ => keep done ++ todo)%list) s ->
    completes
      (for_each (map policy_json todo) (FixZeroTrust.cleanup_policy (app_json a))
         (mkWorld cur out log))
      (update_app (app_id a) (with_policies (fun _ => keep (done ++ todo))) s)
      (log ++ map (delete_of a) (filter is_stale todo))%list.
Proof.
  intros Hwf Hin. pose proof (wf_app_ok _ _ Hwf Hin) as (Hsl & Hnd & Hps).
  induction todo as [| p todo IH]; intros done cur out log Hl Hcur.
  - cbn [map for_each filter]. subst cur. rewrite !app_nil_r.
    repeat split.
  - cbn [map for_each]. destruct (is_stale p) eqn:Ep.
    + unfold FixZeroTrust.cleanup_policy at 1.
      change (Py.subscript (policy_json p) "name") with (Ret (PStr (pol_name p))).
      run. cbn [Py.eq_str]. unfold is_stale in Ep. rewrite Ep. fold (is_stale p) in Ep.
      run.
      change (Py.subscript (app_json a) "id") with (Ret (PStr (app_id a))).
      change (Py.subscript (policy_json p) "id") with (Ret (PStr (pol_id p))).
      run.
      assert (Hfa : find_app (app_id a) cur
                    = Some (with_policies (fun _ => keep done ++ p :: todo)%list a)).
      { subst cur. rewrite find_app_update, (find_app_in _ _ (wf_apps _ Hwf) Hin).
        cbn [option_map]. rewrite touch_self by reflexivity. reflexivity. }
      assert (Hnd' : NoDup (map pol_id (done ++ p :: todo)%list))
        by (rewrite <- Hl; exact Hnd).
      assert (Hfp : find_policy (pol_id p) (keep done ++ p :: todo)%list = Some p).
      { apply find_policy_in.
        - apply NoDup_keep_prefix. exact Hnd'.
        - apply in_or_app. right. left. reflexivity. }
      assert (Hpsl : no_slash (pol_id p)).
      { rewrite Forall_forall in Hps. apply Hps. rewrite Hl, map_app.
        apply in_or_app. right. left. reflexivity. }
      run_request (answers_delete_policy cur
                     (with_policies (fun _ => keep done ++ p :: todo)%list a)
                     p (pol_id p) Hfa Hsl Hpsl Hfp).
      run. cbn [filter]. rewrite Ep. cbn [map].
      replace (log ++ delete_of a p :: map (delete_of a) (filter is_stale todo))%list
        with ((log ++ [delete_of a p]) ++ map (delete_of a) (filter is_stale todo))%list
        by (rewrite <- app_assoc; reflexivity).
      replace (done ++ p :: todo)%list with ((done ++ [p]) ++ todo)%list
        by (rewrite <- app_assoc; reflexivity).
      apply IH.
      * rewrite Hl, <- app_assoc. reflexivity.
      * subst cur. cbn [with_policies app_id]. rewrite update_app_twice.
        apply update_app_ext. intros b _ _. unfold with_policies. f_equal.
        rewrite keep_snoc, Ep. apply remove_policy_here. exact Hnd'.
    + rewrite (bind_ret_eq _ _ _ _ _ (no_request_for_other a p _ Ep)).
      cbn [filter]. rewrite Ep.
      replace (done ++ p :: todo)%list with ((done ++ [p]) ++ todo)%list
        by (rewrite <- app_assoc; reflexivity).
      apply IH.
      * rewrite Hl, <- app_assoc. reflexivity.
      * subst cur. rewrite keep_snoc, Ep, <- app_assoc. reflexivity.
Qed.

Lemma completes_eq r s c :
  completes r s c -> r = (Ret tt, mkWorld s (stdout (snd r)) c).
Proof.
  destruct r as [res [cur out log]]. unfold completes. cbn.
  intros (-> & -> & ->). reflexivity.
Qed.

Lemma with_policies_same (a : app) : with_policies (fun _ => app_policies a) a = a.
Proof. destruct a; reflexivity. Qed.

(** The outer loop over the listed applications: [done] have been
    visited, [todo] are still to come. *)
Lemma run_cleanup_apps :
  forall todo done out log,
    wf (done ++ todo)%list ->
    completes
      (for_each (map app_json todo) FixZeroTrust.cleanup_app
         (mkWorld (map clean done ++ todo)%list out log))
      (map clean (done ++ todo))
      (log ++ flat_map visit todo)%list.
Proof.
  induction todo as [| a todo IH]; intros done out log Hwf.
  - cbn [map for_each flat_map]. rewrite !app_nil_r. repeat split.
  - pose proof (wf_clean_prefix _ _ Hwf) as Hst.
    set (st := (map clean done ++ a :: todo)%list) in *.
    assert (Hin : In a st) by (apply in_or_app; right; left; reflexivity).
    pose proof (wf_app_ok _ _ Hst Hin) as Hok.
    assert (Hsl : no_slash (app_id a)) by apply Hok.
    pose proof (find_app_in _ _ (wf_apps _ Hst) Hin) as Hfa.
    cbn [map for_each]. unfold FixZeroTrust.cleanup_app at 1.
    change (Py.subscript (app_json a) "name") with (Ret (PStr (app_name a))).
    change (Py.subscript (app_json a) "domain") with (Ret (PStr (app_domain a))).
    change (Py.subscript (app_json a) "id") with (Ret (PStr (app_id a))).
    run. run_request (answers_get_policies st a Hfa Hsl).
    cbn [Py.subscript envelope Py.assoc]. rewrite String.eqb_refl. run.
    cbn [Py.iter]. run.
    match goal with
    | |- completes (bind (for_each _ _) _ (mkWorld _ ?o ?l)) _ _ =>
        assert (R := run_cleanup_policies st a Hst Hin (app_policies a) [] st o l
                       eq_refl)
    end.
    assert (Hcur : st = update_app (app_id a)
                          (with_policies (fun _ => keep [] ++ app_policies a)%list) st).
    { unfold st. cbn [keep filter List.app].
      rewrite (update_app_at _ _ _ _ (wf_apps _ Hst)), with_policies_same.
      reflexivity. }
    specialize (R Hcur). apply completes_eq in R.
    rewrite (bind_ret_eq _ _ _ _ _ R). clear R Hcur.
    match goal with
    | |- context [stdout ?w] => generalize (stdout w); intros out'
    end.
    cbn [List.app].
    unfold st. rewrite (update_app_at _ _ _ _ (wf_apps _ Hst)).
    change (with_policies (fun _ => keep (app_policies a)) a) with (clean a).
    replace (map clean done ++ clean a :: todo)%list
      with (map clean (done ++ [a]) ++ todo)%list
      by (rewrite map_app, <- app_assoc; reflexivity).
    replace (done ++ a :: todo)%list with ((done ++ [a]) ++ todo)%list in *
      by (rewrite <- app_assoc; reflexivity).
    specialize (IH (done ++ [a])%list out'
                  ((log ++ [get_request (FixZeroTrust.policies_url (PStr (app_id a)))])
                   ++ map (delete_of a) (filter is_stale (app_policies a)))%list Hwf).
    cbn [flat_map]. unfold visit at 1, policies_of.
    replace (log ++ (get_request (FixZeroTrust.policies_url (PStr (app_id a)))
                     :: map (delete_of a) (filter is_stale (app_policies a)))
                 ++ flat_map visit todo)%list
      with (((log ++ [get_request (FixZeroTrust.policies_url (PStr (app_id a)))])
             ++ map (delete_of a) (filter is_stale (app_policies a)))
            ++ flat_map visit todo)%list
      by (rewrite <- !app_assoc; reflexivity).
    exact IH.
Qed.

Lemma cleanup_calls_visit s : cleanup_calls s = list_apps_request :: flat_map visit s.
Proof. reflexivity. Qed.

(** The cleanup phase from any world whose service is well formed. *)
Lemma run_cleanup (w : world) :
  wf (remote w) ->
  completes (FixZeroTrust.cleanup w) (cleanup_effect (remote w))
            (calls w ++ cleanup_calls (remote w))%list.
Proof.
  intros Hwf. unfold FixZeroTrust.cleanup. run.
  run_request (answers_get_apps_page (remote w)).
  cbn [Py.subscript envelope Py.assoc]. rewrite String.eqb_refl. run.
  cbn [Py.iter]. run.
  rewrite cleanup_calls_visit.
  replace (calls w ++ list_apps_request :: flat_map visit (remote w))%list
    with ((calls w ++ [list_apps_request]) ++ flat_map visit (remote w))%list
    by (rewrite <- app_assoc; reflexivity).
  apply (run_cleanup_apps (remote w) []). exact Hwf.
Qed.

(** *** [fix_zero_trust.py]: the first phase *)

Lemma run_ensure_policy (s : state) (a0 a : app) (name : string) (doc : pyval)
    (mk : string -> policy) out log :
  find_app (app_id a0) s = Some a -> app_id a = app_id a0 ->
  no_slash (app_id a0) ->
  Py.truthy doc = true ->
  read_policy (fresh_id s) doc = Some (mk (fresh_id s)) ->
  FixZeroTrust.ensure_policy (app_json a0)
    (PList (map policy_json (app_policies a0))) name doc (mkWorld s out log)
  = (Ret tt,
     mkWorld (add_missing a0 name mk s) (out ++ missing_line a0 name)%list
             (log ++ missing_call a0 name doc)%list).
Proof.
  intros Hfa Hid Hsl Ht Hr.
  unfold FixZeroTrust.ensure_policy, any_match, add_missing, missing_call, missing_line.
  cbn [Py.iter]. rewrite any_in_policies. run.
  destruct (has_named name (app_policies a0)).
  - cbn [negb]. rewrite !app_nil_r. reflexivity.
  - cbn [negb]. run.
    change (Py.subscript (app_json a0) "id") with (Ret (PStr (app_id a0))). run.
    rewrite <- Hid in Hfa, Hsl.
    pose proof (answers_post_policy s a doc (mk (fresh_id s)) Hfa Hsl Ht Hr) as H.
    rewrite Hid in H. run_request H. run. reflexivity.
Qed.

Lemma find_last {A} (f : A -> bool) (l : list A) (x : A) :
  find f l = None -> f x = true -> find f (l ++ [x])%list = Some x.
Proof.
  intros Hl Hx. induction l as [| y l IH]; cbn [List.app find].
  - rewrite Hx. reflexivity.
  - cbn [find] in Hl. destruct (f y); [discriminate | apply IH; exact Hl].
Qed.

Lemma wf_new_app (s : state) : wf s -> wf (s ++ [studio (fresh_id s)])%list.
Proof.
  intros [Hn He]. split.
  - rewrite map_app. cbn [map studio app_id].
    apply NoDup_app; [exact Hn | repeat constructor; intros [] |].
    intros x Hx [<- | []]. apply (fresh_not_used s).
    apply in_map_iff in Hx as (b & <- & Hb). apply app_id_used. exact Hb.
  - apply Forall_app. split; [exact He |]. repeat constructor.
    apply fresh_no_slash.
Qed.

Lemma located_spec (s : state) :
  wf s ->
  wf (fst (located s)) /\ In (snd (located s)) (fst (located s))
  /\ find_domain "studio.raydoug.com" (fst (located s)) = Some (snd (located s)).
Proof.
  intros Hwf. unfold located.
  destruct (find_domain "studio.raydoug.com" s) as [a |] eqn:E; cbn [fst snd].
  - split; [exact Hwf |]. split; [apply (find_domain_some _ _ _ E) | exact E].
  - split; [apply wf_new_app; exact Hwf |].
    split; [apply in_or_app; right; left; reflexivity |].
    apply find_last; [exact E | reflexivity].
Qed.

Lemma find_app_add_missing (s : state) (a : app) name mk :
  find_app (app_id a) s = Some a ->
  exists a2, find_app (app_id a) (add_missing a name mk s) = Some a2
             /\ app_id a2 = app_id a.
Proof.
  intros H. unfold add_missing. destruct (has_named name (app_policies a)).
  - exists a. split; [exact H | reflexivity].
  - rewrite find_app_update, H. cbn [option_map]. eexists.
    split; [reflexivity | apply touch_id].
Qed.

(** The first phase from any world whose service is well formed. *)
Lemma run_phase1 (w : world) :
  wf (remote w) ->
  completes (FixZeroTrust.phase1 w) (phase1_effect (remote w))
            (calls w ++ phase1_calls (remote w))%list.
Proof.
  intros Hwf. destruct (located_spec _ Hwf) as (Hwf1 & Hin & _).
  unfold FixZeroTrust.phase1, FixZeroTrust.ensure_app, phase1_effect, phase1_calls.
  run. run_request (answers_get_apps (remote w)).
  cbn [Py.subscript envelope Py.assoc]. rewrite String.eqb_refl. run.
  unfold next_match. cbn [Py.iter]. rewrite next_in_apps. run.
  unfold located in *.
  destruct (find_domain "studio.raydoug.com" (remote w)) as [a |] eqn:E;
    cbn [fst snd] in Hwf1, Hin.
  - change (Py.truthy (app_json a)) with true. cbn [negb].
    change (Py.subscript (app_json a) "id") with (Ret (PStr (app_id a))). run.
    pose proof (wf_app_ok _ _ Hwf1 Hin) as Hok.
    assert (Hsl : no_slash (app_id a)) by apply Hok.
    pose proof (find_app_in _ _ (wf_apps _ Hwf1) Hin) as Hfa.
    unfold FixZeroTrust.ensure_policies. run.
    change (Py.subscript (app_json a) "id") with (Ret (PStr (app_id a))). run.
    run_request (answers_get_policies (remote w) a Hfa Hsl).
    cbn [Py.subscript envelope Py.assoc]. rewrite String.eqb_refl. run.
    erewrite bind_ret_eq
      by (apply (run_ensure_policy _ a a _ _ admins);
          [exact Hfa | reflexivity | exact Hsl | reflexivity | reflexivity]).
    destruct (find_app_add_missing _ a "Allow Admins" admins Hfa) as (a2 & Hfa2 & Hid2).
    erewrite (run_ensure_policy _ a a2 _ _ machine);
      [| exact Hfa2 | exact Hid2 | exact Hsl | reflexivity | reflexivity].
    unfold completes. cbn [fst snd remote calls].
    repeat split. rewrite <- !app_assoc. reflexivity.
  - cbn [Py.truthy negb]. run.
    run_request (answers_post_app (remote w) FixZeroTrust.studio_spec
                   (studio (fresh_id (remote w))) eq_refl eq_refl).
    cbn [Py.subscript envelope Py.assoc]. rewrite String.eqb_refl. run.
    set (a := studio (fresh_id (remote w))) in *.
    change (Py.subscript (app_json a) "id") with (Ret (PStr (app_id a))). run.
    pose proof (wf_app_ok _ _ Hwf1 Hin) as Hok.
    assert (Hsl : no_slash (app_id a)) by apply Hok.
    pose proof (find_app_in _ _ (wf_apps _ Hwf1) Hin) as Hfa.
    unfold FixZeroTrust.ensure_policies. run.
    change (Py.subscript (app_json a) "id") with (Ret (PStr (app_id a))). run.
    run_request (answers_get_policies _ a Hfa Hsl).
    cbn [Py.subscript envelope Py.assoc]. rewrite String.eqb_refl. run.
    erewrite bind_ret_eq
      by (apply (run_ensure_policy _ a a _ _ admins);
          [exact Hfa | reflexivity | exact Hsl | reflexivity | reflexivity]).
    destruct (find_app_add_missing _ a "Allow Admins" admins Hfa) as (a2 & Hfa2 & Hid2).
    erewrite (run_ensure_policy _ a a2 _ _ machine);
      [| exact Hfa2 | exact Hid2 | exact Hsl | reflexivity | reflexivity].
    unfold completes. cbn [fst snd remote calls].
    repeat split. rewrite <- !app_assoc. reflexivity.
Qed.

(** *** The whole fixer, run twice *)

Lemma wf_add_missing (s : state) (a : app) name mk :
  wf s -> (forall id, pol_id (mk id) = id) -> wf (add_missing a name mk s).
Proof.
  intros Hwf Hmk. unfold add_missing. destruct (has_named name (app_policies a));
    [exact Hwf |].
  apply wf_update; [exact Hwf |]. intros b Hb _.
  eapply app_ok_append; [exact Hb | eapply wf_app_ok; eassumption | apply Hmk].
Qed.

Lemma wf_phase1 (s : state) : wf s -> wf (phase1_effect s).
Proof.
  intros Hwf. destruct (located_spec _ Hwf) as (Hwf1 & _ & _).
  unfold phase1_effect. destruct (located s) as [s1 a]. cbn [fst] in Hwf1.
  apply wf_add_missing; [apply wf_add_missing |]; auto.
Qed.

Lemma wf_cleanup (s : state) : wf s -> wf (cleanup_effect s).
Proof.
  intros Hwf. unfold cleanup_effect.
  pose proof (wf_clean_prefix s [] ) as H. rewrite !app_nil_r in H. apply H. exact Hwf.
Qed.

Lemma find_domain_add_missing d (s : state) (a b : app) name mk :
  find_domain d s = Some b -> app_id b = app_id a ->
  exists b',
    find_domain d (add_missing a name mk s) = Some b'
    /\ app_id b' = app_id a
    /\ app_policies b'
       = (app_policies b
          ++ if has_named name (app_policies a) then [] else [mk (fresh_id s)])%list.
Proof.
  intros H Hid. unfold add_missing. destruct (has_named name (app_policies a)).
  - exists b. rewrite app_nil_r. repeat split; assumption.
  - rewrite find_domain_update, H. cbn [option_map].
    rewrite (touch_self _ _ _ Hid). eexists. split; [reflexivity |].
    split; [exact Hid | reflexivity].
Qed.

Lemma has_named_app name l l' :
  has_named name (l ++ l')%list = has_named name l || has_named name l'.
Proof. apply existsb_app. Qed.

(** After the first phase the studio application is listed and has
    both policies. *)
Lemma phase1_settles (s : state) :
  wf s ->
  exists a, find_domain "studio.raydoug.com" (phase1_effect s) = Some a
            /\ has_named "Allow Admins" (app_policies a) = true
            /\ has_named "Allow Service" (app_policies a) = true.
Proof.
  intros Hwf. destruct (located_spec _ Hwf) as (_ & _ & Hfd).
  unfold phase1_effect. destruct (located s) as [s1 a]. cbn [fst snd] in Hfd.
  destruct (find_domain_add_missing _ _ a a "Allow Admins" admins Hfd eq_refl)
    as (a2 & Hfd2 & Hid2 & Hp2).
  destruct (find_domain_add_missing _ _ a a2 "Allow Service" machine Hfd2 Hid2)
    as (a3 & Hfd3 & _ & Hp3).
  exists a3. split; [exact Hfd3 |]. rewrite Hp3, Hp2, !has_named_app. split.
  - destruct (has_named "Allow Admins" (app_policies a)); reflexivity.
  - destruct (has_named "Allow Service" (app_policies a));
      [reflexivity | apply orb_true_r].
Qed.

Lemma is_stale_named name (p : policy) :
  String.eqb name FixZeroTrust.stale_name = false ->
  String.eqb (pol_name p) name = true -> is_stale p = false.
Proof.
  intros Hn Hp. apply String.eqb_eq in Hp. unfold is_stale. rewrite Hp. exact Hn.
Qed.

Lemma has_named_keep name l :
  String.eqb name FixZeroTrust.stale_name = false ->
  has_named name (keep l) = has_named name l.
Proof.
  intros Hn. unfold has_named, keep. induction l as [| p l IH]; [reflexivity |].
  cbn [filter existsb]. destruct (String.eqb (pol_name p) name) eqn:Ep.
  - rewrite (is_stale_named _ _ Hn Ep). cbn [negb existsb]. rewrite Ep. reflexivity.
  - destruct (negb (is_stale p)); cbn [existsb]; [rewrite Ep |]; exact IH.
Qed.

Lemma find_domain_cleanup d (s : state) :
  find_domain d (cleanup_effect s) = option_map clean (find_domain d s).
Proof.
  unfold find_domain, cleanup_effect. induction s as [| a s IH]; [reflexivity |].
  cbn [map find]. change (app_domain (clean a)) with (app_domain a).
  destruct (String.eqb (app_domain a) d); [reflexivity | exact IH].
Qed.

Lemma keep_twice l : keep (keep l) = keep l.
Proof.
  unfold keep. induction l as [| p l IH]; [reflexivity |]. cbn [filter].
  destruct (negb (is_stale p)) eqn:E; [| exact IH].
  cbn [filter]. rewrite E, IH. reflexivity.
Qed.

Lemma cleanup_twice (s : state) : cleanup_effect (cleanup_effect s) = cleanup_effect s.
Proof.
  unfold cleanup_effect. rewrite map_map. apply map_ext. intros a.
  unfold clean, with_policies. cbn [app_id app_name app_domain app_type
    app_session_duration app_policies]. rewrite keep_twice. reflexivity.
Qed.

(** In a state where the studio application is listed with both
    policies, the first phase only reads. *)
Lemma phase1_settled (s : state) (a : app) :
  find_domain "studio.raydoug.com" s = Some a ->
  has_named "Allow Admins" (app_policies a) = true ->
  has_named "Allow Service" (app_policies a) = true ->
  phase1_effect s = s
  /\ phase1_calls s = [get_request BASE_URL; policies_of a].
Proof.
  intros Hfd Ha Hs. unfold phase1_effect, phase1_calls, located, add_missing, missing_call.
  rewrite Hfd, Ha, Hs. split; reflexivity.
Qed.

Lemma cleanup_calls_methods (s : state) :
  Forall (fun r => req_method r = "GET" \/ req_method r = "DELETE") (cleanup_calls s).
Proof.
  unfold cleanup_calls. constructor.
  - left. apply req_method_build.
  - induction s as [| a s IH]; [constructor |]. cbn [flat_map].
    constructor; [left; apply req_method_build |].
    apply Forall_app. split; [| exact IH].
    apply Forall_map. apply Forall_forall. intros p _. right. apply req_method_build.
Qed.

(** The whole script from any world whose service is well formed. *)
Lemma run_fixer (w : world) :
  wf (remote w) ->
  completes (FixZeroTrust.main w)
            (cleanup_effect (phase1_effect (remote w)))
            (calls w ++ phase1_calls (remote w)
             ++ cleanup_calls (phase1_effect (remote w)))%list.
Proof.
  intros Hwf. unfold FixZeroTrust.main.
  pose proof (completes_eq _ _ _ (run_phase1 w Hwf)) as E1.
  rewrite (bind_ret_eq _ _ _ _ _ E1).
  match goal with
  | |- completes (bind FixZeroTrust.cleanup _ ?w1) _ _ =>
      pose proof (completes_eq _ _ _ (run_cleanup w1 (wf_phase1 _ Hwf))) as E2
  end.
  cbn [remote calls] in E2. rewrite (bind_ret_eq _ _ _ _ _ E2).
  unfold completes, print. cbn [fst snd remote calls].
  repeat split. rewrite <- app_assoc. reflexivity.
Qed.

Lemma enabler_keeps_identifiers (s : state) (a : app) (p : policy) :
  wf s ->
  find_domain "api.raydoug.com" s = Some a ->
  find_named "Public Access" (app_policies a) = Some p ->
  identifiers (remote (snd (enabler s))) = identifiers s.
Proof.
  intros Hwf Ea Ep. unfold enabler. destruct (run_enable s Hwf) as [_ ->].
  unfold enable_effect. rewrite Ea, Ep. unfold identifiers.
  rewrite update_app_map, map_map. apply map_ext. intros b. unfold touch.
  destruct (String.eqb (app_id b) (app_id a)); [| reflexivity].
  cbn [with_policies app_id app_policies].
  rewrite replace_policy_ids by reflexivity. reflexivity.
Qed.

Lemma fixer_twice (s : state) :
  wf s ->
  fst (fixer s) = Ret tt
  /\ fst (fixer (remote (snd (fixer s)))) = Ret tt
  /\ Forall (fun r => req_method r = "GET" \/ req_method r = "DELETE")
            (calls (snd (fixer (remote (snd (fixer s))))))
  /\ remote (snd (fixer (remote (snd (fixer s))))) = remote (snd (fixer s)).
Proof.
  intros Hwf. unfold fixer.
  destruct (run_fixer (start (svc := service) s) Hwf) as (R1 & S1 & _).
  cbn [remote start] in S1.
  rewrite S1. set (s1 := cleanup_effect (phase1_effect s)).
  assert (Hwf1 : wf s1) by (apply wf_cleanup, wf_phase1; exact Hwf).
  destruct (phase1_settles s Hwf) as (a & Hfd & Ha & Hs).
  assert (Hfd1 : find_domain "studio.raydoug.com" s1 = Some (clean a))
    by (unfold s1; rewrite find_domain_cleanup, Hfd; reflexivity).
  destruct (phase1_settled s1 (clean a) Hfd1) as (E & C).
  { cbn [clean with_policies app_policies].
    rewrite has_named_keep by reflexivity. exact Ha. }
  { cbn [clean with_policies app_policies].
    rewrite has_named_keep by reflexivity. exact Hs. }
  destruct (run_fixer (start (svc := service) s1) Hwf1) as (R2 & S2 & C2).
  cbn [remote calls start] in S2, C2. rewrite E in S2, C2.
  split; [exact R1 |]. split; [exact R2 |]. split.
  - rewrite C2, C. cbn [List.app].
    constructor; [left; apply req_method_build |].
    constructor; [left; apply req_method_build |].
    apply cleanup_calls_methods.
  - rewrite S2. apply cleanup_twice.
Qed.

End Scripts.

End OnReference.

(** ** C3, C4 and C5 *)

Section FixerClaims.

Context {cred : Credentials}.

(** C3. On any service, in every run of [main] of the enabler in which
    the application is found and the listing of its policies holds a
    policy named [Public Access]: the calls are the two listing GETs
    followed by one PUT, addressed to the identifier of the first
    listed policy of that name, with the bypass-everyone payload; no
    POST is issued, whatever the service answers to the PUT.  Against
    the reference model of the API, from every well-formed state with
    such a policy: after the run every application has the identifiers
    it had, with the same policy identifiers in the same order (none
    changed, none added). *)
Theorem existing_policy_updated_in_place :
  (forall (svc : Service) (lib : PyLib)
          s0 s1 s2 v1 v2 before a after an ai pbefore p pafter pid,
     answers s0 list_apps_request v1 s1 ->
     Py.subscript v1 "result" = Ret (PList (before ++ a :: after)%list) ->
     Forall (other "domain" "api.raydoug.com") before ->
     named "domain" "api.raydoug.com" a ->
     Py.subscript a "name" = Ret an ->
     Py.subscript a "id" = Ret ai ->
     answers s1 (list_policies_request ai) v2 s2 ->
     Py.subscript v2 "result" = Ret (PList (pbefore ++ p :: pafter)%list) ->
     Forall (other "name" "Public Access") pbefore ->
     named "name" "Public Access" p ->
     Forall (has_key "name") pafter ->
     Py.subscript p "id" = Ret pid ->
     calls (snd (EnablePublicApi.main (start s0)))
     = [list_apps_request; list_policies_request ai; put_request ai pid]
     /\ req_method (put_request ai pid) = "PUT"
     /\ req_url (put_request ai pid)
        = BASE_URL ++ "/" ++ Py.str ai ++ "/policies/" ++ Py.str pid
     /\ Forall (fun r => req_method r <> "POST")
               (calls (snd (EnablePublicApi.main (start s0)))))
  /\ (forall (codec : Codec) (s : AccessAPI.state) (a : AccessAPI.app)
             (p : AccessAPI.policy),
        Reference.wf s ->
        Reference.find_domain "api.raydoug.com" s = Some a ->
        Reference.find_named "Public Access" (AccessAPI.app_policies a) = Some p ->
        Reference.identifiers (remote (snd (Reference.enabler s)))
        = Reference.identifiers s).
Proof.
  split.
  - intros svc lib. apply update_in_place_calls.
  - intros codec. apply OnReference.enabler_keeps_identifiers.
Qed.

(** C4. On any service, for every run of the first phase in which the
    listings are answered, the calls of the run are exactly these.
    When an application with the studio domain is listed: the listing
    GET, the GET of the policies of the first such application, then
    the POST of [Allow Admins] exactly when [any] finds no policy of
    that name in the listing, then the POST of [Allow Service] exactly
    when [any] finds none of that name; the application is not posted.
    When no listed application has the domain: the listing GET, the
    POST of the application, the GET of the policies of the
    application the answer holds, and the two policy POSTs under the
    same conditions.  ([any] gives false exactly when every listed
    policy has another name; the second POST is reached when the
    first, if sent, got an HTTP answer.)  The two policy documents are
    the allow rule for the admin group and the allow rule for the
    service token.  Whatever the service answers, the first phase
    issues nothing but GET and POST, so nothing is ever updated.
    Step by step: the application step sends its POST exactly when the
    listing has no application with the domain, a policy block exactly
    when the listing has no policy with the name.
    Against the reference model of the API: from every well-formed
    state a run returns, a second run returns too, issues only GET and
    DELETE calls (no POST: neither the application nor a policy is
    created again) and leaves the service as the first run left it. *)
Theorem first_phase_creates_only_missing :
  (forall (svc : Service) (lib : PyLib),
     (forall s0 s1 s2 s3 v1 v2 before a after ai policies b1 b2,
        answers s0 (get_request BASE_URL) v1 s1 ->
        Py.subscript v1 "result" = Ret (PList (before ++ a :: after)%list) ->
        Forall (other "domain" "studio.raydoug.com") before ->
        named "domain" "studio.raydoug.com" a ->
        Py.subscript a "id" = Ret ai ->
        answers s1 (get_request (FixZeroTrust.policies_url ai)) v2 s2 ->
        Py.subscript v2 "result" = Ret policies ->
        any_match "name" "Allow Admins" policies = Ret b1 ->
        any_match "name" "Allow Service" policies = Ret b2 ->
        (b1 = false ->
         responds s2 (create_policy_request ai FixZeroTrust.allow_admins) s3) ->
        calls (snd (FixZeroTrust.phase1 (start s0)))
        = ([get_request BASE_URL; get_request (FixZeroTrust.policies_url ai)]
           ++ (if b1 then []
               else [create_policy_request ai FixZeroTrust.allow_admins])
           ++ (if b2 then []
               else [create_policy_request ai FixZeroTrust.allow_service]))%list)
     /\ (forall s0 s1 s2 s3 s4 v1 v2 v3 apps created ai policies b1 b2,
           answers s0 (get_request BASE_URL) v1 s1 ->
           Py.subscript v1 "result" = Ret (PList apps) ->
           Forall (other "domain" "studio.raydoug.com") apps ->
           answers s1 create_app_request v2 s2 ->
           Py.subscript v2 "result" = Ret created ->
           Py.subscript created "id" = Ret ai ->
           answers s2 (get_request (FixZeroTrust.policies_url ai)) v3 s3 ->
           Py.subscript v3 "result" = Ret policies ->
           any_match "name" "Allow Admins" policies = Ret b1 ->
           any_match "name" "Allow Service" policies = Ret b2 ->
           (b1 = false ->
            responds s3 (create_policy_request ai FixZeroTrust.allow_admins) s4) ->
           calls (snd (FixZeroTrust.phase1 (start s0)))
           = ([get_request BASE_URL; create_app_request;
               get_request (FixZeroTrust.policies_url ai)]
              ++ (if b1 then []
                  else [create_policy_request ai FixZeroTrust.allow_admins])
              ++ (if b2 then []
                  else [create_policy_request ai FixZeroTrust.allow_service]))%list)
     /\ (forall name l,
           (any_match "name" name (PList l) = Ret false
            <-> Forall (other "name" name) l)
           /\ (any_match "name" name (PList l) = Ret true
               -> Exists (named "name" name) l))
     /\ (forall ai,
           req_data (create_policy_request ai FixZeroTrust.allow_admins)
           = Some (utf8_encode
                     (json_dumps
                        (PDict [("name", PStr "Allow Admins");
                                ("decision", PStr "allow");
                                ("include",
                                 PList [PDict [("group",
                                                PDict [("id",
                                                        PStr FixZeroTrust.ADMIN_GROUP_ID)])]])])))
           /\ req_data (create_policy_request ai FixZeroTrust.allow_service)
              = Some (utf8_encode
                        (json_dumps
                           (PDict [("name", PStr "Allow Service");
                                   ("decision", PStr "allow");
                                   ("include",
                                    PList [PDict [("service_token",
                                                   PDict [("token_id",
                                                           PStr FixZeroTrust.SERVICE_TOKEN_ID)])]])]))))
     /\ only_calls (fun r => req_method r = "GET" \/ req_method r = "POST")
                   FixZeroTrust.phase1
     /\ (forall s0 s1 v apps,
           answers s0 (get_request BASE_URL) v s1 ->
           Py.subscript v "result" = Ret (PList apps) ->
           (Forall (other "domain" "studio.raydoug.com") apps ->
            calls (snd (FixZeroTrust.ensure_app (start s0)))
            = [get_request BASE_URL; create_app_request])
           /\ (~ Forall (other "domain" "studio.raydoug.com") apps ->
               calls (snd (FixZeroTrust.ensure_app (start s0)))
               = [get_request BASE_URL]))
     /\ (forall studio_app l name payload w,
           (Forall (other "name" name) l ->
            forall ai, Py.subscript studio_app "id" = Ret ai ->
            calls (snd (FixZeroTrust.ensure_policy studio_app (PList l) name payload w))
            = (calls w ++ [create_policy_request ai payload])%list)
           /\ (~ Forall (other "name" name) l ->
               calls (snd (FixZeroTrust.ensure_policy studio_app (PList l)
                             name payload w))
               = calls w)))
  /\ (forall (codec : Codec) (s : AccessAPI.state),
        Reference.wf s ->
        let r1 := Reference.fixer s in
        let s1 := remote (snd r1) in
        let r2 := Reference.fixer s1 in
        fst r1 = Ret tt
        /\ fst r2 = Ret tt
        /\ Forall (fun r => req_method r = "GET" \/ req_method r = "DELETE")
                  (calls (snd r2))
        /\ remote (snd r2) = s1).
Proof.
  split.
  - intros svc lib. split; [| split; [| split; [| split; [| split; [| split]]]]].
    + intros s0 s1 s2 s3 v1 v2 before a after ai policies b1 b2.
      apply phase1_found_calls.
    + intros s0 s1 s2 s3 s4 v1 v2 v3 apps created ai policies b1 b2.
      apply phase1_created_calls.
    + intros name l. apply any_match_listing.
    + intros ai. split; reflexivity.
    + apply phase1_only_reads_and_creates.
    + intros s0 s1 v apps. apply ensure_app_calls.
    + intros studio_app l name payload w. apply ensure_policy_calls.
  - intros codec s Hwf. cbv zeta. apply OnReference.fixer_twice. exact Hwf.
Qed.


End FixerClaims.

(** * Further properties of the scripts *)

(** ** The client, whatever the service does *)

Section ClientEdges.

Context {svc : Service} {lib : PyLib} {cred : Credentials}.

Lemma req_headers_build m u d : req_headers (build_request m u d) = HEADERS.
Proof. unfold build_request. destruct (Py.truthy d); reflexivity. Qed.

Lemma bind_cong {A B} (m m' : M A) (k : A -> M B) w w' :
  m w = m' w' -> bind m k w = bind m' k w'.
Proof. unfold bind. intros ->. reflexivity. Qed.

Lemma request_garbled_error m u d w status body s' :
  urlopen (build_request m u d) unverified_context (remote w)
  = (HTTPError status body, s') ->
  utf8_decode body = None ->
  request m u d w
  = (Raise UnicodeDecodeError,
     mkWorld s' (stdout w) (calls w ++ [build_request m u d])%list).
Proof.
  intros H Hd. unfold request, bind, do_urlopen. rewrite H. simpl. rewrite Hd.
  reflexivity.
Qed.

(** X1. Every call of [request] hands exactly one request to [urlopen],
    whatever comes back (no retry): it has the method and the URL it was
    called with and both headers of [HEADERS], the bearer token and the
    JSON content type, also when it carries no body.  The service is
    left as that one exchange left it.  At most one line is printed,
    the error line, and only when [None] is returned. *)
Theorem request_sends_one_request (m u : string) (d : pyval) (w : world) :
  calls (snd (request m u d w)) = (calls w ++ [build_request m u d])%list
  /\ req_method (build_request m u d) = m
  /\ req_url (build_request m u d) = u
  /\ req_headers (build_request m u d)
     = [("Authorization", "Bearer " ++ TOKEN); ("Content-Type", "application/json")]
  /\ remote (snd (request m u d w))
     = snd (urlopen (build_request m u d) (mkContext false CERT_NONE) (remote w))
  /\ (stdout (snd (request m u d w)) = stdout w
      \/ exists text,
           stdout (snd (request m u d w))
           = (stdout w ++ [("Error " ++ m ++ " " ++ u ++ ": " ++ text)%string])%list
           /\ fst (request m u d w) = Ret PNone).
Proof.
  destruct (request_calls m u d w) as [Hc Hr].
  split; [exact Hc |]. split; [apply req_method_build |].
  split; [apply req_url_build |]. split; [apply req_headers_build |].
  split; [exact Hr |].
  unfold request, bind, do_urlopen.
  destruct (urlopen _ _ _) as [[body | st body | reason] s]; simpl.
  - left. destruct (utf8_decode body); [destruct (json_loads _) |]; reflexivity.
  - destruct (utf8_decode body) as [text |].
    + right. exists text. split; reflexivity.
    + left. reflexivity.
  - left. reflexivity.
Qed.

(** X2. [request] has no handler for a body it cannot decode.  A normal
    answer whose body is not UTF-8 raises [UnicodeDecodeError], one
    whose text is not a JSON document (an empty body, say) raises
    [JSONDecodeError]; an error status whose body is not UTF-8 raises
    [UnicodeDecodeError] out of the handler, before anything is
    printed.  In each case the request went out and nothing was
    printed. *)
Theorem undecodable_body_raises
    (m u : string) (d : pyval) (w : world) (body : list byte) (s' : srv_state) :
  (forall text,
     urlopen (build_request m u d) unverified_context (remote w) = (Response body, s') ->
     utf8_decode body = Some text -> json_loads text = None ->
     request m u d w
     = (Raise JSONDecodeError,
        mkWorld s' (stdout w) (calls w ++ [build_request m u d])%list))
  /\ (urlopen (build_request m u d) unverified_context (remote w) = (Response body, s') ->
      utf8_decode body = None ->
      request m u d w
      = (Raise UnicodeDecodeError,
         mkWorld s' (stdout w) (calls w ++ [build_request m u d])%list))
  /\ (forall status,
        urlopen (build_request m u d) unverified_context (remote w)
        = (HTTPError status body, s') ->
        utf8_decode body = None ->
        request m u d w
        = (Raise UnicodeDecodeError,
           mkWorld s' (stdout w) (calls w ++ [build_request m u d])%list)).
Proof.
  split; [| split].
  - intros text H Hd Hj. unfold request, bind, do_urlopen.
    rewrite H. simpl. rewrite Hd, Hj. reflexivity.
  - intros H Hd. unfold request, bind, do_urlopen. rewrite H. simpl. rewrite Hd.
    reflexivity.
  - intros status H Hd. unfold request, bind, do_urlopen. rewrite H. simpl.
    rewrite Hd. reflexivity.
Qed.

End ClientEdges.

(** ** [enable_public_api.py]: the other paths of [main] *)

Section EnablerEdges.

Context {svc : Service} {lib : PyLib} {cred : Credentials}.

Import EnablePublicApi.

Lemma others_have_key key lit l : Forall (other key lit) l -> Forall (has_key key) l.
Proof. intros H. eapply Forall_impl; [| exact H]. intros x. apply other_has_key. Qed.

(** X3. In every run of [main] in which the application is found and no
    listed policy is named [Public Access]: the calls are the two
    listing GETs followed by one POST to the policies of the
    application, its body the bypass-everyone document; no PUT is
    issued.  When the POST gets a normal answer holding a JSON
    document, [main] returns after printing the five lines below. *)
Theorem missing_policy_is_created
    s0 s1 s2 v1 v2 before a after an ai policies :
  answers s0 list_apps_request v1 s1 ->
  Py.subscript v1 "result" = Ret (PList (before ++ a :: after)%list) ->
  Forall (other "domain" "api.raydoug.com") before ->
  named "domain" "api.raydoug.com" a ->
  Py.subscript a "name" = Ret an ->
  Py.subscript a "id" = Ret ai ->
  answers s1 (list_policies_request ai) v2 s2 ->
  Py.subscript v2 "result" = Ret (PList policies) ->
  Forall (other "name" "Public Access") policies ->
  calls (snd (main (start s0)))
  = [list_apps_request; list_policies_request ai; post_request ai]
  /\ req_method (post_request ai) = "POST"
  /\ req_url (post_request ai) = BASE_URL ++ "/" ++ Py.str ai ++ "/policies"
  /\ req_data (post_request ai) = Some (utf8_encode (json_dumps bypass_everyone))
  /\ (forall v3 s3,
        answers s2 (post_request ai) v3 s3 ->
        exists names,
          collect_in "name" policies = Ret names
          /\ main (start s0)
             = (Ret tt,
                mkWorld s3
                  ["--- Enabling Public Access for api.raydoug.com ---";
                   "Found App: " ++ Py.str an ++ " (" ++ Py.str ai ++ ")";
                   "Current Policies: " ++ Py.repr (PList names);
                   "Creating 'Public Access' policy...";
                   "✅ Success! api.raydoug.com is now public (Bypass Everyone)."]
                  [list_apps_request; list_policies_request ai; post_request ai])).
Proof.
  intros Hget Hres Hb Ha Han Hai Hget2 Hres2 Hnone.
  destruct (main_reaches_upsert _ _ _ _ _ _ _ _ _ _ _
              Hget Hres Hb Ha Han Hai Hget2 Hres2 (others_have_key _ _ _ Hnone))
    as (names & Hc & E).
  split.
  { rewrite E, calls_bind_print.
    rewrite (upsert_missing_calls _ _ _ _ Hai Hnone). reflexivity. }
  split; [apply req_method_build |]. split; [apply req_url_build |].
  split; [reflexivity |].
  intros v3 s3 H3. exists names. split; [exact Hc |].
  rewrite E. rewrite (bind_cong _ _ _ _ _ (upsert_missing _ _ _ _ Hai Hnone)).
  run. run_request H3. run. reflexivity.
Qed.

(** X4. The answer to the write is never looked at.  When the PUT (the
    policy is listed) or the POST (it is not) is answered with an error
    status whose body is UTF-8 text, [main] still returns normally and
    its last two printed lines are the error line of [request] and the
    success line.  When the body of that error answer is not UTF-8,
    [request] raises out of its handler: [main] ends with the
    [UnicodeDecodeError] and prints neither line. *)
Theorem success_line_after_refused_write :
  (forall s0 s1 s2 s3 v1 v2 before a after an ai pbefore p pafter pid text,
     answers s0 list_apps_request v1 s1 ->
     Py.subscript v1 "result" = Ret (PList (before ++ a :: after)%list) ->
     Forall (other "domain" "api.raydoug.com") before ->
     named "domain" "api.raydoug.com" a ->
     Py.subscript a "name" = Ret an ->
     Py.subscript a "id" = Ret ai ->
     answers s1 (list_policies_request ai) v2 s2 ->
     Py.subscript v2 "result" = Ret (PList (pbefore ++ p :: pafter)%list) ->
     Forall (other "name" "Public Access") pbefore ->
     named "name" "Public Access" p ->
     Forall (has_key "name") pafter ->
     Py.subscript p "id" = Ret pid ->
     refuses s2 (put_request ai pid) text s3 ->
     exists names,
       collect_in "name" (pbefore ++ p :: pafter)%list = Ret names
       /\ main (start s0)
          = (Ret tt,
             mkWorld s3
               ["--- Enabling Public Access for api.raydoug.com ---";
                "Found App: " ++ Py.str an ++ " (" ++ Py.str ai ++ ")";
                "Current Policies: " ++ Py.repr (PList names);
                "Policy 'Public Access' already exists. Updating to ensure it's correct...";
                "Error PUT " ++ policy_url ai pid ++ ": " ++ text;
                "✅ Success! api.raydoug.com is now public (Bypass Everyone)."]
               [list_apps_request; list_policies_request ai; put_request ai pid]))
  /\ (forall s0 s1 s2 s3 v1 v2 before a after an ai policies text,
        answers s0 list_apps_request v1 s1 ->
        Py.subscript v1 "result" = Ret (PList (before ++ a :: after)%list) ->
        Forall (other "domain" "api.raydoug.com") before ->
        named "domain" "api.raydoug.com" a ->
        Py.subscript a "name" = Ret an ->
        Py.subscript a "id" = Ret ai ->
        answers s1 (list_policies_request ai) v2 s2 ->
        Py.subscript v2 "result" = Ret (PList policies) ->
        Forall (other "name" "Public Access") policies ->
        refuses s2 (post_request ai) text s3 ->
        exists names,
          collect_in "name" policies = Ret names
          /\ main (start s0)
             = (Ret tt,
                mkWorld s3
                  ["--- Enabling Public Access for api.raydoug.com ---";
                   "Found App: " ++ Py.str an ++ " (" ++ Py.str ai ++ ")";
                   "Current Policies: " ++ Py.repr (PList names);
                   "Creating 'Public Access' policy...";
                   "Error POST " ++ policies_url ai ++ ": " ++ text;
                   "✅ Success! api.raydoug.com is now public (Bypass Everyone)."]
                  [list_apps_request; list_policies_request ai; post_request ai]))
  /\ (forall s0 s1 s2 s3 v1 v2 before a after an ai pbefore p pafter pid status body,
        answers s0 list_apps_request v1 s1 ->
        Py.subscript v1 "result" = Ret (PList (before ++ a :: after)%list) ->
        Forall (other "domain" "api.raydoug.com") before ->
        named "domain" "api.raydoug.com" a ->
        Py.subscript a "name" = Ret an ->
        Py.subscript a "id" = Ret ai ->
        answers s1 (list_policies_request ai) v2 s2 ->
        Py.subscript v2 "result" = Ret (PList (pbefore ++ p :: pafter)%list) ->
        Forall (other "name" "Public Access") pbefore ->
        named "name" "Public Access" p ->
        Forall (has_key "name") pafter ->
        Py.subscript p "id" = Ret pid ->
        urlopen (put_request ai pid) unverified_context s2
        = (HTTPError status body, s3) ->
        utf8_decode body = None ->
        exists names,
          collect_in "name" (pbefore ++ p :: pafter)%list = Ret names
          /\ main (start s0)
             = (Raise UnicodeDecodeError,
                mkWorld s3
                  ["--- Enabling Public Access for api.raydoug.com ---";
                   "Found App: " ++ Py.str an ++ " (" ++ Py.str ai ++ ")";
                   "Current Policies: " ++ Py.repr (PList names);
                   "Policy 'Public Access' already exists. Updating to ensure it's correct..."]
                  [list_apps_request; list_policies_request ai; put_request ai pid]))
  /\ (forall s0 s1 s2 s3 v1 v2 before a after an ai policies status body,
        answers s0 list_apps_request v1 s1 ->
        Py.subscript v1 "result" = Ret (PList (before ++ a :: after)%list) ->
        Forall (other "domain" "api.raydoug.com") before ->
        named "domain" "api.raydoug.com" a ->
        Py.subscript a "name" = Ret an ->
        Py.subscript a "id" = Ret ai ->
        answers s1 (list_policies_request ai) v2 s2 ->
        Py.subscript v2 "result" = Ret (PList policies) ->
        Forall (other "name" "Public Access") policies ->
        urlopen (post_request ai) unverified_context s2
        = (HTTPError status body, s3) ->
        utf8_decode body = None ->
        exists names,
          collect_in "name" policies = Ret names
          /\ main (start s0)
             = (Raise UnicodeDecodeError,
                mkWorld s3
                  ["--- Enabling Public Access for api.raydoug.com ---";
                   "Found App: " ++ Py.str an ++ " (" ++ Py.str ai ++ ")";
                   "Current Policies: " ++ Py.repr (PList names);
                   "Creating 'Public Access' policy..."]
                  [list_apps_request; list_policies_request ai; post_request ai])).
Proof.
  assert (Hall : forall pbefore p pafter,
             Forall (other "name" "Public Access") pbefore ->
             named "name" "Public Access" p ->
             Forall (has_key "name") pafter ->
             Forall (has_key "name") (pbefore ++ p :: pafter)%list).
  { intros pbefore p pafter Hpb Hp Hpa. apply Forall_app.
    split; [exact (others_have_key _ _ _ Hpb) |].
    constructor; [eapply named_has_key; exact Hp | exact Hpa]. }
  split; [| split; [| split]].
  - intros s0 s1 s2 s3 v1 v2 before a after an ai pbefore p pafter pid text
           Hget Hres Hb Ha Han Hai Hget2 Hres2 Hpb Hp Hpa Hpid Hput.
    destruct (main_reaches_upsert _ _ _ _ _ _ _ _ _ _ _
                Hget Hres Hb Ha Han Hai Hget2 Hres2 (Hall _ _ _ Hpb Hp Hpa))
      as (names & Hc & E).
    exists names. split; [exact Hc |]. rewrite E.
    rewrite (bind_cong _ _ _ _ _ (upsert_existing _ _ _ _ _ _ _ Hai Hpb Hp Hpid)).
    run. run_request Hput. run. reflexivity.
  - intros s0 s1 s2 s3 v1 v2 before a after an ai policies text
           Hget Hres Hb Ha Han Hai Hget2 Hres2 Hnone Hpost.
    destruct (main_reaches_upsert _ _ _ _ _ _ _ _ _ _ _
                Hget Hres Hb Ha Han Hai Hget2 Hres2 (others_have_key _ _ _ Hnone))
      as (names & Hc & E).
    exists names. split; [exact Hc |]. rewrite E.
    rewrite (bind_cong _ _ _ _ _ (upsert_missing _ _ _ _ Hai Hnone)).
    run. run_request Hpost. run. reflexivity.
  - intros s0 s1 s2 s3 v1 v2 before a after an ai pbefore p pafter pid status body
           Hget Hres Hb Ha Han Hai Hget2 Hres2 Hpb Hp Hpa Hpid Hput Hd.
    destruct (main_reaches_upsert _ _ _ _ _ _ _ _ _ _ _
                Hget Hres Hb Ha Han Hai Hget2 Hres2 (Hall _ _ _ Hpb Hp Hpa))
      as (names & Hc & E).
    exists names. split; [exact Hc |]. rewrite E.
    rewrite (bind_cong _ _ _ _ _ (upsert_existing _ _ _ _ _ _ _ Hai Hpb Hp Hpid)).
    run.
    erewrite bind_raise_eq
      by (apply (request_garbled_error _ _ _ _ status body s3); [exact Hput | exact Hd]).
    reflexivity.
  - intros s0 s1 s2 s3 v1 v2 before a after an ai policies status body
           Hget Hres Hb Ha Han Hai Hget2 Hres2 Hnone Hpost Hd.
    destruct (main_reaches_upsert _ _ _ _ _ _ _ _ _ _ _
                Hget Hres Hb Ha Han Hai Hget2 Hres2 (others_have_key _ _ _ Hnone))
      as (names & Hc & E).
    exists names. split; [exact Hc |]. rewrite E.
    rewrite (bind_cong _ _ _ _ _ (upsert_missing _ _ _ _ Hai Hnone)).
    run.
    erewrite bind_raise_eq
      by (apply (request_garbled_error _ _ _ _ status body s3); [exact Hpost | exact Hd]).
    reflexivity.
Qed.

Lemma next_in_raises key lit before a after e :
  Forall (other key lit) before -> Py.subscript a key = Raise e ->
  next_in key lit (before ++ a :: after)%list = Raise e.
Proof.
  intros Hb Ha. induction Hb as [| b before (y & Hy & Ey) _ IH]; simpl.
  - rewrite Ha. reflexivity.
  - rewrite Hy, Ey. exact IH.
Qed.

Lemma any_in_raises key lit before a after e :
  Forall (other key lit) before -> Py.subscript a key = Raise e ->
  any_in key lit (before ++ a :: after)%list = Raise e.
Proof.
  intros Hb Ha. induction Hb as [| b before (y & Hy & Ey) _ IH]; simpl.
  - rewrite Ha. reflexivity.
  - rewrite Hy, Ey. exact IH.
Qed.

Lemma collect_in_raises key before a after e :
  Forall (has_key key) before -> Py.subscript a key = Raise e ->
  collect_in key (before ++ a :: after)%list = Raise e.
Proof.
  intros Hb Ha. induction Hb as [| b before (y & Hy) _ IH]; simpl.
  - rewrite Ha. reflexivity.
  - rewrite Hy, IH. reflexivity.
Qed.

(** X5. An entry of a listing that cannot be subscripted by the key (an
    object without the key: [KeyError]; something that is no object:
    [TypeError]) makes a lookup raise when it is reached, that is when
    no entry before it matches.  In [main]: such an application before
    the first one with the domain, or a found application without a
    name or without an identifier, ends the run with that exception
    after the listing GET; the policies are not listed and nothing is
    written. *)
Theorem unreadable_entry_ends_the_run :
  (forall key lit before a after e,
     Forall (other key lit) before -> Py.subscript a key = Raise e ->
     next_match key lit (PList (before ++ a :: after)%list) = Raise e
     /\ any_match key lit (PList (before ++ a :: after)%list) = Raise e)
  /\ (forall s0 s1 v before a after e,
        answers s0 list_apps_request v s1 ->
        Py.subscript v "result" = Ret (PList (before ++ a :: after)%list) ->
        Forall (other "domain" "api.raydoug.com") before ->
        Py.subscript a "domain" = Raise e ->
        main (start s0)
        = (Raise e,
           mkWorld s1 ["--- Enabling Public Access for api.raydoug.com ---"]
                   [list_apps_request]))
  /\ (forall s0 s1 v before a after e,
        answers s0 list_apps_request v s1 ->
        Py.subscript v "result" = Ret (PList (before ++ a :: after)%list) ->
        Forall (other "domain" "api.raydoug.com") before ->
        named "domain" "api.raydoug.com" a ->
        Py.subscript a "name" = Raise e
        \/ (has_key "name" a /\ Py.subscript a "id" = Raise e) ->
        main (start s0)
        = (Raise e,
           mkWorld s1 ["--- Enabling Public Access for api.raydoug.com ---"]
                   [list_apps_request])).
Proof.
  split; [| split].
  - intros key lit before a after e Hb Ha. unfold next_match, any_match.
    cbn [Py.iter]. split; [apply next_in_raises | apply any_in_raises]; assumption.
  - intros s0 s1 v before a after e Hget Hres Hb Ha.
    unfold main, start. run. run_request Hget. rewrite Hres. run.
    unfold next_match. cbn [Py.iter]. rewrite (next_in_raises _ _ _ _ _ _ Hb Ha).
    run. reflexivity.
  - intros s0 s1 v before a after e Hget Hres Hb Ha Hbad.
    unfold main, start. run. run_request Hget. rewrite Hres. run.
    unfold next_match at 1. cbn [Py.iter]. rewrite (next_in_first _ _ _ _ _ Hb Ha).
    run. rewrite (named_truthy _ _ _ Ha). cbn [negb].
    destruct Hbad as [Hn | [(an & Hn) Hi]]; rewrite Hn; run; [reflexivity |].
    rewrite Hi. run. reflexivity.
Qed.

(** X6. The names of the policies are printed by a list comprehension,
    which reads the name of every listed policy: a policy that cannot
    be subscripted by [name], anywhere in the listing (after a policy
    named [Public Access] too), ends [main] with the exception after
    the two listing GETs, before the policy is looked up: nothing is
    written. *)
Theorem every_policy_name_is_read
    s0 s1 s2 v1 v2 before a after an ai pbefore p pafter e :
  answers s0 list_apps_request v1 s1 ->
  Py.subscript v1 "result" = Ret (PList (before ++ a :: after)%list) ->
  Forall (other "domain" "api.raydoug.com") before ->
  named "domain" "api.raydoug.com" a ->
  Py.subscript a "name" = Ret an ->
  Py.subscript a "id" = Ret ai ->
  answers s1 (list_policies_request ai) v2 s2 ->
  Py.subscript v2 "result" = Ret (PList (pbefore ++ p :: pafter)%list) ->
  Forall (has_key "name") pbefore ->
  Py.subscript p "name" = Raise e ->
  main (start s0)
  = (Raise e,
     mkWorld s2
       ["--- Enabling Public Access for api.raydoug.com ---";
        "Found App: " ++ Py.str an ++ " (" ++ Py.str ai ++ ")"]
       [list_apps_request; list_policies_request ai])
  /\ filter is_write (calls (snd (main (start s0)))) = [].
Proof.
  intros Hget Hres Hb Ha Han Hai Hget2 Hres2 Hpb Hp.
  assert (E : main (start s0)
              = (Raise e,
                 mkWorld s2
                   ["--- Enabling Public Access for api.raydoug.com ---";
                    "Found App: " ++ Py.str an ++ " (" ++ Py.str ai ++ ")"]
                   [list_apps_request; list_policies_request ai])).
  { unfold main, start. run. run_request Hget. rewrite Hres. run.
    unfold next_match at 1. cbn [Py.iter]. rewrite (next_in_first _ _ _ _ _ Hb Ha).
    run. rewrite (named_truthy _ _ _ Ha). cbn [negb].
    rewrite Han. run. rewrite Hai. run. run_request Hget2. rewrite Hres2. run.
    unfold collect. cbn [Py.iter]. rewrite (collect_in_raises _ _ _ _ _ Hpb Hp).
    run. reflexivity. }
  split; [exact E |]. rewrite E. cbn [snd calls filter].
  unfold list_apps_request, list_policies_request, is_write.
  rewrite !req_method_build. reflexivity.
Qed.

End EnablerEdges.

(** ** Both scripts: answers that are no listing, and no answer *)

Section BothScripts.

Context {svc : Service} {lib : PyLib} {cred : Credentials}.

(** X7. A normal answer to the first listing that holds no listing ends
    either script with an uncaught exception right after that call:
    the one of the subscript when the document has no [result] member
    ([KeyError]) or is no object ([TypeError]), the one of the
    iteration when [result] cannot be iterated over ([null], a number:
    [TypeError]). *)
Theorem answer_without_listing_ends_the_run :
  (forall s0 s1 v e,
     answers s0 list_apps_request v s1 ->
     Py.subscript v "result" = Raise e
     \/ (exists apps, Py.subscript v "result" = Ret apps /\ Py.iter apps = Raise e) ->
     EnablePublicApi.main (start s0)
     = (Raise e,
        mkWorld s1 ["--- Enabling Public Access for api.raydoug.com ---"]
                [list_apps_request]))
  /\ (forall s0 s1 v e,
        answers s0 (get_request BASE_URL) v s1 ->
        Py.subscript v "result" = Raise e
        \/ (exists apps, Py.subscript v "result" = Ret apps /\ Py.iter apps = Raise e) ->
        FixZeroTrust.main (start s0)
        = (Raise e,
           mkWorld s1 ["--- 1. Creating/Checking 'Supabase Studio' App ---"]
                   [get_request BASE_URL])).
Proof.
  split.
  - intros s0 s1 v e Hget Hbad. unfold EnablePublicApi.main, start. run.
    run_request Hget. destruct Hbad as [Hr | (apps & Hr & Hi)]; rewrite Hr; run.
    + reflexivity.
    + unfold next_match. rewrite Hi. run. reflexivity.
  - intros s0 s1 v e Hget Hbad.
    unfold FixZeroTrust.main, FixZeroTrust.phase1, FixZeroTrust.ensure_app, start.
    run. run_request Hget. destruct Hbad as [Hr | (apps & Hr & Hi)]; rewrite Hr; run.
    + reflexivity.
    + unfold next_match. rewrite Hi. run. reflexivity.
Qed.

(** X8. Neither [main] catches what [request] raises.  When the service
    cannot be reached for the first listing, either script ends with
    the [URLError] after printing its first line only.  When it cannot
    be reached for the write of the enabler, the run ends with the
    [URLError] and the success line is not printed. *)
Theorem transport_failure_ends_the_run :
  (forall s0 s1 reason,
     unreachable s0 list_apps_request reason s1 ->
     EnablePublicApi.main (start s0)
     = (Raise (URLError reason),
        mkWorld s1 ["--- Enabling Public Access for api.raydoug.com ---"]
                [list_apps_request]))
  /\ (forall s0 s1 reason,
        unreachable s0 (get_request BASE_URL) reason s1 ->
        FixZeroTrust.main (start s0)
        = (Raise (URLError reason),
           mkWorld s1 ["--- 1. Creating/Checking 'Supabase Studio' App ---"]
                   [get_request BASE_URL]))
  /\ (forall s0 s1 s2 s3 v1 v2 before a after an ai policies reason,
        answers s0 list_apps_request v1 s1 ->
        Py.subscript v1 "result" = Ret (PList (before ++ a :: after)%list) ->
        Forall (other "domain" "api.raydoug.com") before ->
        named "domain" "api.raydoug.com" a ->
        Py.subscript a "name" = Ret an ->
        Py.subscript a "id" = Ret ai ->
        answers s1 (list_policies_request ai) v2 s2 ->
        Py.subscript v2 "result" = Ret (PList policies) ->
        Forall (other "name" "Public Access") policies ->
        unreachable s2 (post_request ai) reason s3 ->
        exists names,
          collect_in "name" policies = Ret names
          /\ EnablePublicApi.main (start s0)
             = (Raise (URLError reason),
                mkWorld s3
                  ["--- Enabling Public Access for api.raydoug.com ---";
                   "Found App: " ++ Py.str an ++ " (" ++ Py.str ai ++ ")";
                   "Current Policies: " ++ Py.repr (PList names);
                   "Creating 'Public Access' policy..."]
                  [list_apps_request; list_policies_request ai; post_request ai])).
Proof.
  split; [| split].
  - intros s0 s1 reason H. unfold EnablePublicApi.main, start. run.
    run_request H. reflexivity.
  - intros s0 s1 reason H.
    unfold FixZeroTrust.main, FixZeroTrust.phase1, FixZeroTrust.ensure_app, start.
    run. run_request H. reflexivity.
  - intros s0 s1 s2 s3 v1 v2 before a after an ai policies reason
           Hget Hres Hb Ha Han Hai Hget2 Hres2 Hnone Hpost.
    destruct (main_reaches_upsert _ _ _ _ _ _ _ _ _ _ _
                Hget Hres Hb Ha Han Hai Hget2 Hres2 (others_have_key _ _ _ Hnone))
      as (names & Hc & E).
    exists names. split; [exact Hc |]. rewrite E.
    rewrite (bind_cong _ _ _ _ _ (upsert_missing _ _ _ _ Hai Hnone)).
    run. run_request Hpost. reflexivity.
Qed.

End BothScripts.

(** ** [fix_zero_trust.py]: the other paths *)

Section FixerEdges.

Context {svc : Service} {lib : PyLib} {cred : Credentials}.

Import FixZeroTrust.

Lemma eq_str_inv x lit : Py.eq_str x lit = true -> x = PStr lit.
Proof.
  destruct x; simpl; try discriminate. intros H. apply String.eqb_eq in H.
  rewrite H. reflexivity.
Qed.

Lemma eq_str_not_string x lit : (forall s, x <> PStr s) -> Py.eq_str x lit = false.
Proof. intros H. destruct x; try reflexivity. exfalso. exact (H s eq_refl). Qed.

Lemma lower_not_string x : (forall s, x <> PStr s) -> Py.lower x = Raise AttributeError.
Proof. intros H. destruct x; try reflexivity. exfalso. exact (H s eq_refl). Qed.


(** X10. For a policy with the stale name the loop body prints the
    DELETE line and sends one DELETE, without a body, whatever becomes
    of it.  What [request] returns is not looked at: whenever it
    returns (a normal answer holding a JSON document, or an error
    status with a UTF-8 body, after the error line of [request]), the
    body returns normally and the loop goes on with the next policy.
    Whenever it raises (the service cannot be reached, or the body of
    the answer cannot be decoded: an answer without a body, say), the
    loop ends with that exception and the policies that follow are not
    visited. *)
Theorem delete_answer_is_ignored (app policy ai pid : pyval) (w : world) :
  named "name" "Macbook dual-stack Bypass" policy ->
  Py.subscript app "id" = Ret ai ->
  Py.subscript policy "id" = Ret pid ->
  let line :=
    "  [DELETE] Found IP bypass policy 'Macbook dual-stack Bypass' - Deleting..." in
  let sent := (calls w ++ [delete_request ai pid])%list in
  let w1 := mkWorld (remote w) (stdout w ++ [line])%list (calls w) in
  req_data (delete_request ai pid) = None
  /\ calls (snd (cleanup_policy app policy w)) = sent
  /\ (forall x w' rest,
        request "DELETE" (policy_url ai pid) PNone w1 = (Ret x, w') ->
        cleanup_policy app policy w = (Ret tt, w')
        /\ for_each (policy :: rest) (cleanup_policy app) w
           = for_each rest (cleanup_policy app) w')
  /\ (forall e w' rest,
        request "DELETE" (policy_url ai pid) PNone w1 = (Raise e, w') ->
        for_each (policy :: rest) (cleanup_policy app) w = (Raise e, w'))
  /\ (forall v s' rest,
        answers (remote w) (delete_request ai pid) v s' ->
        cleanup_policy app policy w
        = (Ret tt, mkWorld s' (stdout w ++ [line])%list sent)
        /\ for_each (policy :: rest) (cleanup_policy app) w
           = for_each rest (cleanup_policy app)
               (mkWorld s' (stdout w ++ [line])%list sent))
  /\ (forall text s' rest,
        refuses (remote w) (delete_request ai pid) text s' ->
        let lines :=
          (stdout w
           ++ [line; ("Error DELETE " ++ policy_url ai pid ++ ": " ++ text)%string])%list in
        cleanup_policy app policy w = (Ret tt, mkWorld s' lines sent)
        /\ for_each (policy :: rest) (cleanup_policy app) w
           = for_each rest (cleanup_policy app) (mkWorld s' lines sent))
  /\ (forall reason s' rest,
        unreachable (remote w) (delete_request ai pid) reason s' ->
        for_each (policy :: rest) (cleanup_policy app) w
        = (Raise (URLError reason), mkWorld s' (stdout w ++ [line])%list sent))
  /\ (forall body text s' rest,
        urlopen (delete_request ai pid) unverified_context (remote w)
        = (Response body, s') ->
        utf8_decode body = Some text -> json_loads text = None ->
        for_each (policy :: rest) (cleanup_policy app) w
        = (Raise JSONDecodeError, mkWorld s' (stdout w ++ [line])%list sent)).
Proof.
  intros (x & Hx & Ex) Hai Hpid line sent w1.
  apply eq_str_inv in Ex. subst x.
  assert (P : cleanup_policy app policy w
              = bind (request "DELETE" (policy_url ai pid) PNone) (fun _ => ret tt) w1).
  { unfold cleanup_policy. rewrite Hx. run. cbn [Py.eq_str].
    unfold stale_name. rewrite String.eqb_refl. run.
    rewrite Hai. run. rewrite Hpid. run. reflexivity. }
  assert (Goes : forall x w' rest,
             request "DELETE" (policy_url ai pid) PNone w1 = (Ret x, w') ->
             cleanup_policy app policy w = (Ret tt, w')
             /\ for_each (policy :: rest) (cleanup_policy app) w
                = for_each rest (cleanup_policy app) w').
  { intros x w' rest H.
    assert (E : cleanup_policy app policy w = (Ret tt, w')).
    { rewrite P. rewrite (bind_ret_eq _ _ _ _ _ H). reflexivity. }
    split; [exact E |]. cbn [for_each]. rewrite (bind_ret_eq _ _ _ _ _ E).
    reflexivity. }
  assert (Ends : forall e w' rest,
             request "DELETE" (policy_url ai pid) PNone w1 = (Raise e, w') ->
             for_each (policy :: rest) (cleanup_policy app) w = (Raise e, w')).
  { intros e w' rest H. cbn [for_each]. rewrite (bind_cong _ _ _ _ _ P).
    rewrite bind_assoc. rewrite (bind_raise_eq _ _ _ _ _ H). reflexivity. }
  split; [reflexivity |]. split.
  { rewrite P. rewrite calls_after_request; reflexivity. }
  split; [exact Goes |]. split; [exact Ends |].
  split; [| split; [| split]].
  - intros v s' rest H. apply (Goes v).
    exact (request_answer "DELETE" (policy_url ai pid) PNone w1 v s' H).
  - intros text s' rest H lines. apply (Goes PNone).
    rewrite (request_refused "DELETE" (policy_url ai pid) PNone w1 text s' H).
    unfold lines, w1. cbn [stdout calls]. rewrite <- app_assoc. reflexivity.
  - intros reason s' rest H. apply Ends.
    exact (request_unreachable "DELETE" (policy_url ai pid) PNone w1 reason s' H).
  - intros body text s' rest H Hd Hj. apply Ends.
    unfold request, bind, do_urlopen. cbn [remote w1].
    unfold delete_request in H. rewrite H. simpl. rewrite Hd, Hj. reflexivity.
Qed.

(** X11. The cleanup loop calls [lower()] on the name of every policy
    that does not have the stale name, so a name that is no string
    ([null], a number) ends the loop with an uncaught
    [AttributeError], whatever policies follow; a policy that cannot be
    subscripted by [name] ends it with the exception of the subscript.
    The lookups by name ([next], [any]) only compare: for them such a
    name is no match and they go on with the next entry. *)
Theorem policy_name_must_be_text (app policy x : pyval) (w : world) :
  (Py.subscript policy "name" = Ret x -> (forall s, x <> PStr s) ->
   cleanup_policy app policy w = (Raise AttributeError, w)
   /\ (forall rest,
         for_each (policy :: rest) (cleanup_policy app) w = (Raise AttributeError, w))
   /\ (forall lit rest,
         next_match "name" lit (PList (policy :: rest))
         = next_match "name" lit (PList rest)
         /\ any_match "name" lit (PList (policy :: rest))
            = any_match "name" lit (PList rest)))
  /\ (forall e rest,
        Py.subscript policy "name" = Raise e ->
        for_each (policy :: rest) (cleanup_policy app) w = (Raise e, w)).
Proof.
  split.
  - intros Hx Hns.
    assert (E : cleanup_policy app policy w = (Raise AttributeError, w)).
    { unfold cleanup_policy. rewrite Hx. run.
      rewrite (eq_str_not_string _ _ Hns). unfold looks_like_ip_bypass.
      run. rewrite Hx. run. rewrite (lower_not_string _ Hns). run. reflexivity. }
    split; [exact E |]. split.
    + intros rest. cbn [for_each]. rewrite (bind_raise_eq _ _ _ _ _ E). reflexivity.
    + intros lit rest. unfold next_match, any_match. cbn [Py.iter next_in any_in].
      rewrite Hx, (eq_str_not_string _ _ Hns). split; reflexivity.
  - intros e rest He. cbn [for_each]. unfold cleanup_policy. rewrite He. run.
    reflexivity.
Qed.

Lemma cleanup_policy_other_text app policy name w :
  Py.subscript policy "name" = Ret (PStr name) ->
  name <> "Macbook dual-stack Bypass" ->
  cleanup_policy app policy w = (Ret tt, w).
Proof.
  intros Hn Hne. unfold cleanup_policy. rewrite Hn. run.
  assert (E : Py.eq_str (PStr name) stale_name = false).
  { simpl. apply String.eqb_neq. exact Hne. }
  rewrite E. unfold looks_like_ip_bypass. run. rewrite Hn. run.
  cbn [Py.lower]. run.
  destruct (Py.contains "bypass" (Py.lower_string name)); run.
  - cbn [Py.lower]. run.
    destruct (Py.contains "ip" (Py.lower_string name)); reflexivity.
  - reflexivity.
Qed.

Lemma for_each_other_text app policies w :
  Forall (fun p => exists name,
            Py.subscript p "name" = Ret (PStr name)
            /\ name <> "Macbook dual-stack Bypass") policies ->
  for_each policies (cleanup_policy app) w = (Ret tt, w).
Proof.
  induction 1 as [| p l (name & Hp & Hne) _ IH]; [reflexivity |].
  cbn [for_each].
  rewrite (bind_ret_eq _ _ _ _ _ (cleanup_policy_other_text _ _ _ _ Hp Hne)).
  exact IH.
Qed.

(** X12. An application none of whose listed policies has the stale
    name (their names being strings) is only listed: the outer loop
    body prints its line, sends the one GET and returns, whatever the
    number of policies (none included) and whatever their names say
    about [bypass] or [ip]. *)
Theorem clean_application_is_only_listed
    (app an ad ai v : pyval) (policies : list pyval) (w : world) (s' : srv_state) :
  Py.subscript app "name" = Ret an ->
  Py.subscript app "domain" = Ret ad ->
  Py.subscript app "id" = Ret ai ->
  answers (remote w) (get_request (policies_url ai)) v s' ->
  Py.subscript v "result" = Ret (PList policies) ->
  Forall (fun p => exists name,
            Py.subscript p "name" = Ret (PStr name)
            /\ name <> "Macbook dual-stack Bypass") policies ->
  cleanup_app app w
  = (Ret tt,
     mkWorld s'
       (stdout w ++ [("Checking app: " ++ Py.str an ++ " (" ++ Py.str ad ++ ")")%string])%list
       (calls w ++ [get_request (policies_url ai)])%list).
Proof.
  intros Hn Hd Hi Hget Hres Hclean. unfold cleanup_app.
  rewrite Hn. run. rewrite Hd. run. rewrite Hi. run. run_request Hget.
  rewrite Hres. run. cbn [Py.iter]. run.
  apply for_each_other_text. exact Hclean.
Qed.

(** X13. On an account where an application with the studio domain is
    listed and its policies include one named [Allow Admins] and one
    named [Allow Service], the first phase only reads: two GETs, no
    POST, and the three lines below. *)
Theorem configured_account_is_only_read s0 s1 s2 v1 v2 before a after ai policies :
  answers s0 (get_request BASE_URL) v1 s1 ->
  Py.subscript v1 "result" = Ret (PList (before ++ a :: after)%list) ->
  Forall (other "domain" "studio.raydoug.com") before ->
  named "domain" "studio.raydoug.com" a ->
  Py.subscript a "id" = Ret ai ->
  answers s1 (get_request (policies_url ai)) v2 s2 ->
  Py.subscript v2 "result" = Ret policies ->
  any_match "name" "Allow Admins" policies = Ret true ->
  any_match "name" "Allow Service" policies = Ret true ->
  phase1 (start s0)
  = (Ret tt,
     mkWorld s2
       ["--- 1. Creating/Checking 'Supabase Studio' App ---";
        "Supabase Studio app already exists: " ++ Py.str ai;
        "Configuring policies for Supabase Studio..."]
       [get_request BASE_URL; get_request (policies_url ai)]).
Proof.
  intros Hget Hres Hb Ha Hai Hget2 Hres2 Hadm Hsvc.
  unfold phase1, ensure_app, start. run. run_request Hget. rewrite Hres. run.
  unfold next_match. cbn [Py.iter]. rewrite (next_in_first _ _ _ _ _ Hb Ha). run.
  rewrite (named_truthy _ _ _ Ha). cbn [negb]. rewrite Hai. run.
  unfold ensure_policies. run. rewrite Hai. run. run_request Hget2.
  rewrite Hres2. run. unfold ensure_policy. rewrite Hadm. run. rewrite Hsvc. run.
  reflexivity.
Qed.

(** X14. When the listing of the policies of the studio application
    holds neither name, [Allow Admins] is posted first, each policy
    with its own document, and both decisions are taken on the one
    listing made before.  The answer to the first POST is not looked
    at: when it gets an HTTP answer (normal, or an error status), the
    second POST is sent too, whatever becomes of that one, and when
    the second gets an HTTP answer as well the step returns.  When the
    first POST raises (the service cannot be reached, or the body of
    the answer cannot be decoded), the step ends with that exception
    and the second POST is not sent. *)
Theorem both_policies_are_added
    (studio_app ai v : pyval) (policies : list pyval) (w : world)
    (s1 : srv_state) :
  Py.subscript studio_app "id" = Ret ai ->
  answers (remote w) (get_request (policies_url ai)) v s1 ->
  Py.subscript v "result" = Ret (PList policies) ->
  Forall (other "name" "Allow Admins") policies ->
  Forall (other "name" "Allow Service") policies ->
  let w1 :=
    mkWorld s1
      (stdout w ++ ["Configuring policies for Supabase Studio...";
                    "Adding 'Allow Admins' policy..."])%list
      (calls w ++ [get_request (policies_url ai)])%list in
  (forall s2,
     responds s1 (create_policy_request ai allow_admins) s2 ->
     calls (snd (ensure_policies studio_app w))
     = (calls w ++ [get_request (policies_url ai);
                    create_policy_request ai allow_admins;
                    create_policy_request ai allow_service])%list)
  /\ (forall s2 s3,
        responds s1 (create_policy_request ai allow_admins) s2 ->
        responds s2 (create_policy_request ai allow_service) s3 ->
        fst (ensure_policies studio_app w) = Ret tt
        /\ remote (snd (ensure_policies studio_app w)) = s3)
  /\ (forall e w2,
        request "POST" (policies_url ai) allow_admins w1 = (Raise e, w2) ->
        ensure_policies studio_app w = (Raise e, w2)
        /\ calls w2
           = (calls w ++ [get_request (policies_url ai);
                          create_policy_request ai allow_admins])%list)
  /\ req_data (create_policy_request ai allow_admins)
     = Some (utf8_encode
               (json_dumps
                  (PDict [("name", PStr "Allow Admins");
                          ("decision", PStr "allow");
                          ("include",
                           PList [PDict [("group",
                                          PDict [("id", PStr ADMIN_GROUP_ID)])]])])))
  /\ req_data (create_policy_request ai allow_service)
     = Some (utf8_encode
               (json_dumps
                  (PDict [("name", PStr "Allow Service");
                          ("decision", PStr "allow");
                          ("include",
                           PList [PDict [("service_token",
                                          PDict [("token_id",
                                                  PStr SERVICE_TOKEN_ID)])]])]))).
Proof.
  intros Hai Hget Hres Hadm Hsvc w1.
  assert (A1 : any_match "name" "Allow Admins" (PList policies) = Ret false).
  { unfold any_match. cbn [Py.iter]. apply any_in_false. exact Hadm. }
  assert (A2 : any_match "name" "Allow Service" (PList policies) = Ret false).
  { unfold any_match. cbn [Py.iter]. apply any_in_false. exact Hsvc. }
  split; [| split; [| split; [| split; reflexivity]]].
  - intros s2 H1.
    rewrite (ensure_policies_calls _ _ _ _ _ _ _ _ s2 Hai Hget Hres A1 A2 (fun _ => H1)).
    reflexivity.
  - intros s2 s3 H1 H2.
    unfold ensure_policies. run. rewrite Hai. run. run_request Hget.
    rewrite Hres. run.
    lazymatch goal with
    | |- fst (bind _ _ ?w0) = _ /\ _ =>
        destruct (ensure_policy_returns studio_app ai (PList policies) "Allow Admins"
                    allow_admins false w0 s2 Hai A1 (fun _ => H1))
          as (w' & E & _ & R)
    end.
    rewrite (bind_ret_eq _ _ _ _ _ E).
    assert (H2' : responds (remote w') (create_policy_request ai allow_service) s3)
      by (rewrite R; exact H2).
    destruct (ensure_policy_returns studio_app ai (PList policies) "Allow Service"
                allow_service false w' s3 Hai A2 (fun _ => H2'))
      as (w'' & E2 & _ & R2).
    rewrite E2. split; [reflexivity | exact R2].
  - intros e w2 H.
    assert (E : ensure_policies studio_app w = (Raise e, w2)).
    { unfold ensure_policies. run. rewrite Hai. run. run_request Hget.
      rewrite Hres. run. unfold ensure_policy at 1. rewrite A1. run.
      rewrite Hai. run. rewrite <- app_assoc. cbn [List.app].
      exact (bind_raise_eq _ _ _ _ _ H). }
    split; [exact E |].
    destruct (request_calls "POST" (policies_url ai) allow_admins w1) as [C _].
    rewrite H in C. cbn [snd] in C. rewrite C. unfold w1. cbn [calls].
    rewrite <- app_assoc. reflexivity.
Qed.

End FixerEdges.

(** ** How many calls, and of which kind, a run can make *)

Section Bounds.

Context {svc : Service} {lib : PyLib} {cred : Credentials}.

Lemma most_quiet {A} f n (m : M A) :
  (forall w, calls (snd (m w)) = calls w) -> issues_at_most f n m.
Proof.
  intros H w. exists []. rewrite app_nil_r. split; [apply H | apply Nat.le_0_l].
Qed.

Lemma most_ret {A} f n (a : A) : issues_at_most f n (ret a).
Proof. apply most_quiet. reflexivity. Qed.

Lemma most_lift {A} f n (r : result A) : issues_at_most f n (lift r).
Proof. apply most_quiet. reflexivity. Qed.

Lemma most_print f n line : issues_at_most f n (print line).
Proof. apply most_quiet. reflexivity. Qed.

Lemma most_request f n m u d : issues_at_most f (S n) (request m u d).
Proof.
  intros w. exists [build_request m u d]. split; [apply request_calls |].
  cbn [filter]. destruct (f _); cbn [List.length]; lia.
Qed.

Lemma most_request_skip f n m u d :
  f (build_request m u d) = false -> issues_at_most f n (request m u d).
Proof.
  intros H w. exists [build_request m u d]. split; [apply request_calls |].
  cbn [filter]. rewrite H. apply Nat.le_0_l.
Qed.

Lemma most_bind {A B} f n1 n2 (m : M A) (k : A -> M B) :
  issues_at_most f n1 m -> (forall a, issues_at_most f n2 (k a)) ->
  issues_at_most f (n1 + n2) (bind m k).
Proof.
  intros Hm Hk w. destruct (Hm w) as (l1 & E1 & L1). unfold bind.
  destruct (m w) as [[a | e] w1]; simpl in E1.
  - destruct (Hk a w1) as (l2 & E2 & L2). exists (l1 ++ l2)%list.
    rewrite E2, E1, app_assoc. split; [reflexivity |].
    rewrite filter_app, length_app. lia.
  - exists l1. split; [exact E1 | lia].
Qed.

Lemma most_then {A B} f n (m : M A) (k : A -> M B) :
  issues_at_most f 0 m -> (forall a, issues_at_most f n (k a)) ->
  issues_at_most f n (bind m k).
Proof. intros Hm Hk. exact (most_bind f 0 n m k Hm Hk). Qed.

Lemma most_for_each {A} f (l : list A) (body : A -> M unit) :
  (forall x, issues_at_most f 0 (body x)) -> issues_at_most f 0 (for_each l body).
Proof.
  intros Hb. induction l as [| x l IH]; cbn [for_each].
  - apply most_ret.
  - apply most_then; [apply Hb | intros _; exact IH].
Qed.

Lemma prefix_base_url rest : String.prefix BASE_URL (BASE_URL ++ rest) = true.
Proof. apply prefix_app. Qed.

Lemma prefix_base_url_itself : String.prefix BASE_URL BASE_URL = true.
Proof. reflexivity. Qed.

End Bounds.

(** Steps that spend nothing of the bound: everything but a request
    that counts. *)
Ltac most_step :=
  lazymatch goal with
  | |- issues_at_most _ _ (bind (request _ _ _) _) =>
      apply most_then;
      [apply most_request_skip; unfold is_write, is_post;
       rewrite req_method_build; reflexivity | intro]
  | |- issues_at_most _ _ (bind (print _) _) => apply most_then; [apply most_print | intro]
  | |- issues_at_most _ _ (bind (lift _) _) => apply most_then; [apply most_lift | intro]
  | |- issues_at_most _ 0 (bind _ _) => apply most_then; [| intro]
  | |- issues_at_most _ _ (for_each _ _) => apply most_for_each; intro
  | |- issues_at_most _ _ (ret _) => apply most_ret
  | |- issues_at_most _ _ (lift _) => apply most_lift
  | |- issues_at_most _ _ (print _) => apply most_print
  | |- issues_at_most _ _ (request _ _ _) =>
      apply most_request_skip; unfold is_write, is_post;
      rewrite req_method_build; reflexivity
  | |- issues_at_most _ _ (if ?b then _ else _) => destruct b
  end.

Section ScriptBounds.

Context {svc : Service} {lib : PyLib} {cred : Credentials}.

(** X15. Whatever the service answers, from any world, a run of [main]
    of the enabler makes at most three requests, of which at most one
    is a write.  Each of them goes to a URL under [BASE_URL] with the
    headers of [HEADERS]; it is a GET without a body, or a PUT or POST
    whose body is the bypass-everyone document: the enabler never sends
    a DELETE, and never any other document. *)
Theorem enabler_writes_at_most_once :
  issues_at_most (fun _ => true) 3 EnablePublicApi.main
  /\ issues_at_most is_write 1 EnablePublicApi.main
  /\ only_calls
       (fun r =>
          (req_method r = "GET" /\ req_data r = None
           \/ (req_method r = "PUT" \/ req_method r = "POST")
              /\ req_data r
                 = Some (utf8_encode (json_dumps EnablePublicApi.bypass_everyone)))
          /\ req_headers r = HEADERS
          /\ String.prefix BASE_URL (req_url r) = true)
       EnablePublicApi.main.
Proof.
  split; [| split].
  - unfold EnablePublicApi.main, EnablePublicApi.upsert.
    apply most_then; [apply most_print | intros _].
    apply (most_bind _ 1 2); [apply most_request | intros r].
    apply most_then; [apply most_lift | intros apps].
    apply most_then; [apply most_lift | intros api_app].
    destruct (negb (Py.truthy api_app)); [apply most_print |].
    do 4 (apply most_then; [first [apply most_lift | apply most_print] | intro]).
    apply (most_bind _ 1 1); [apply most_request | intros r2].
    do 3 (apply most_then; [first [apply most_lift | apply most_print] | intro]).
    apply (most_bind _ 1 0); [| intros _; apply most_print].
    apply most_then; [apply most_lift | intros existing].
    destruct (Py.truthy existing);
      do 3 (try (apply most_then; [first [apply most_lift | apply most_print] | intro]));
      (apply (most_bind _ 1 0); [apply most_request | intros _; apply most_ret]).
  - unfold EnablePublicApi.main, EnablePublicApi.upsert.
    repeat most_step.
    apply (most_bind _ 1 0); [| intros _; apply most_print].
    do 2 most_step; repeat most_step;
      (apply (most_bind _ 1 0); [apply most_request | intros _; apply most_ret]).
  - unfold EnablePublicApi.main, EnablePublicApi.upsert.
    repeat only_calls_step;
      (split; [| split; [apply req_headers_build | rewrite req_url_build]]).
    all: try (left; split; [apply req_method_build | reflexivity]).
    all: try (right; split; [rewrite req_method_build; auto | reflexivity]).
    all: try apply prefix_base_url.
    all: unfold EnablePublicApi.policies_url, EnablePublicApi.policy_url;
      apply prefix_base_url.
Qed.

(** X16. Whatever the service answers, from any world, a run of [main]
    of the fixer sends at most three POSTs (the application and the two
    policies), all of them before the cleanup, which only sends GETs
    and DELETEs.  Every request goes to a URL under [BASE_URL] with the
    headers of [HEADERS]; it is a GET, a POST or a DELETE, and it
    carries a body exactly when it is a POST: the fixer never sends a
    PUT, so it never changes an application or a policy that exists. *)
Theorem fixer_creates_at_most_three :
  issues_at_most is_post 3 FixZeroTrust.main
  /\ issues_at_most is_post 0 FixZeroTrust.cleanup
  /\ only_calls (fun r => req_method r = "GET" \/ req_method r = "DELETE")
                FixZeroTrust.cleanup
  /\ only_calls
       (fun r =>
          (req_method r = "GET" /\ req_data r = None
           \/ req_method r = "POST" /\ req_data r <> None
           \/ req_method r = "DELETE" /\ req_data r = None)
          /\ req_headers r = HEADERS
          /\ String.prefix BASE_URL (req_url r) = true)
       FixZeroTrust.main.
Proof.
  assert (C : issues_at_most is_post 0 FixZeroTrust.cleanup).
  { unfold FixZeroTrust.cleanup, FixZeroTrust.cleanup_app,
      FixZeroTrust.cleanup_policy, FixZeroTrust.looks_like_ip_bypass.
    repeat most_step. }
  split; [| split; [exact C | split]].
  - unfold FixZeroTrust.main.
    apply (most_bind _ 3 0);
      [| intros _; apply most_then; [exact C | intros _; apply most_print]].
    unfold FixZeroTrust.phase1.
    apply (most_bind _ 1 2).
    + unfold FixZeroTrust.ensure_app. repeat most_step.
      apply (most_bind _ 1 0); [apply most_request | intros r].
      repeat most_step.
    + intros studio_app. unfold FixZeroTrust.ensure_policies. repeat most_step.
      apply (most_bind _ 1 1); [| intros _];
        unfold FixZeroTrust.ensure_policy;
        (repeat most_step;
         apply (most_bind _ 1 0); [apply most_request | intros _; apply most_ret]).
  - unfold FixZeroTrust.cleanup, FixZeroTrust.cleanup_app,
      FixZeroTrust.cleanup_policy, FixZeroTrust.looks_like_ip_bypass.
    repeat only_calls_step; rewrite req_method_build; auto.
  - unfold FixZeroTrust.main, FixZeroTrust.phase1, FixZeroTrust.ensure_app,
      FixZeroTrust.ensure_policies, FixZeroTrust.ensure_policy,
      FixZeroTrust.cleanup, FixZeroTrust.cleanup_app,
      FixZeroTrust.cleanup_policy, FixZeroTrust.looks_like_ip_bypass.
    repeat only_calls_step;
      (split; [| split; [apply req_headers_build | rewrite req_url_build]]).
    all: try (left; split; [apply req_method_build | reflexivity]).
    all: try (right; left; split; [apply req_method_build | discriminate]).
    all: try (right; right; split; [apply req_method_build | reflexivity]).
    all: try apply prefix_base_url_itself.
    all: try apply prefix_base_url.
    all: unfold FixZeroTrust.policies_url, FixZeroTrust.policy_url;
      apply prefix_base_url.
Qed.

End ScriptBounds.

(** ** Certificates *)

Section Unverified.

Context {State : Type} {lib : PyLib} {cred : Credentials}.

Variables f g : Request -> SSLContext -> State -> outcome * State.

Hypothesis alike : forall r s, f r unverified_context s = g r unverified_context s.

Lemma same_ret {A} (a : A) : same_run f g (ret a) (ret a).
Proof. intros w1 w2 H. split; [reflexivity | exact H]. Qed.

Lemma same_lift {A} (r : result A) : same_run f g (lift r) (lift r).
Proof. intros w1 w2 H. split; [reflexivity | exact H]. Qed.

Lemma same_print line : same_run f g (print line) (print line).
Proof.
  intros w1 w2 (Hr & Hs & Hc). split; [reflexivity |].
  unfold print, same_world. cbn [snd remote stdout calls]. rewrite Hs.
  repeat split; assumption.
Qed.

Lemma same_bind {A B} (m1 : M (svc := served_by f) A) (m2 : M (svc := served_by g) A)
    (k1 : A -> M (svc := served_by f) B) (k2 : A -> M (svc := served_by g) B) :
  same_run f g m1 m2 -> (forall a, same_run f g (k1 a) (k2 a)) ->
  same_run f g (bind m1 k1) (bind m2 k2).
Proof.
  intros Hm Hk w1 w2 H. destruct (Hm w1 w2 H) as (Hf & Hw). unfold bind.
  destruct (m1 w1) as [[a1 | e1] w1'], (m2 w2) as [[a2 | e2] w2'];
    cbn [fst snd] in Hf, Hw; try discriminate.
  - injection Hf as <-. apply Hk. exact Hw.
  - cbn [fst snd]. injection Hf as <-. split; [reflexivity | exact Hw].
Qed.

Lemma same_request m u d :
  same_run f g (request (svc := served_by f) m u d) (request (svc := served_by g) m u d).
Proof.
  intros w1 w2 (Hr & Hs & Hc). unfold request, bind, do_urlopen.
  cbn [urlopen served_by]. rewrite Hr, alike.
  destruct (g (build_request m u d) unverified_context (remote w2))
    as [[body | st body | reason] s]; cbn [fst snd].
  - destruct (utf8_decode body) as [text |]; [destruct (json_loads text) |];
      (split; [reflexivity |]); unfold same_world; cbn; rewrite Hs, Hc;
      repeat split.
  - destruct (utf8_decode body) as [text |];
      (split; [reflexivity |]); unfold same_world; cbn; rewrite Hs, Hc;
      repeat split.
  - split; [reflexivity |]. unfold same_world. cbn. rewrite Hs, Hc. repeat split.
Qed.

Lemma same_for_each {A} (l : list A)
    (b1 : A -> M (svc := served_by f) unit) (b2 : A -> M (svc := served_by g) unit) :
  (forall x, same_run f g (b1 x) (b2 x)) ->
  same_run f g (for_each l b1) (for_each l b2).
Proof.
  intros Hb. induction l as [| x l IH]; cbn [for_each].
  - apply same_ret.
  - apply same_bind; [apply Hb | intros _; exact IH].
Qed.

Ltac same_step :=
  lazymatch goal with
  | |- same_run _ _ (bind _ _) (bind _ _) => apply same_bind; [| intro]
  | |- same_run _ _ (ret _) _ => apply same_ret
  | |- same_run _ _ (lift _) _ => apply same_lift
  | |- same_run _ _ (print _) _ => apply same_print
  | |- same_run _ _ (request _ _ _) _ => apply same_request
  | |- same_run _ _ (for_each _ _) _ => apply same_for_each; intro
  | |- same_run _ _ (if ?b then _ else _) _ => destruct b
  end.

Lemma same_enabler :
  same_run f g (EnablePublicApi.main (svc := served_by f))
               (EnablePublicApi.main (svc := served_by g)).
Proof.
  unfold EnablePublicApi.main, EnablePublicApi.upsert. repeat same_step.
Qed.

Lemma same_fixer :
  same_run f g (FixZeroTrust.main (svc := served_by f))
               (FixZeroTrust.main (svc := served_by g)).
Proof.
  unfold FixZeroTrust.main, FixZeroTrust.phase1, FixZeroTrust.ensure_app,
    FixZeroTrust.ensure_policies, FixZeroTrust.ensure_policy,
    FixZeroTrust.cleanup, FixZeroTrust.cleanup_app,
    FixZeroTrust.cleanup_policy, FixZeroTrust.looks_like_ip_bypass.
  repeat same_step.
Qed.

End Unverified.

(** X17. Certificates are never checked.  Every call of [request] is
    made with a context whose host-name check is off and whose
    verification mode is [CERT_NONE], and with no other: two services
    that react alike to the requests made with that context cannot be
    told apart by [request] nor by a run of either script, whatever
    they do for a client that verifies.  A host with a certificate
    that does not verify is talked to like any other. *)
Theorem certificates_are_never_checked
    (State : Type) (lib : PyLib) (cred : Credentials)
    (f g : Request -> SSLContext -> State -> outcome * State) :
  (forall r s, f r (mkContext false CERT_NONE) s = g r (mkContext false CERT_NONE) s) ->
  (forall m u d,
     same_run f g (request (svc := served_by f) m u d)
                  (request (svc := served_by g) m u d))
  /\ same_run f g (EnablePublicApi.main (svc := served_by f))
                  (EnablePublicApi.main (svc := served_by g))
  /\ same_run f g (FixZeroTrust.main (svc := served_by f))
                  (FixZeroTrust.main (svc := served_by g)).
Proof.
  intros H. split; [| split].
  - intros m u d. apply same_request. exact H.
  - apply same_enabler. exact H.
  - apply same_fixer. exact H.
Qed.

(** * Worked examples *)

Module Examples.

Import AccessAPI Samples.

Ltac wf_by_computation :=
  split; cbn;
  repeat first [ apply NoDup_cons | apply NoDup_nil | apply Forall_cons
               | apply Forall_nil | split ];
  cbn; try reflexivity; try (intuition discriminate).

Lemma wf_s0 : Reference.wf s0.
Proof. wf_by_computation. Qed.

Lemma wf_s_open : Reference.wf s_open.
Proof. wf_by_computation. Qed.

(** The listings of the reference service, as [answers] facts. *)
Lemma sample_answer (s : state) (req : Request) (v : pyval) (s' : state) :
  step (lib := json_text) req unverified_context s = ok (lib := json_text) v s' ->
  answers (svc := service (lib := json_text)) (lib := json_text)
          s req (envelope v) s'.
Proof. exact (OnReference.answers_ok (codec := json_codec) req s s' v). Qed.

(** The scripted service hands out its answers in order. *)
Lemma scripted_answers (v : pyval) (rest : list outcome) (req : Request) :
  answers (svc := scripted) (lib := json_text) (reply v :: rest) req v rest.
Proof.
  exists (list_byte_of_string (Json.dumps v)), (Json.dumps v).
  split; [reflexivity |]. split.
  - cbn. rewrite string_of_list_byte_of_string. reflexivity.
  - apply JsonRoundTrip.loads_dumps_text.
Qed.

Lemma scripted_refuses (rest : list outcome) (req : Request) :
  refuses (svc := scripted) (lib := json_text) (denied :: rest) req "Forbidden" rest.
Proof. exists 403, (list_byte_of_string "Forbidden"). split; reflexivity. Qed.

Lemma www_not_api : other "domain" "api.raydoug.com" (app_json www_app).
Proof. exists (PStr "www.raydoug.com"). split; reflexivity. Qed.

Lemma www_not_studio : other "domain" "studio.raydoug.com" (app_json www_app).
Proof. exists (PStr "www.raydoug.com"). split; reflexivity. Qed.

Lemma api_is_named : named "domain" "api.raydoug.com" (app_json api_app).
Proof. exists (PStr "api.raydoug.com"). split; reflexivity. Qed.

Lemma office_not_public : other "name" "Public Access" (policy_json office).
Proof. exists (PStr "Office"). split; reflexivity. Qed.

(** C1, counterexample to the claim as stated: with a service that
    cannot be reached, the transport error is not turned into [None];
    [request] raises. *)
Lemma request_raises_on_transport_error :
  unreachable (svc := offline) tt
    (build_request (lib := json_text) (cred := cred) "GET" BASE_URL PNone)
    "Connection refused" tt
  /\ fst (request (svc := offline) (lib := json_text) (cred := cred)
            "GET" BASE_URL PNone (start (svc := offline) tt))
     = Raise (URLError "Connection refused")
  /\ fst (request (svc := offline) (lib := json_text) (cred := cred)
            "GET" BASE_URL PNone (start (svc := offline) tt))
     <> Ret PNone.
Proof. split; [reflexivity | split; [reflexivity | discriminate]]. Qed.

Lemma request_results_witness :
  fst (request (svc := forbidden) (lib := json_text) (cred := cred)
         "GET" BASE_URL PNone (start (svc := forbidden) tt))
  = Ret PNone
  /\ stdout (snd (request (svc := forbidden) (lib := json_text) (cred := cred)
                    "GET" BASE_URL PNone (start (svc := forbidden) tt)))
     = ["Error GET " ++ BASE_URL ++ ": {}"].
Proof.
  destruct (request_results (svc := forbidden) (lib := json_text) (cred := cred)
              "GET" BASE_URL PNone (start (svc := forbidden) tt)
              (list_byte_of_string "{}") tt) as [H _].
  destruct (H 403 "{}") as [E _].
  - reflexivity.
  - reflexivity.
  - rewrite E. split; reflexivity.
Defined.

Lemma falsy_payload_witness :
  req_data (build_request (lib := json_text) (cred := cred) "POST" BASE_URL (PDict []))
  = None.
Proof.
  exact (proj1 (proj2 (falsy_payload_sends_no_body
                         (svc := offline) (lib := json_text) (cred := cred)
                         "POST" BASE_URL))).
Defined.

Lemma wf_s_without : Reference.wf s_without.
Proof. wf_by_computation. Qed.

Lemma enabler_is_idempotent_witness :
  fst (Reference.enabler (codec := json_codec) (cred := cred) s0) = Ret tt
  /\ remote (snd (Reference.enabler (codec := json_codec) (cred := cred)
                    (remote (snd (Reference.enabler (codec := json_codec)
                                    (cred := cred) s0)))))
     = remote (snd (Reference.enabler (codec := json_codec) (cred := cred) s0)).
Proof.
  pose proof (OnReference.enabler_is_idempotent (codec := json_codec) (cred := cred)
                s0 api_app wf_s0 eq_refl) as H.
  cbv zeta in H. destruct H as (R1 & _ & _ & S2). split; [exact R1 | exact S2].
Defined.

Lemma existing_policy_witness :
  calls (snd (EnablePublicApi.main (svc := api) (lib := json_text) (cred := cred)
                (start (svc := api) s_open)))
  = [list_apps_request (lib := json_text) (cred := cred);
     list_policies_request (lib := json_text) (cred := cred) (PStr "a1");
     put_request (lib := json_text) (cred := cred) (PStr "a1") (PStr "p4")].
Proof.
  refine (proj1 (proj1 (existing_policy_updated_in_place (cred := cred))
                   api json_text
                   s_open s_open s_open
                   (envelope (PList (map app_json s_open)))
                   (envelope (PList (map policy_json (app_policies api_open))))
                   [app_json www_app] (app_json api_open) []
                   (PStr "API") (PStr "a1")
                   [policy_json office] (policy_json open_rule) [policy_json late_rule]
                   (PStr "p4") _ _ _ _ _ _ _ _ _ _ _ _)).
  - apply sample_answer. reflexivity.
  - reflexivity.
  - repeat constructor. exists (PStr "www.raydoug.com"). split; reflexivity.
  - exists (PStr "api.raydoug.com"). split; reflexivity.
  - reflexivity.
  - reflexivity.
  - apply sample_answer. reflexivity.
  - reflexivity.
  - repeat constructor. exists (PStr "Office"). split; reflexivity.
  - exists (PStr "Public Access"). split; reflexivity.
  - repeat constructor. exists (PStr "Public Access"). reflexivity.
  - reflexivity.
Defined.

Lemma missing_app_witness :
  filter is_write
    (calls (snd (EnablePublicApi.main (svc := api) (lib := json_text) (cred := cred)
                   (start (svc := api) s_without))))
  = [].
Proof.
  refine (proj2 (missing_app_no_writes
                   (svc := api) (lib := json_text) (cred := cred)
                   s_without s_without
                   (envelope (PList (map app_json s_without)))
                   (map app_json s_without) _ _ _)).
  - apply sample_answer. reflexivity.
  - reflexivity.
  - repeat constructor. exists (PStr "www.raydoug.com"). split; reflexivity.
Defined.

Lemma null_listing_witness :
  fst (EnablePublicApi.main (svc := forbidden) (lib := json_text) (cred := cred)
         (start (svc := forbidden) tt))
  = Raise TypeError.
Proof.
  rewrite (proj1 (proj2 (null_listing_is_not_guarded
                           (svc := forbidden) (lib := json_text) (cred := cred)))
             tt tt "{}").
  - reflexivity.
  - exists 403, (list_byte_of_string "{}"). split; reflexivity.
Defined.

Lemma secondary_branch_witness :
  FixZeroTrust.cleanup_policy (svc := offline) (lib := json_text) (cred := cred)
    (app_json api_app) (policy_json other_bypass) (start (svc := offline) tt)
  = (Ret tt, start (svc := offline) tt).
Proof.
  refine (proj2 (secondary_branch_is_noop
                   (svc := offline) (lib := json_text) (cred := cred)
                   (app_json api_app) (policy_json other_bypass) "Office IP Bypass"
                   (start (svc := offline) tt) _ _ _ _)).
  - reflexivity.
  - reflexivity.
  - reflexivity.
  - discriminate.
Defined.

Lemma first_match_witness :
  calls (snd (EnablePublicApi.main (svc := scripted) (lib := json_text) (cred := cred)
                (start (svc := scripted)
                   [reply (envelope (PList [app_json www_app; app_json api_open;
                                            app_json api_twin]));
                    reply (envelope (PList [policy_json office; policy_json open_rule;
                                            policy_json late_rule]));
                    reply (envelope (policy_json open_rule))])))
  = [list_apps_request (lib := json_text) (cred := cred);
     list_policies_request (lib := json_text) (cred := cred) (PStr "a1");
     put_request (lib := json_text) (cred := cred) (PStr "a1") (PStr "p4")].
Proof.
  refine (proj1 (proj2 (lookups_take_first_match
                          (svc := scripted) (lib := json_text) (cred := cred)))
            [reply (envelope (PList [app_json www_app; app_json api_open;
                                     app_json api_twin]));
             reply (envelope (PList [policy_json office; policy_json open_rule;
                                     policy_json late_rule]));
             reply (envelope (policy_json open_rule))]
            [reply (envelope (PList [policy_json office; policy_json open_rule;
                                     policy_json late_rule]));
             reply (envelope (policy_json open_rule))]
            [reply (envelope (policy_json open_rule))]
            (envelope (PList [app_json www_app; app_json api_open; app_json api_twin]))
            (envelope (PList [policy_json office; policy_json open_rule;
                              policy_json late_rule]))
            [app_json www_app] (app_json api_open) [app_json api_twin]
            (PStr "API") (PStr "a1")
            [policy_json office] (policy_json open_rule) [policy_json late_rule]
            (PStr "p4") _ _ _ _ _ _ _ _ _ _ _ _).
  - apply scripted_answers.
  - reflexivity.
  - repeat constructor. exact www_not_api.
  - exists (PStr "api.raydoug.com"). split; reflexivity.
  - reflexivity.
  - reflexivity.
  - apply scripted_answers.
  - reflexivity.
  - repeat constructor. exact office_not_public.
  - exists (PStr "Public Access"). split; reflexivity.
  - repeat constructor. exists (PStr "Public Access"). reflexivity.
  - reflexivity.
Defined.

Lemma first_phase_witness :
  calls (snd (FixZeroTrust.phase1 (svc := scripted) (lib := json_text) (cred := cred)
                (start (svc := scripted)
                   [reply (envelope (PList [app_json www_app; app_json studio_new]));
                    reply (envelope (PList [policy_json service_rule]));
                    denied])))
  = [get_request (lib := json_text) (cred := cred) BASE_URL;
     get_request (lib := json_text) (cred := cred)
       (FixZeroTrust.policies_url (PStr "a3"));
     create_policy_request (lib := json_text) (cred := cred)
       (PStr "a3") FixZeroTrust.allow_admins]
  /\ Forall (fun r => req_method r = "GET" \/ req_method r = "DELETE")
       (calls (snd (Reference.fixer (codec := json_codec) (cred := cred)
                      (remote (snd (Reference.fixer (codec := json_codec)
                                      (cred := cred) s0)))))).
Proof.
  split.
  - refine (proj1 (proj1 (first_phase_creates_only_missing (cred := cred))
                     scripted json_text)
              [reply (envelope (PList [app_json www_app; app_json studio_new]));
               reply (envelope (PList [policy_json service_rule]));
               denied]
              [reply (envelope (PList [policy_json service_rule])); denied]
              [denied] []
              (envelope (PList [app_json www_app; app_json studio_new]))
              (envelope (PList [policy_json service_rule]))
              [app_json www_app] (app_json studio_new) [] (PStr "a3")
              (PList [policy_json service_rule]) false true
              _ _ _ _ _ _ _ _ _ _).
    + apply scripted_answers.
    + reflexivity.
    + repeat constructor. exact www_not_studio.
    + exists (PStr "studio.raydoug.com"). split; reflexivity.
    + reflexivity.
    + apply scripted_answers.
    + reflexivity.
    + reflexivity.
    + reflexivity.
    + intros _. right. exists "Forbidden". apply scripted_refuses.
  - pose proof (proj2 (first_phase_creates_only_missing (cred := cred))
                  json_codec s0 wf_s0) as H.
    cbv zeta in H. destruct H as (_ & _ & C & _). exact C.
Defined.


(** An answer without a body (to a DELETE, say) and an error page that
    is not UTF-8. *)
Lemma undecodable_body_witness :
  fst (request (svc := scripted) (lib := json_text) (cred := cred)
         "DELETE" BASE_URL PNone (start (svc := scripted) [no_content]))
  = Raise JSONDecodeError
  /\ fst (request (svc := scripted) (lib := ascii_text) (cred := cred)
            "GET" BASE_URL PNone
            (start (svc := scripted) [HTTPError 502 [Byte.xff]]))
     = Raise UnicodeDecodeError.
Proof.
  split.
  - rewrite (proj1 (undecodable_body_raises
                      (svc := scripted) (lib := json_text) (cred := cred)
                      "DELETE" BASE_URL PNone (start (svc := scripted) [no_content])
                      [] []) "");
      reflexivity.
  - rewrite (proj2 (proj2 (undecodable_body_raises
                             (svc := scripted) (lib := ascii_text) (cred := cred)
                             "GET" BASE_URL PNone
                             (start (svc := scripted) [HTTPError 502 [Byte.xff]])
                             [Byte.xff] [])) 502);
      reflexivity.
Defined.

Lemma missing_policy_witness :
  calls (snd (EnablePublicApi.main (svc := scripted) (lib := json_text) (cred := cred)
                (start (svc := scripted)
                   [reply (envelope (PList [app_json www_app; app_json api_app]));
                    reply (envelope (PList [policy_json office]));
                    reply (envelope (policy_json open_rule))])))
  = [list_apps_request (lib := json_text) (cred := cred);
     list_policies_request (lib := json_text) (cred := cred) (PStr "a1");
     post_request (lib := json_text) (cred := cred) (PStr "a1")].
Proof.
  refine (proj1 (missing_policy_is_created
                   (svc := scripted) (lib := json_text) (cred := cred)
                   [reply (envelope (PList [app_json www_app; app_json api_app]));
                    reply (envelope (PList [policy_json office]));
                    reply (envelope (policy_json open_rule))]
                   [reply (envelope (PList [policy_json office]));
                    reply (envelope (policy_json open_rule))]
                   [reply (envelope (policy_json open_rule))]
                   (envelope (PList [app_json www_app; app_json api_app]))
                   (envelope (PList [policy_json office]))
                   [app_json www_app] (app_json api_app) []
                   (PStr "API") (PStr "a1") [policy_json office]
                   _ _ _ _ _ _ _ _ _)).
  - apply scripted_answers.
  - reflexivity.
  - repeat constructor. exact www_not_api.
  - exact api_is_named.
  - reflexivity.
  - reflexivity.
  - apply scripted_answers.
  - reflexivity.
  - repeat constructor. exact office_not_public.
Defined.

Lemma refused_write_witness :
  fst (EnablePublicApi.main (svc := scripted) (lib := json_text) (cred := cred)
         (start (svc := scripted)
            [reply (envelope (PList [app_json www_app; app_json api_app]));
             reply (envelope (PList [policy_json office]));
             denied]))
  = Ret tt.
Proof.
  destruct (proj1 (proj2 (success_line_after_refused_write
                            (svc := scripted) (lib := json_text) (cred := cred)))
              [reply (envelope (PList [app_json www_app; app_json api_app]));
               reply (envelope (PList [policy_json office]));
               denied]
              [reply (envelope (PList [policy_json office])); denied]
              [denied] []
              (envelope (PList [app_json www_app; app_json api_app]))
              (envelope (PList [policy_json office]))
              [app_json www_app] (app_json api_app) []
              (PStr "API") (PStr "a1") [policy_json office] "Forbidden")
    as (names & _ & E).
  - apply scripted_answers.
  - reflexivity.
  - repeat constructor. exact www_not_api.
  - exact api_is_named.
  - reflexivity.
  - reflexivity.
  - apply scripted_answers.
  - reflexivity.
  - repeat constructor. exact office_not_public.
  - apply scripted_refuses.
  - rewrite E. reflexivity.
Defined.

Lemma unreadable_entry_witness :
  fst (EnablePublicApi.main (svc := scripted) (lib := json_text) (cred := cred)
         (start (svc := scripted)
            [reply (envelope (PList [app_json www_app; domainless; app_json api_app]))]))
  = Raise (KeyError "domain").
Proof.
  rewrite (proj1 (proj2 (unreadable_entry_ends_the_run
                           (svc := scripted) (lib := json_text) (cred := cred)))
             [reply (envelope (PList [app_json www_app; domainless; app_json api_app]))]
             []
             (envelope (PList [app_json www_app; domainless; app_json api_app]))
             [app_json www_app] domainless [app_json api_app] (KeyError "domain")).
  - reflexivity.
  - apply scripted_answers.
  - reflexivity.
  - repeat constructor. exact www_not_api.
  - reflexivity.
Defined.

Lemma policy_names_witness :
  fst (EnablePublicApi.main (svc := scripted) (lib := json_text) (cred := cred)
         (start (svc := scripted)
            [reply (envelope (PList [app_json www_app; app_json api_app]));
             reply (envelope (PList [policy_json open_rule; nameless]))]))
  = Raise (KeyError "name").
Proof.
  destruct (every_policy_name_is_read
              (svc := scripted) (lib := json_text) (cred := cred)
                    [reply (envelope (PList [app_json www_app; app_json api_app]));
                     reply (envelope (PList [policy_json open_rule; nameless]))]
                    [reply (envelope (PList [policy_json open_rule; nameless]))]
                    []
                    (envelope (PList [app_json www_app; app_json api_app]))
                    (envelope (PList [policy_json open_rule; nameless]))
                    [app_json www_app] (app_json api_app) []
                    (PStr "API") (PStr "a1")
                    [policy_json open_rule] nameless [] (KeyError "name"))
    as [E _].
  - apply scripted_answers.
  - reflexivity.
  - repeat constructor. exact www_not_api.
  - exact api_is_named.
  - reflexivity.
  - reflexivity.
  - apply scripted_answers.
  - reflexivity.
  - repeat constructor. exists (PStr "Public Access"). reflexivity.
  - reflexivity.
  - rewrite E. reflexivity.
Defined.

Lemma no_listing_witness :
  fst (FixZeroTrust.main (svc := scripted) (lib := json_text) (cred := cred)
         (start (svc := scripted) [reply (PDict [("success", PBool true)])]))
  = Raise (KeyError "result").
Proof.
  rewrite (proj2 (answer_without_listing_ends_the_run
                    (svc := scripted) (lib := json_text) (cred := cred))
             [reply (PDict [("success", PBool true)])] []
             (PDict [("success", PBool true)]) (KeyError "result")).
  - reflexivity.
  - apply scripted_answers.
  - left. reflexivity.
Defined.

Lemma transport_failure_witness :
  fst (FixZeroTrust.main (svc := offline) (lib := json_text) (cred := cred)
         (start (svc := offline) tt))
  = Raise (URLError "Connection refused").
Proof.
  rewrite (proj1 (proj2 (transport_failure_ends_the_run
                           (svc := offline) (lib := json_text) (cred := cred)))
             tt tt "Connection refused").
  - reflexivity.
  - reflexivity.
Defined.


Lemma refused_delete_witness :
  fst (FixZeroTrust.cleanup_policy (svc := scripted) (lib := json_text) (cred := cred)
         (app_json www_app) (policy_json stale) (start (svc := scripted) [denied]))
  = Ret tt
  /\ fst (for_each [policy_json stale; policy_json office]
            (FixZeroTrust.cleanup_policy (svc := scripted) (lib := json_text)
               (cred := cred) (app_json www_app))
            (start (svc := scripted) [no_content]))
     = Raise JSONDecodeError.
Proof.
  split.
  - pose proof (delete_answer_is_ignored
                  (svc := scripted) (lib := json_text) (cred := cred)
                  (app_json www_app) (policy_json stale) (PStr "a2") (PStr "p2")
                  (start (svc := scripted) [denied])) as H.
    destruct H as (_ & _ & _ & _ & _ & H & _).
    + exists (PStr "Macbook dual-stack Bypass"). split; reflexivity.
    + reflexivity.
    + reflexivity.
    + destruct (H "Forbidden" [] []) as [E _].
      * apply scripted_refuses.
      * rewrite E. reflexivity.
  - pose proof (delete_answer_is_ignored
                  (svc := scripted) (lib := json_text) (cred := cred)
                  (app_json www_app) (policy_json stale) (PStr "a2") (PStr "p2")
                  (start (svc := scripted) [no_content])) as H.
    destruct H as (_ & _ & _ & _ & _ & _ & _ & H).
    + exists (PStr "Macbook dual-stack Bypass"). split; reflexivity.
    + reflexivity.
    + reflexivity.
    + rewrite (H [] "" [] [policy_json office]); reflexivity.
Defined.

Lemma null_name_witness :
  FixZeroTrust.cleanup_policy (svc := offline) (lib := json_text) (cred := cred)
    (app_json api_app) null_named (start (svc := offline) tt)
  = (Raise AttributeError, start (svc := offline) tt).
Proof.
  refine (proj1 (proj1 (policy_name_must_be_text
                          (svc := offline) (lib := json_text) (cred := cred)
                          (app_json api_app) null_named PNone
                          (start (svc := offline) tt)) _ _)).
  - reflexivity.
  - discriminate.
Defined.

Lemma self_signed_witness :
  fst (EnablePublicApi.main (svc := served_by always_403) (lib := json_text)
         (cred := cred) (start (svc := served_by always_403) tt))
  = fst (EnablePublicApi.main (svc := served_by self_signed) (lib := json_text)
           (cred := cred) (start (svc := served_by self_signed) tt)).
Proof.
  refine (proj1 (proj1 (proj2 (certificates_are_never_checked
                                 unit json_text cred always_403 self_signed _))
                   (start (svc := served_by always_403) tt)
                   (start (svc := served_by self_signed) tt) _)).
  - reflexivity.
  - repeat split.
Defined.

Lemma clean_application_witness :
  fst (FixZeroTrust.cleanup_app (svc := scripted) (lib := json_text) (cred := cred)
         (app_json www_app)
         (start (svc := scripted)
            [reply (envelope (PList [policy_json office; policy_json other_bypass]))]))
  = Ret tt.
Proof.
  rewrite (clean_application_is_only_listed
             (svc := scripted) (lib := json_text) (cred := cred)
             (app_json www_app) (PStr "WWW") (PStr "www.raydoug.com") (PStr "a2")
             (envelope (PList [policy_json office; policy_json other_bypass]))
             [policy_json office; policy_json other_bypass]
             (start (svc := scripted)
                [reply (envelope (PList [policy_json office; policy_json other_bypass]))])
             []).
  - reflexivity.
  - reflexivity.
  - reflexivity.
  - reflexivity.
  - apply scripted_answers.
  - reflexivity.
  - repeat constructor.
    + exists "Office". split; [reflexivity | discriminate].
    + exists "Office IP Bypass". split; [reflexivity | discriminate].
Defined.

Lemma configured_account_witness :
  calls (snd (FixZeroTrust.phase1 (svc := scripted) (lib := json_text) (cred := cred)
                (start (svc := scripted)
                   [reply (envelope (PList [app_json www_app; app_json studio_new]));
                    reply (envelope (PList [policy_json service_rule;
                                            policy_json admins_rule]))])))
  = [get_request (lib := json_text) (cred := cred) BASE_URL;
     get_request (lib := json_text) (cred := cred)
       (FixZeroTrust.policies_url (PStr "a3"))].
Proof.
  rewrite (configured_account_is_only_read
             (svc := scripted) (lib := json_text) (cred := cred)
             [reply (envelope (PList [app_json www_app; app_json studio_new]));
              reply (envelope (PList [policy_json service_rule;
                                      policy_json admins_rule]))]
             [reply (envelope (PList [policy_json service_rule;
                                      policy_json admins_rule]))]
             []
             (envelope (PList [app_json www_app; app_json studio_new]))
             (envelope (PList [policy_json service_rule; policy_json admins_rule]))
             [app_json www_app] (app_json studio_new) [] (PStr "a3")
             (PList [policy_json service_rule; policy_json admins_rule])).
  - reflexivity.
  - apply scripted_answers.
  - reflexivity.
  - repeat constructor. exact www_not_studio.
  - exists (PStr "studio.raydoug.com"). split; reflexivity.
  - reflexivity.
  - apply scripted_answers.
  - reflexivity.
  - reflexivity.
  - reflexivity.
Defined.

Lemma both_policies_witness :
  calls (snd (FixZeroTrust.ensure_policies
                (svc := scripted) (lib := json_text) (cred := cred)
                (app_json studio_new)
                (start (svc := scripted)
                   [reply (envelope (PList [policy_json office])); denied])))
  = [get_request (lib := json_text) (cred := cred)
       (FixZeroTrust.policies_url (PStr "a3"));
     create_policy_request (lib := json_text) (cred := cred)
       (PStr "a3") FixZeroTrust.allow_admins;
     create_policy_request (lib := json_text) (cred := cred)
       (PStr "a3") FixZeroTrust.allow_service].
Proof.
  pose proof (both_policies_are_added
                (svc := scripted) (lib := json_text) (cred := cred)
                (app_json studio_new) (PStr "a3")
                (envelope (PList [policy_json office])) [policy_json office]
                (start (svc := scripted)
                   [reply (envelope (PList [policy_json office])); denied])
                [denied]) as H.
  destruct H as (C & _).
  - reflexivity.
  - apply scripted_answers.
  - reflexivity.
  - repeat constructor. exists (PStr "Office"). split; reflexivity.
  - repeat constructor. exists (PStr "Office"). split; reflexivity.
  - apply (C []). right. exists "Forbidden". apply scripted_refuses.
Defined.

End Examples.
